(** * novelai-sdk command line: request pipeline and interactive session

    A shallow embedding of [novelai/cli/parser.py], [novelai/cli/interactive.py],
    [novelai/cli/generation.py] and [novelai/cli/output.py], followed by
    the properties of the request normalisation pipeline, the stream
    chunk decoder, the image persistence layout and the interactive
    [/set] and [/unset] commands.

    Conventions of the embedding:
    - a Python [str] of ASCII characters is a [string]; the methods
      [strip], [lower], [split] and [replace] and the function [int]
      are written out for ASCII;
    - a Python [int] is a [Z], a Python [float] is a binary64 [float];
    - a function that may raise returns a [result];
    - console output, file writes and transport calls are recorded as a
      list of [event]s, in program order; a line of the console is
      recorded when rich prints it, and is an exception when rich
      refuses its markup;
    - what the CLI imports and does not define is a class: [Constants]
      for [novelai.constants], [Builtins] for the CPython functions
      [float], [b64decode] and [shlex.split], [Console] for rich,
      [Service] for the pydantic request models and the client,
      [Session.Namespace_object] for the attributes CPython and
      argparse give to a Namespace object.  Every property is proved
      for all instances; [Sample] holds one instance of each, for the
      examples. *)

From Stdlib Require Import ZArith Ascii String DecimalString List Bool Lia.
From Stdlib Require DecimalNat DecimalFacts.
From Stdlib Require Import PrimFloat Uint63.
From stdpp Require Import gmap strings list fin_maps.

Set Warnings "-inexact-float,-abstract-large-number,-register-all".

Local Open Scope Z_scope.

(** ** Results of fallible calls *)

Inductive result (E A : Type) : Type :=
  | Ok (a : A)
  | Raise (e : E).
Arguments Ok {E A} a.
Arguments Raise {E A} e.

(** ** Python string methods (ASCII) *)

Module PyStr.

(** [str.isspace] on the ASCII range: TAB, LF, VT, FF, CR, the four
    separators 0x1c-0x1f and the space. *)
Definition isspace (c : ascii) : bool :=
  let n := nat_of_ascii c in
  ((9 <=? n)%nat && (n <=? 13)%nat) || ((28 <=? n)%nat && (n <=? 32)%nat).

Fixpoint lstrip (s : string) : string :=
  match s with
  | String c r => if isspace c then lstrip r else s
  | EmptyString => EmptyString
  end.

Fixpoint rstrip (s : string) : string :=
  match s with
  | String c r =>
      match rstrip r with
      | EmptyString => if isspace c then EmptyString else String c EmptyString
      | r' => String c r'
      end
  | EmptyString => EmptyString
  end.

Definition strip (s : string) : string := rstrip (lstrip s).

Definition lower_char (c : ascii) : ascii :=
  let n := nat_of_ascii c in
  if ((65 <=? n)%nat && (n <=? 90)%nat) then ascii_of_nat (n + 32) else c.

Fixpoint lower (s : string) : string :=
  match s with
  | String c r => String (lower_char c) (lower r)
  | EmptyString => EmptyString
  end.

(** [sep in s], for a one-character [sep]. *)
Fixpoint contains_char (sep : ascii) (s : string) : bool :=
  match s with
  | String c r => Ascii.eqb c sep || contains_char sep r
  | EmptyString => false
  end.

(** [s.split(sep)], for a one-character [sep]: never the empty list. *)
Fixpoint split (sep : ascii) (s : string) : list string :=
  match s with
  | EmptyString => [EmptyString]
  | String c r =>
      if Ascii.eqb c sep then EmptyString :: split sep r
      else match split sep r with
           | w :: ws => String c w :: ws
           | [] => [String c EmptyString]
           end
  end.

(** [s.replace(a, b)], for one-character [a] and [b]. *)
Fixpoint replace_char (a b : ascii) (s : string) : string :=
  match s with
  | String c r => String (if Ascii.eqb c a then b else c) (replace_char a b r)
  | EmptyString => EmptyString
  end.

(** [s.lstrip(c)], for a one-character [c]. *)
Fixpoint lstrip_char (c0 : ascii) (s : string) : string :=
  match s with
  | String c r => if Ascii.eqb c c0 then lstrip_char c0 r else s
  | EmptyString => EmptyString
  end.

Definition startswith_char (c0 : ascii) (s : string) : bool :=
  match s with
  | String c _ => Ascii.eqb c c0
  | EmptyString => false
  end.

(** [sep.join(words)] *)
Definition join (sep : string) (words : list string) : string :=
  String.concat sep words.

(** [x in choices], for a list of strings. *)
Definition str_in (x : string) (choices : list string) : bool :=
  existsb (String.eqb x) choices.

Definition digit_value (c : ascii) : option Z :=
  let n := nat_of_ascii c in
  if ((48 <=? n)%nat && (n <=? 57)%nat) then Some (Z.of_nat n - 48) else None.

(** The whitespace that [int] drops around a literal: the six
    characters of C's [isspace], not the separators 0x1c-0x1f that
    [str.strip] drops as well. *)
Definition int_space (c : ascii) : bool :=
  let n := nat_of_ascii c in
  ((9 <=? n)%nat && (n <=? 13)%nat) || (n =? 32)%nat.

Fixpoint int_lstrip (s : string) : string :=
  match s with
  | String c r => if int_space c then int_lstrip r else s
  | EmptyString => EmptyString
  end.

Fixpoint int_rstrip (s : string) : string :=
  match s with
  | String c r =>
      match int_rstrip r with
      | EmptyString => if int_space c then EmptyString else String c EmptyString
      | r' => String c r'
      end
  | EmptyString => EmptyString
  end.

(** [sys.get_int_max_str_digits()], as CPython starts with it. *)
Definition MAX_STR_DIGITS : nat := 4300.

(** The digits of a base-10 [int] literal: one underscore may stand
    between two digits, nowhere else, and a literal of more than
    [MAX_STR_DIGITS] digits is refused, leading zeros counted. *)
Fixpoint int_digits (s : string) (acc : Z) (after_digit : bool) (count : nat)
  : option Z :=
  match s with
  | EmptyString =>
      if after_digit && (count <=? MAX_STR_DIGITS)%nat then Some acc else None
  | String c r =>
      match digit_value c with
      | Some d => int_digits r (10 * acc + d) true (S count)
      | None =>
          if Ascii.eqb c "_" && after_digit then int_digits r acc false count
          else None
      end
  end.

(** [int(s)] for a string of ASCII characters: surrounding whitespace
    is dropped, one sign is allowed; [None] stands for the
    [ValueError].  (Of the characters beyond ASCII, [int] reads the
    decimal digits of other scripts and drops their blanks; a string
    that holds one is outside of what is modelled here.) *)
Definition int (s : string) : option Z :=
  match int_rstrip (int_lstrip s) with
  | String "-" r => option_map Z.opp (int_digits r 0 false 0)
  | String "+" r => int_digits r 0 false 0
  | t => int_digits t 0 false 0
  end.

(** A string of ASCII characters. *)
Fixpoint is_ascii (s : string) : bool :=
  match s with
  | EmptyString => true
  | String c r => (nat_of_ascii c <? 128)%nat && is_ascii r
  end.

(** [str(n)] for a natural number. *)
Definition str_of_nat (n : nat) : string :=
  NilEmpty.string_of_uint (Nat.to_uint n).

Fixpoint zeros (k : nat) : string :=
  match k with
  | O => EmptyString
  | S k' => String "0" (zeros k')
  end.

(** [f"{n:04d}"]: zero-padded to at least four digits. *)
Definition format_04d (n : nat) : string :=
  let d := str_of_nat n in
  zeros (4 - String.length d) +:+ d.

End PyStr.


(** ** [argparse.Namespace]: the attributes [build_parser] declares

    Every attribute has the type its [add_argument] gives it: [type=int]
    is [Z], [type=float] is [float], a [store_true] flag or
    [BooleanOptionalAction] is [bool], and an option without default is
    [None] until it is given. *)

Module Namespace.

Record t : Type := mk {
  prompt : option string;
  interactive : bool;
  output : string;
  request_json : option string;
  request_json_stdin : bool;
  model : string;
  size : string;
  steps : Z;
  scale : float;
  sampler : string;
  seed : option Z;
  quality : bool;
  uc_preset : string;
  negative_prompt : option string;
  reference : option string;
  ref_type : string;
  ref_fidelity : float;
  ref_strength : float;
  character_prompt : option string;
  controlnet : option string;
  controlnet_strength : float;
  image : option string;
  strength : float;
  n_images : Z;
  noise : float;
  stream : bool;
  stream_dir : string
}.

Inductive attr : Type :=
  | a_prompt
  | a_interactive
  | a_output
  | a_request_json
  | a_request_json_stdin
  | a_model
  | a_size
  | a_steps
  | a_scale
  | a_sampler
  | a_seed
  | a_quality
  | a_uc_preset
  | a_negative_prompt
  | a_reference
  | a_ref_type
  | a_ref_fidelity
  | a_ref_strength
  | a_character_prompt
  | a_controlnet
  | a_controlnet_strength
  | a_image
  | a_strength
  | a_n_images
  | a_noise
  | a_stream
  | a_stream_dir.

Definition attr_name (a : attr) : string :=
  match a with
  | a_prompt => "prompt"
  | a_interactive => "interactive"
  | a_output => "output"
  | a_request_json => "request_json"
  | a_request_json_stdin => "request_json_stdin"
  | a_model => "model"
  | a_size => "size"
  | a_steps => "steps"
  | a_scale => "scale"
  | a_sampler => "sampler"
  | a_seed => "seed"
  | a_quality => "quality"
  | a_uc_preset => "uc_preset"
  | a_negative_prompt => "negative_prompt"
  | a_reference => "reference"
  | a_ref_type => "ref_type"
  | a_ref_fidelity => "ref_fidelity"
  | a_ref_strength => "ref_strength"
  | a_character_prompt => "character_prompt"
  | a_controlnet => "controlnet"
  | a_controlnet_strength => "controlnet_strength"
  | a_image => "image"
  | a_strength => "strength"
  | a_n_images => "n_images"
  | a_noise => "noise"
  | a_stream => "stream"
  | a_stream_dir => "stream_dir"
  end.

Definition all_attrs : list attr :=
  [a_prompt; a_interactive; a_output; a_request_json; a_request_json_stdin; a_model; a_size; a_steps; a_scale; a_sampler; a_seed; a_quality; a_uc_preset; a_negative_prompt; a_reference; a_ref_type; a_ref_fidelity; a_ref_strength; a_character_prompt; a_controlnet; a_controlnet_strength; a_image; a_strength; a_n_images; a_noise; a_stream; a_stream_dir].

Definition attr_type (a : attr) : Type :=
  match a with
  | a_prompt | a_request_json | a_negative_prompt | a_reference | a_character_prompt | a_controlnet | a_image => option string
  | a_interactive | a_request_json_stdin | a_quality | a_stream => bool
  | a_output | a_model | a_size | a_sampler | a_uc_preset | a_ref_type | a_stream_dir => string
  | a_steps | a_n_images => Z
  | a_scale | a_ref_fidelity | a_ref_strength | a_controlnet_strength | a_strength | a_noise => float
  | a_seed => option Z
  end.

Definition getattr (args : t) (a : attr) : attr_type a :=
  match a with
  | a_prompt => prompt args
  | a_interactive => interactive args
  | a_output => output args
  | a_request_json => request_json args
  | a_request_json_stdin => request_json_stdin args
  | a_model => model args
  | a_size => size args
  | a_steps => steps args
  | a_scale => scale args
  | a_sampler => sampler args
  | a_seed => seed args
  | a_quality => quality args
  | a_uc_preset => uc_preset args
  | a_negative_prompt => negative_prompt args
  | a_reference => reference args
  | a_ref_type => ref_type args
  | a_ref_fidelity => ref_fidelity args
  | a_ref_strength => ref_strength args
  | a_character_prompt => character_prompt args
  | a_controlnet => controlnet args
  | a_controlnet_strength => controlnet_strength args
  | a_image => image args
  | a_strength => strength args
  | a_n_images => n_images args
  | a_noise => noise args
  | a_stream => stream args
  | a_stream_dir => stream_dir args
  end.

Definition setattr (args : t) (a : attr) : attr_type a -> t :=
  let '(mk x0 x1 x2 x3 x4 x5 x6 x7 x8 x9 x10 x11 x12 x13 x14 x15 x16 x17 x18 x19 x20 x21 x22 x23 x24 x25 x26) := args in
  match a with
  | a_prompt => fun v =>
      mk v x1 x2 x3 x4 x5 x6 x7 x8 x9 x10 x11 x12 x13 x14 x15 x16 x17 x18 x19 x20 x21 x22 x23 x24 x25 x26
  | a_interactive => fun v =>
      mk x0 v x2 x3 x4 x5 x6 x7 x8 x9 x10 x11 x12 x13 x14 x15 x16 x17 x18 x19 x20 x21 x22 x23 x24 x25 x26
  | a_output => fun v =>
      mk x0 x1 v x3 x4 x5 x6 x7 x8 x9 x10 x11 x12 x13 x14 x15 x16 x17 x18 x19 x20 x21 x22 x23 x24 x25 x26
  | a_request_json => fun v =>
      mk x0 x1 x2 v x4 x5 x6 x7 x8 x9 x10 x11 x12 x13 x14 x15 x16 x17 x18 x19 x20 x21 x22 x23 x24 x25 x26
  | a_request_json_stdin => fun v =>
      mk x0 x1 x2 x3 v x5 x6 x7 x8 x9 x10 x11 x12 x13 x14 x15 x16 x17 x18 x19 x20 x21 x22 x23 x24 x25 x26
  | a_model => fun v =>
      mk x0 x1 x2 x3 x4 v x6 x7 x8 x9 x10 x11 x12 x13 x14 x15 x16 x17 x18 x19 x20 x21 x22 x23 x24 x25 x26
  | a_size => fun v =>
      mk x0 x1 x2 x3 x4 x5 v x7 x8 x9 x10 x11 x12 x13 x14 x15 x16 x17 x18 x19 x20 x21 x22 x23 x24 x25 x26
  | a_steps => fun v =>
      mk x0 x1 x2 x3 x4 x5 x6 v x8 x9 x10 x11 x12 x13 x14 x15 x16 x17 x18 x19 x20 x21 x22 x23 x24 x25 x26
  | a_scale => fun v =>
      mk x0 x1 x2 x3 x4 x5 x6 x7 v x9 x10 x11 x12 x13 x14 x15 x16 x17 x18 x19 x20 x21 x22 x23 x24 x25 x26
  | a_sampler => fun v =>
      mk x0 x1 x2 x3 x4 x5 x6 x7 x8 v x10 x11 x12 x13 x14 x15 x16 x17 x18 x19 x20 x21 x22 x23 x24 x25 x26
  | a_seed => fun v =>
      mk x0 x1 x2 x3 x4 x5 x6 x7 x8 x9 v x11 x12 x13 x14 x15 x16 x17 x18 x19 x20 x21 x22 x23 x24 x25 x26
  | a_quality => fun v =>
      mk x0 x1 x2 x3 x4 x5 x6 x7 x8 x9 x10 v x12 x13 x14 x15 x16 x17 x18 x19 x20 x21 x22 x23 x24 x25 x26
  | a_uc_preset => fun v =>
      mk x0 x1 x2 x3 x4 x5 x6 x7 x8 x9 x10 x11 v x13 x14 x15 x16 x17 x18 x19 x20 x21 x22 x23 x24 x25 x26
  | a_negative_prompt => fun v =>
      mk x0 x1 x2 x3 x4 x5 x6 x7 x8 x9 x10 x11 x12 v x14 x15 x16 x17 x18 x19 x20 x21 x22 x23 x24 x25 x26
  | a_reference => fun v =>
      mk x0 x1 x2 x3 x4 x5 x6 x7 x8 x9 x10 x11 x12 x13 v x15 x16 x17 x18 x19 x20 x21 x22 x23 x24 x25 x26
  | a_ref_type => fun v =>
      mk x0 x1 x2 x3 x4 x5 x6 x7 x8 x9 x10 x11 x12 x13 x14 v x16 x17 x18 x19 x20 x21 x22 x23 x24 x25 x26
  | a_ref_fidelity => fun v =>
      mk x0 x1 x2 x3 x4 x5 x6 x7 x8 x9 x10 x11 x12 x13 x14 x15 v x17 x18 x19 x20 x21 x22 x23 x24 x25 x26
  | a_ref_strength => fun v =>
      mk x0 x1 x2 x3 x4 x5 x6 x7 x8 x9 x10 x11 x12 x13 x14 x15 x16 v x18 x19 x20 x21 x22 x23 x24 x25 x26
  | a_character_prompt => fun v =>
      mk x0 x1 x2 x3 x4 x5 x6 x7 x8 x9 x10 x11 x12 x13 x14 x15 x16 x17 v x19 x20 x21 x22 x23 x24 x25 x26
  | a_controlnet => fun v =>
      mk x0 x1 x2 x3 x4 x5 x6 x7 x8 x9 x10 x11 x12 x13 x14 x15 x16 x17 x18 v x20 x21 x22 x23 x24 x25 x26
  | a_controlnet_strength => fun v =>
      mk x0 x1 x2 x3 x4 x5 x6 x7 x8 x9 x10 x11 x12 x13 x14 x15 x16 x17 x18 x19 v x21 x22 x23 x24 x25 x26
  | a_image => fun v =>
      mk x0 x1 x2 x3 x4 x5 x6 x7 x8 x9 x10 x11 x12 x13 x14 x15 x16 x17 x18 x19 x20 v x22 x23 x24 x25 x26
  | a_strength => fun v =>
      mk x0 x1 x2 x3 x4 x5 x6 x7 x8 x9 x10 x11 x12 x13 x14 x15 x16 x17 x18 x19 x20 x21 v x23 x24 x25 x26
  | a_n_images => fun v =>
      mk x0 x1 x2 x3 x4 x5 x6 x7 x8 x9 x10 x11 x12 x13 x14 x15 x16 x17 x18 x19 x20 x21 x22 v x24 x25 x26
  | a_noise => fun v =>
      mk x0 x1 x2 x3 x4 x5 x6 x7 x8 x9 x10 x11 x12 x13 x14 x15 x16 x17 x18 x19 x20 x21 x22 x23 v x25 x26
  | a_stream => fun v =>
      mk x0 x1 x2 x3 x4 x5 x6 x7 x8 x9 x10 x11 x12 x13 x14 x15 x16 x17 x18 x19 x20 x21 x22 x23 x24 v x26
  | a_stream_dir => fun v =>
      mk x0 x1 x2 x3 x4 x5 x6 x7 x8 x9 x10 x11 x12 x13 x14 x15 x16 x17 x18 x19 x20 x21 x22 x23 x24 x25 v
  end.

(** [hasattr(args, name)] for the data attributes: the attribute of
    that name, if the parser declares one.  (A name of the [Namespace]
    object itself, such as [__class__], also answers [hasattr]; writing
    to it leaves every data attribute as it is, as the answer [None]
    does here.) *)
Definition attr_of_name (name : string) : option attr :=
  find (fun a => String.eqb (attr_name a) name) all_attrs.

(** [value is None], for a value read from or written to attribute [a]. *)
Definition is_None (a : attr) : attr_type a -> bool :=
  match a with
  | a_prompt | a_request_json | a_negative_prompt | a_reference
  | a_character_prompt | a_controlnet | a_image =>
      fun v : option string => match v with None => true | Some _ => false end
  | a_seed => fun v : option Z => match v with None => true | Some _ => false end
  | _ => fun _ => false
  end.

#[global] Instance attr_eq_dec : EqDecision attr.
Proof. solve_decision. Defined.

End Namespace.

Abbreviation Namespace := Namespace.t.

(** ** What the CLI imports and does not define

    [novelai.constants] (the members of the [Literal] types and the
    defaults) and the CPython library functions whose grammar is not
    written out here.  [None] stands for the [ValueError] that [float]
    and [shlex.split] raise; the [Raise] of [b64decode] carries the text
    of its [binascii.Error]. *)

Class Constants : Type := {
  MODEL_CHOICES : list string;
  SAMPLER_CHOICES : list string;
  UC_PRESET_CHOICES : list string;
  DEFAULT_MODEL : string;
  DEFAULT_SAMPLER : string;
  DEFAULT_UC_PRESET : string
}.

Class Builtins : Type := {
  py_float : string -> option float;
  b64decode : string -> result string (list Byte.byte);
  shlex_split : string -> option (list string)
}.

(** [constants.py] *)
Definition REF_TYPE_CHOICES : list string :=
  ["character"; "style"; "character&style"].

(** ** [parser.py] *)

Module Parser.

Inductive ValueError : Type :=
  | ValueError_msg (message : string)
  | ValueError_range (name : string) (min_value max_value : float)
  | ValueError_int (literal : string)
  | ValueError_float (literal : string).

Definition _validate_range (value min_value max_value : float) (name : string)
  : result ValueError float :=
  if negb (PrimFloat.leb min_value value && PrimFloat.leb value max_value)
  then Raise (ValueError_range name min_value max_value)
  else Ok value.

Definition parse_bool_value (value : string) : result ValueError bool :=
  let normalized := PyStr.lower (PyStr.strip value) in
  if PyStr.str_in normalized ["1"; "true"; "yes"; "y"; "on"] then Ok true
  else if PyStr.str_in normalized ["0"; "false"; "no"; "n"; "off"] then Ok false
  else Raise (ValueError_msg "expected boolean (true/false)").

Definition parse_seed_value (value : string) : result ValueError (option Z) :=
  let normalized := PyStr.lower (PyStr.strip value) in
  if PyStr.str_in normalized ["none"; "null"; "random"] then Ok None
  else match PyStr.int value with
       | Some n => Ok (Some n)
       | None => Raise (ValueError_int value)
       end.

(** [parser.parse_args([])]: the declared defaults. *)
Definition parser_defaults `{Constants} : Namespace :=
  {| Namespace.prompt := None;
     Namespace.interactive := false;
     Namespace.output := "output";
     Namespace.request_json := None;
     Namespace.request_json_stdin := false;
     Namespace.model := DEFAULT_MODEL;
     Namespace.size := "portrait";
     Namespace.steps := 23;
     Namespace.scale := 5.0%float;
     Namespace.sampler := DEFAULT_SAMPLER;
     Namespace.seed := None;
     Namespace.quality := true;
     Namespace.uc_preset := DEFAULT_UC_PRESET;
     Namespace.negative_prompt := None;
     Namespace.reference := None;
     Namespace.ref_type := "character&style";
     Namespace.ref_fidelity := 1.0%float;
     Namespace.ref_strength := 1.0%float;
     Namespace.character_prompt := None;
     Namespace.controlnet := None;
     Namespace.controlnet_strength := 0.6%float;
     Namespace.image := None;
     Namespace.strength := 0.7%float;
     Namespace.n_images := 1;
     Namespace.noise := 0.0%float;
     Namespace.stream := false;
     Namespace.stream_dir := "streaming_output" |}.

(** The [try] block of [validate_args]: the first failed check raises. *)
Definition validate_args_checks (args : Namespace) : result ValueError unit :=
  if Namespace.steps args <? 1 then Raise (ValueError_msg "steps must be >= 1")
  else if Namespace.steps args >? 50 then Raise (ValueError_msg "steps must be <= 50")
  else if Namespace.n_images args <? 1 then Raise (ValueError_msg "n-images must be >= 1")
  else if Namespace.n_images args >? 8 then Raise (ValueError_msg "n-images must be <= 8")
  else
    match _validate_range (Namespace.scale args) 0.0 10.0 "scale" with
    | Raise e => Raise e
    | Ok _ =>
    match _validate_range (Namespace.ref_fidelity args) 0.0 1.0 "ref-fidelity" with
    | Raise e => Raise e
    | Ok _ =>
    match _validate_range (Namespace.ref_strength args) 0.0 1.0 "ref-strength" with
    | Raise e => Raise e
    | Ok _ =>
    match _validate_range (Namespace.controlnet_strength args) 0.01 1.0
            "controlnet-strength" with
    | Raise e => Raise e
    | Ok _ =>
    match _validate_range (Namespace.strength args) 0.01 0.99 "strength" with
    | Raise e => Raise e
    | Ok _ =>
    match _validate_range (Namespace.noise args) 0.0 0.99 "noise" with
    | Raise e => Raise e
    | Ok _ => Ok tt
    end end end end end end.

(** How a call of [validate_args] ends: it returns, it re-raises the
    [ValueError] (interactive), or [parser.error] ends the process. *)
Inductive validate_outcome : Type :=
  | Validated
  | Raised (e : ValueError)
  | ParserError (e : ValueError).

Definition validate_args (args : Namespace) (in_interactive : bool)
  : validate_outcome :=
  match validate_args_checks args with
  | Ok _ => Validated
  | Raise exc => if in_interactive then Raised exc else ParserError exc
  end.

(** What [parse_size] gives: the preset name, the pair, or the branch
    of the failure, which gives the message to [fail] and, once it is
    printed, ends the process by [sys.exit(1)]. *)
Inductive size_result : Type :=
  | SizePreset (name : string)
  | SizePair (width height : Z)
  | SizeExit (message : string).

Definition parse_size (size_str : string) : size_result :=
  if PyStr.contains_char "x" size_str then
    match map PyStr.int (PyStr.split "x" size_str) with
    | [Some width; Some height] => SizePair width height
    | _ => SizeExit ("Error: Invalid size format: " +:+ size_str)
    end
  else SizePreset size_str.

End Parser.


(** ** [interactive.py] *)

Module Interactive.

Import Namespace.

Definition KEY_ALIASES : list (string * string) :=
  [("m", "model"); ("model", "model");
   ("res", "size"); ("resolution", "size"); ("size", "size");
   ("st", "steps"); ("steps", "steps");
   ("cfg", "scale"); ("scale", "scale");
   ("sp", "sampler"); ("sampler", "sampler")].

(** [table.get(key)] / [table[key]] on a dict literal with distinct keys. *)
Fixpoint dict_get {V : Type} (table : list (string * V)) (key : string) : option V :=
  match table with
  | [] => None
  | (k, v) :: rest => if String.eqb key k then Some v else dict_get rest key
  end.

Definition _normalize_set_key (key : string) : string :=
  let key := PyStr.lower (PyStr.strip key) in
  match dict_get KEY_ALIASES key with
  | Some canonical => canonical
  | None => key
  end.

(** One entry of [_interactive_setters]: the attribute and the cast
    that produces a value for it. *)
Record setter : Type := Setter {
  setter_attr : attr;
  cast_fn : string -> result Parser.ValueError (attr_type setter_attr)
}.

(** The cast [str], for an attribute that holds a string ... *)
Definition cast_str (value : string) : result Parser.ValueError string :=
  Ok value.

(** ... and for one that holds a string or [None]. *)
Definition cast_str_opt (value : string) : result Parser.ValueError (option string) :=
  Ok (Some value).

Definition cast_int (value : string) : result Parser.ValueError Z :=
  match PyStr.int value with
  | Some n => Ok n
  | None => Raise (Parser.ValueError_int value)
  end.

Definition cast_float `{Builtins} (value : string) : result Parser.ValueError float :=
  match py_float value with
  | Some x => Ok x
  | None => Raise (Parser.ValueError_float value)
  end.

Definition _interactive_setters `{Builtins} : list (string * setter) :=
  [("model", Setter a_model cast_str);
   ("size", Setter a_size cast_str);
   ("steps", Setter a_steps cast_int);
   ("scale", Setter a_scale cast_float);
   ("sampler", Setter a_sampler cast_str);
   ("seed", Setter a_seed Parser.parse_seed_value);
   ("quality", Setter a_quality Parser.parse_bool_value);
   ("uc-preset", Setter a_uc_preset cast_str);
   ("negative-prompt", Setter a_negative_prompt cast_str_opt);
   ("reference", Setter a_reference cast_str_opt);
   ("ref-type", Setter a_ref_type cast_str);
   ("ref-fidelity", Setter a_ref_fidelity cast_float);
   ("ref-strength", Setter a_ref_strength cast_float);
   ("character-prompt", Setter a_character_prompt cast_str_opt);
   ("controlnet", Setter a_controlnet cast_str_opt);
   ("controlnet-strength", Setter a_controlnet_strength cast_float);
   ("image", Setter a_image cast_str_opt);
   ("strength", Setter a_strength cast_float);
   ("n-images", Setter a_n_images cast_int);
   ("noise", Setter a_noise cast_float);
   ("output", Setter a_output cast_str);
   ("stream", Setter a_stream Parser.parse_bool_value);
   ("stream-dir", Setter a_stream_dir cast_str)].

(** [_normalize_unset_value], at the attribute [hasattr] found. *)
Definition _normalize_unset_value (key : attr) (defaults : Namespace) : attr_type key :=
  match key with
  | a_seed => None
  | a_negative_prompt => None
  | a_reference => None
  | a_character_prompt => None
  | a_controlnet => None
  | a_image => None
  | a => getattr defaults a
  end.

(** The line [_apply_interactive_set] hands to [warn] or [success]
    once the record is as it leaves it ([success] stands before the
    block of the siblings, which no cast reaches).  Whether rich prints
    the line is the matter of [Session] below.  The last report stands
    for the [SystemExit] of [parser.error], which [validate_args] keeps
    for the non-interactive mode. *)
Inductive set_report : Type :=
  | Unknown_key (key : string)
  | Invalid_value (key : string) (exc : Parser.ValueError)
  | Rejected_value (key value : string)
  | Invalid_choice (key : string)
  | Updated (key : string)
  | Exit_parser_error (exc : Parser.ValueError).

(** The body of [_apply_interactive_set] once [setters[key]] is found:
    the record it leaves and the line it hands to the console. *)
Definition apply_setter `{Constants} (args defaults : Namespace)
    (key : string) (entry : setter) (value : string) : Namespace * set_report :=
  let attr := setter_attr entry in
  let old_value := getattr args attr in
  match cast_fn entry value with
  | Raise exc => (args, Invalid_value key exc)
  | Ok new_value =>
      let args := setattr args attr new_value in
      match Parser.validate_args args true with
      | Parser.Raised _ => (setattr args attr old_value, Rejected_value key value)
      | Parser.ParserError exc => (args, Exit_parser_error exc)
      | Parser.Validated =>
          if String.eqb key "model" && negb (PyStr.str_in (model args) MODEL_CHOICES)
          then (setattr args attr old_value, Invalid_choice key)
          else if String.eqb key "sampler"
                  && negb (PyStr.str_in (sampler args) SAMPLER_CHOICES)
          then (setattr args attr old_value, Invalid_choice key)
          else if String.eqb key "uc-preset"
                  && negb (PyStr.str_in (uc_preset args) UC_PRESET_CHOICES)
          then (setattr args attr old_value, Invalid_choice key)
          else if String.eqb key "ref-type"
                  && negb (PyStr.str_in (ref_type args) REF_TYPE_CHOICES)
          then (setattr args attr old_value, Invalid_choice key)
          else
            let args :=
              if String.eqb key "reference" && is_None attr new_value
              then setattr (setattr (setattr args
                     a_ref_type (ref_type defaults))
                     a_ref_fidelity (ref_fidelity defaults))
                     a_ref_strength (ref_strength defaults)
              else args in
            let args :=
              if String.eqb key "controlnet" && is_None attr new_value
              then setattr args a_controlnet_strength (controlnet_strength defaults)
              else args in
            let args :=
              if String.eqb key "image" && is_None attr new_value
              then setattr (setattr args
                     a_strength (strength defaults))
                     a_noise (noise defaults)
              else args in
            (args, Updated key)
      end
  end.

Definition _apply_interactive_set `{Constants} `{Builtins}
    (args defaults : Namespace) (key value : string) : Namespace * set_report :=
  match dict_get _interactive_setters key with
  | None => (args, Unknown_key key)
  | Some entry => apply_setter args defaults key entry value
  end.

(** What one command line hands to the console. *)
Inductive command_report : Type :=
  | Help_panel
  | Status_table
  | Current_short (key : string)
  | Usage_set
  | Usage_unset
  | Set_report (r : set_report)
  | Unset_unknown_key (token : string)
  | Unset_done (token : string)
  | Unknown_command (token : string)
  | Parse_error.

(** What one turn of the loop does before the console is asked: the
    record is written and the report is ready ([Continue], the loop
    goes on once the report is printed), the loop ends, the record is
    handed to [generate_streaming] or [generate_standard] (by its
    [stream] attribute), or an exception of the command leaves the
    loop. *)
Inductive loop_step : Type :=
  | Continue (args : Namespace) (report : option command_report)
  | Break
  | Generate (args : Namespace)
  | Uncaught (args : Namespace).

(** The branch of the loop for a line that starts with a slash, from
    the tokens [shlex.split] gave. *)
Definition interactive_command `{Constants} `{Builtins}
    (args defaults : Namespace) (tokens : list string) : loop_step :=
  match tokens with
  | [] => Uncaught args
  | token0 :: rest =>
      let command := PyStr.lower token0 in
      let command_key := _normalize_set_key (PyStr.lstrip_char "/" command) in
      if PyStr.str_in command ["/quit"; "/exit"] then Break
      else if String.eqb command "/help" then Continue args (Some Help_panel)
      else if String.eqb command "/show" then Continue args (Some Status_table)
      else if String.eqb command "/set" then
        match rest with
        | key_token :: ((_ :: _) as value_tokens) =>
            let key := _normalize_set_key key_token in
            let value := PyStr.join " " value_tokens in
            match _apply_interactive_set args defaults key value with
            | (args, Exit_parser_error exc) => Uncaught args
            | (args, r) => Continue args (Some (Set_report r))
            end
        | _ => Continue args (Some Usage_set)
        end
      else if PyStr.str_in command_key ["model"; "size"; "steps"; "scale"; "sampler"] then
        match rest with
        | [] => Continue args (Some (Current_short command_key))
        | _ =>
            let value := PyStr.join " " rest in
            match _apply_interactive_set args defaults command_key value with
            | (args, Exit_parser_error exc) => Uncaught args
            | (args, r) => Continue args (Some (Set_report r))
            end
        end
      else if String.eqb command "/unset" then
        match rest with
        | [key_token] =>
            let key := PyStr.replace_char "-" "_" (_normalize_set_key key_token) in
            match attr_of_name key with
            | None => Continue args (Some (Unset_unknown_key key_token))
            | Some a =>
                Continue (setattr args a (_normalize_unset_value a defaults))
                         (Some (Unset_done key_token))
            end
        | _ => Continue args (Some Usage_unset)
        end
      else Continue args (Some (Unknown_command token0))
  end.

(** The record after the command lines [commands], each given by its
    tokens, from [args]: the run ends where the loop is left. *)
Fixpoint run_commands `{Constants} `{Builtins}
    (args defaults : Namespace) (commands : list (list string)) : Namespace :=
  match commands with
  | [] => args
  | tokens :: rest =>
      match interactive_command args defaults tokens with
      | Continue args _ => run_commands args defaults rest
      | Break => args
      | Generate args => args
      | Uncaught args => args
      end
  end.

(** Two properties of an entry of the setters table.  Under one of the
    three keys whose siblings are reset, the cast never gives [None];
    and an attribute with choices is written under its own key only. *)
Definition never_None (key : string) (entry : setter) : Prop :=
  forall value v,
    cast_fn entry value = Ok v ->
    is_None (setter_attr entry) v = true ->
    key <> "reference" /\ key <> "controlnet" /\ key <> "image".

Definition key_matches (key : string) (entry : setter) : Prop :=
  (setter_attr entry = a_model -> key = "model")
  /\ (setter_attr entry = a_sampler -> key = "sampler")
  /\ (setter_attr entry = a_uc_preset -> key = "uc-preset")
  /\ (setter_attr entry = a_ref_type -> key = "ref-type").

(** The four attributes that [_apply_interactive_set] checks against
    their choices all hold one of them. *)
Definition choices_ok `{Constants} (args : Namespace) : Prop :=
  PyStr.str_in (model args) MODEL_CHOICES = true
  /\ PyStr.str_in (sampler args) SAMPLER_CHOICES = true
  /\ PyStr.str_in (uc_preset args) UC_PRESET_CHOICES = true
  /\ PyStr.str_in (ref_type args) REF_TYPE_CHOICES = true.

(** What [Prompt.ask] gives. *)
Inductive prompt_input : Type :=
  | KeyboardInterrupt
  | EOFError
  | Line (text : string).

(** One turn of the [while True] loop of [interactive_loop], the
    console left aside: the record and the report of the turn. *)
Definition interactive_turn `{Constants} `{Builtins}
    (args defaults : Namespace) (input : prompt_input) : loop_step :=
  match input with
  | KeyboardInterrupt => Continue args None
  | EOFError => Break
  | Line text =>
      let line := PyStr.strip text in
      match line with
      | EmptyString => Continue args None
      | _ =>
          if PyStr.startswith_char "/" line then
            match shlex_split line with
            | None => Continue args (Some Parse_error)
            | Some tokens => interactive_command args defaults tokens
            end
          else Generate (setattr args a_prompt (Some line))
      end
  end.

End Interactive.

(** ** [pathlib.PurePosixPath], as far as [generation.py] uses it *)

Module Path.

(** A parsed path: the root ([""], ["/"] or ["//"]) and the components,
    without the empty and ["."] ones. *)
Record t : Type := mk { root : string; parts : list string }.

Definition keep_part (x : string) : bool :=
  negb (String.eqb x "") && negb (String.eqb x ".").

(** [Path(s)] *)
Definition of_str (s : string) : t :=
  match s with
  | String "/" (String "/" (String "/" _)) => mk "/" (filter keep_part (PyStr.split "/" s))
  | String "/" (String "/" rel) => mk "//" (filter keep_part (PyStr.split "/" rel))
  | String "/" rel => mk "/" (filter keep_part (PyStr.split "/" rel))
  | _ => mk "" (filter keep_part (PyStr.split "/" s))
  end.

(** [str(p)] *)
Definition to_str (p : t) : string :=
  match root p, parts p with
  | EmptyString, [] => "."
  | r, ps => r +:+ PyStr.join "/" ps
  end.

(** [p.name] *)
Definition name (p : t) : string := List.last (parts p) "".

(** The part of [s] from its last dot on, if it has a dot. *)
Fixpoint from_last_dot (s : string) : option string :=
  match s with
  | EmptyString => None
  | String c r =>
      match from_last_dot r with
      | Some x => Some x
      | None => if Ascii.eqb c "." then Some s else None
      end
  end.

(** [p.suffix]: the name from its last dot on, when that dot is neither
    the first nor the last character of the name. *)
Definition suffix (p : t) : string :=
  match name p with
  | EmptyString => ""
  | String _ r =>
      match from_last_dot r with
      | Some (String _ (String _ _) as sfx) => sfx
      | _ => ""
      end
  end.

(** [p.parent] *)
Definition parent (p : t) : t :=
  match parts p with
  | [] => p
  | ps => mk (root p) (removelast ps)
  end.

(** [p / other] *)
Definition joinpath (p : t) (other : string) : t :=
  let o := of_str other in
  match root o with
  | EmptyString => mk (root p) (parts p ++ parts o)
  | _ => o
  end.

End Path.

Abbreviation Path := Path.t.

(** ** JSON values and request payloads

    What [json.loads] gives: a [dict] with string keys is a finite map,
    and two payloads are equal when they hold the same values under the
    same keys. *)

Inductive json : Type :=
  | JNull
  | JBool (b : bool)
  | JInt (n : Z)
  | JFloat (x : float)
  | JStr (s : string)
  | JList (items : list json)
  | JDict (d : gmap string json).

(** [d.get(key)]: [None] when the key is missing. *)
Definition py_get (d : gmap string json) (key : string) : json :=
  default JNull (d !! key).

(** [key in d] *)
Definition py_in (key : string) (d : gmap string json) : bool :=
  bool_decide (is_Some (d !! key)).

(** [{k: v for k, v in d.items() if k in allowed}] *)
Definition keep_keys (allowed : gset string) (d : gmap string json) : gmap string json :=
  filter (fun kv => kv.1 ∈ allowed) d.

(** ** The console

    [output.py] prints through rich: [info] gives the message to
    [console.print] as it is, [success], [warn] and [fail] put it
    between a style tag and its closing tag first.  rich reads markup
    in all it prints, and raises [MarkupError] at a closing tag that
    closes nothing, so a line that holds text of the user or of the
    request is printed or refused.  rich is used by the CLI and defined
    elsewhere: [line_renders] says which lines it prints, and
    [MarkupError_text] is [str(e)] of the error for a line it refuses.
    The prompt of the interactive loop and the lines, tables and panels
    of its reports go the same way; they are built from the record, and
    [label_renders] and [report_renders] say what rich does with them. *)

Inductive console_line : Type :=
  | Line_info (message : string)
  | Line_success (message : string)
  | Line_warn (message : string)
  | Line_fail (message : string)
  | Line_stream_override (stream_value : json).

Class Console : Type := {
  line_renders : console_line -> bool;
  MarkupError_text : console_line -> string;
  label_renders : Namespace -> bool;
  report_renders : Namespace -> Interactive.command_report -> bool
}.


(** ** [interactive_loop], with the console and the Namespace object

    [Interactive.interactive_command] says what a command line does to
    the record and which report it gives to the console.  The loop as
    it runs has two more parts.  The report is printed by rich after
    the record is written, and rich may refuse it; the exception then
    leaves the loop, and the record keeps what the command wrote.  And
    [hasattr(args, key)] of [/unset] holds for the attributes of the
    Namespace object as well as for the arguments of the parser:
    [setattr(args, "__dict__", defaults.__dict__)] makes the two
    records one dictionary, so that from then on a write to [args] is
    a write to [defaults]; an attribute that cannot be written raises
    [AttributeError]; any other (a method, [__class__], [__doc__])
    is bound on the object and no argument changes.  Which names the
    object has is a matter of CPython and argparse:
    [object_attribute_of] says it, for a name that is no argument. *)

Module Session.

Import Namespace Interactive.

Inductive object_attribute : Type :=
  | Attr_dict
  | Attr_not_writable
  | Attr_plain.

Class Namespace_object : Type := {
  object_attribute_of : string -> option object_attribute
}.

(** [args] and [defaults] of [interactive_loop]: two records, or one
    dictionary under both names. *)
Inductive session : Type :=
  | Own_dict (args defaults : Namespace)
  | Shared_dict (args : Namespace).

Definition session_args (s : session) : Namespace :=
  match s with
  | Own_dict args _ => args
  | Shared_dict args => args
  end.

Definition session_defaults (s : session) : Namespace :=
  match s with
  | Own_dict _ defaults => defaults
  | Shared_dict args => args
  end.

(** The session once the attributes of [args] are those of [args']. *)
Definition store (s : session) (args' : Namespace) : session :=
  match s with
  | Own_dict _ defaults => Own_dict args' defaults
  | Shared_dict _ => Shared_dict args'
  end.

(** The exceptions that leave the loop. *)
Inductive loop_exception : Type :=
  | MarkupError_of_label
  | MarkupError_of_report (report : command_report)
  | MarkupError_of_line (line : console_line)
  | AttributeError (name : string)
  | Exception_of_command.

(** How one turn of the loop ends, and the session it leaves. *)
Inductive turn_end : Type :=
  | Goes_on (s : session)
  | Leaves (s : session)
  | Generates (s : session)
  | Raises (s : session) (e : loop_exception).

Definition session_of (t : turn_end) : session :=
  match t with
  | Goes_on s | Leaves s | Generates s | Raises s _ => s
  end.

(** The report of a command goes to the console, and [continue]. *)
Definition print_report `{Console} (s : session) (report : command_report) : turn_end :=
  if report_renders (session_args s) report then Goes_on s
  else Raises s (MarkupError_of_report report).

(** The token and the key of an [/unset] line whose key names no
    argument of the parser. *)
Definition unset_other_key (tokens : list string) : option (string * string) :=
  match tokens with
  | [token0; key_token] =>
      if String.eqb (PyStr.lower token0) "/unset" then
        let key := PyStr.replace_char "-" "_" (_normalize_set_key key_token) in
        match attr_of_name key with
        | None => Some (key_token, key)
        | Some _ => None
        end
      else None
  | _ => None
  end.

(** The branch of the loop for a line that starts with a slash. *)
Definition interactive_loop_command `{Constants} `{Builtins} `{Console}
    `{Namespace_object} (s : session) (tokens : list string) : turn_end :=
  match unset_other_key tokens with
  | Some (key_token, key) =>
      match object_attribute_of key with
      | None => print_report s (Unset_unknown_key key_token)
      | Some Attr_dict =>
          print_report (Shared_dict (session_defaults s)) (Unset_done key_token)
      | Some Attr_not_writable => Raises s (AttributeError key)
      | Some Attr_plain => print_report s (Unset_done key_token)
      end
  | None =>
      match interactive_command (session_args s) (session_defaults s) tokens with
      | Continue args None => Goes_on (store s args)
      | Continue args (Some report) => print_report (store s args) report
      | Break => Leaves s
      | Generate args => Generates (store s args)
      | Uncaught args => Raises (store s args) Exception_of_command
      end
  end.

(** One turn of the [while True] loop, up to the call of the
    generation. *)
Definition interactive_loop_turn `{Constants} `{Builtins} `{Console}
    `{Namespace_object} (s : session) (input : prompt_input) : turn_end :=
  if negb (label_renders (session_args s)) then Raises s MarkupError_of_label
  else
    match input with
    | KeyboardInterrupt =>
        let line := Line_warn "Use /quit to exit interactive mode." in
        if line_renders line then Goes_on s else Raises s (MarkupError_of_line line)
    | EOFError =>
        if line_renders (Line_info "") then Leaves s
        else Raises s (MarkupError_of_line (Line_info ""))
    | Line text =>
        let line := PyStr.strip text in
        match line with
        | EmptyString => Goes_on s
        | _ =>
            if PyStr.startswith_char "/" line then
              match shlex_split line with
              | None => print_report s Parse_error
              | Some tokens => interactive_loop_command s tokens
              end
            else Generates (store s (setattr (session_args s) a_prompt (Some line)))
        end
    end.

End Session.

(** ** The service side: pydantic models and the client

    [novelai.types] and the [NovelAI] client are used by the CLI and
    defined elsewhere.  A model is known by its [model_fields] and its
    [model_validate], whose [Raise] carries the text of the pydantic
    [ValidationError]; a call of the client returns or raises. *)

Inductive exn : Type :=
  | ValidationError (text : string)
  | RuntimeError (text : string)
  | binascii_Error (text : string)
  | ClientError (text : string)
  | MarkupError (line : console_line).

(** [str(e)] *)
Definition exn_text `{Console} (e : exn) : string :=
  match e with
  | ValidationError t | RuntimeError t | binascii_Error t | ClientError t => t
  | MarkupError line => MarkupError_text line
  end.

Record ImageStreamChunk : Type := { chunk_image : string }.

Class Service : Type := {
  Image : Type;
  ImageGenerationRequest : Type;
  StreamImageGenerationRequest : Type;
  GenerateImageParams : Type;
  GenerateImageStreamParams : Type;
  ImageGenerationRequest_fields : gset string;
  StreamImageGenerationRequest_fields : gset string;
  ImageParameters_fields : gset string;
  ImageStreamParameters_fields : gset string;
  ImageGenerationRequest_validate :
    gmap string json -> result string ImageGenerationRequest;
  StreamImageGenerationRequest_validate :
    gmap string json -> result string StreamImageGenerationRequest;
  GenerateImageParams_validate :
    gmap string json -> result string GenerateImageParams;
  GenerateImageStreamParams_validate :
    gmap string json -> result string GenerateImageStreamParams;
  api_client_image_generate :
    ImageGenerationRequest -> result exn (list Image);
  api_client_image_generate_stream :
    StreamImageGenerationRequest -> result exn (list ImageStreamChunk);
  client_image_generate :
    GenerateImageParams -> result exn (list Image);
  client_image_generate_stream :
    GenerateImageStreamParams -> result exn (list ImageStreamChunk)
}.

(** ** [generation.py] *)

Module Generation.

Section WithService.
Context `{Builtins} `{Console} `{Service}.

(** What a run does, in order: console lines ([output.py]), file system
    writes and calls of the client. *)
Inductive event : Type :=
  | Info (message : string)
  | Success (message : string)
  | Warn (message : string)
  | Warn_stream_override (stream_value : json)
  | Fail (message : string)
  | Mkdir (directory : Path)
  | Save_image (path : Path) (img : Image)
  | Write_bytes (path : Path) (data : list Byte.byte)
  | Call_api_generate (request : ImageGenerationRequest)
  | Call_api_generate_stream (request : StreamImageGenerationRequest)
  | Call_generate (params : GenerateImageParams)
  | Call_generate_stream (params : GenerateImageStreamParams).

(** A computation: the events so far, and the value or the exception. *)
Definition M (A : Type) : Type := list event * result exn A.

Definition ret {A} (a : A) : M A := ([], Ok a).

Definition bind {A B} (m : M A) (f : A -> M B) : M B :=
  match m with
  | (t, Ok a) => let '(t', r) := f a in (t ++ t', r)
  | (t, Raise e) => (t, Raise e)
  end.

Definition emit (e : event) : M unit := ([e], Ok tt).

Definition raise {A} (e : exn) : M A := ([], Raise e).

Definition lift {A} (r : result exn A) : M A := ([], r).

(** A call of [output.py]: the line is printed, or [MarkupError] leaves
    the call. *)
Definition print_line (line : console_line) (printed : event) : M unit :=
  if line_renders line then emit printed else raise (MarkupError line).

Definition info (message : string) : M unit :=
  print_line (Line_info message) (Info message).

Definition success (message : string) : M unit :=
  print_line (Line_success message) (Success message).

Definition warn (message : string) : M unit :=
  print_line (Line_warn message) (Warn message).

Definition fail (message : string) : M unit :=
  print_line (Line_fail message) (Fail message).

Local Notation "x <- m ;; k" := (bind m (fun x => k))
  (at level 100, m at next level, right associativity).
Local Notation "m ;; k" := (bind m (fun _ => k))
  (at level 100, right associativity).

(** The loop [for i, img in enumerate(images)] of [_save_images], from
    index [i] on. *)
Fixpoint save_numbered (output_path : Path) (i : nat) (images : list Image) : M unit :=
  match images with
  | [] => ret tt
  | img :: rest =>
      let img_path :=
        Path.joinpath output_path ("image_" +:+ PyStr.format_04d (i + 1) +:+ ".png") in
      emit (Save_image img_path img) ;;
      success ("Saved: " +:+ Path.to_str img_path) ;;
      save_numbered output_path (S i) rest
  end.

Definition _save_images (images : list Image) (output : string) : M unit :=
  let output_path := Path.of_str output in
  match images with
  | [img] =>
      let output_path :=
        if String.eqb (Path.suffix output_path) "" then Path.joinpath output_path "image.png"
        else output_path in
      emit (Mkdir (Path.parent output_path)) ;;
      emit (Save_image output_path img) ;;
      success ("Saved: " +:+ Path.to_str output_path)
  | _ =>
      let output_path :=
        if negb (String.eqb (Path.suffix output_path) "") then Path.parent output_path
        else output_path in
      emit (Mkdir output_path) ;;
      save_numbered output_path 0 images
  end.

(** The loop [for chunk in chunks] of [_save_stream_chunks]: the two
    counters go in and come out. *)
Fixpoint save_chunks (output_dir : Path) (chunks : list ImageStreamChunk)
    (total_bytes chunk_count : nat) : M (nat * nat) :=
  match chunks with
  | [] => ret (total_bytes, chunk_count)
  | chunk :: rest =>
      match b64decode (chunk_image chunk) with
      | Raise text => raise (binascii_Error text)
      | Ok decoded_image =>
          let total_bytes := (total_bytes + length decoded_image)%nat in
          let chunk_count := (chunk_count + 1)%nat in
          let chunk_path :=
            Path.joinpath output_dir
              ("chunk_" +:+ PyStr.format_04d chunk_count +:+ ".png") in
          emit (Write_bytes chunk_path decoded_image) ;;
          info ("Received chunk " +:+ PyStr.str_of_nat chunk_count +:+ ": "
                +:+ PyStr.str_of_nat (length decoded_image) +:+ " bytes (total: "
                +:+ PyStr.str_of_nat total_bytes +:+ " bytes)") ;;
          save_chunks output_dir rest total_bytes chunk_count
      end
  end.

Definition no_chunks_message : string :=
  "No stream chunks were received. If your request JSON uses stream=msgpack, "
  +:+ "this CLI currently supports SSE streaming only.".

(** A finite sequence of chunks stands for the iterable the client
    returns, consumed to its end. *)
Definition _save_stream_chunks (chunks : list ImageStreamChunk) (stream_dir : string)
  : M unit :=
  let output_dir := Path.of_str stream_dir in
  emit (Mkdir output_dir) ;;
  counters <- save_chunks output_dir chunks 0 0 ;;
  let '(total_bytes, chunk_count) := counters in
  if (chunk_count =? 0)%nat then raise (RuntimeError no_chunks_message)
  else
    success ("Streaming complete! Received " +:+ PyStr.str_of_nat total_bytes
             +:+ " bytes total") ;;
    success ("Saved " +:+ PyStr.str_of_nat chunk_count +:+ " chunks to: "
             +:+ Path.to_str output_dir).

(** [_as_object_dict]: the mapping, when the value is one.  The keys of
    a JSON object are strings, so the type adapter accepts it. *)
Definition _as_object_dict (value : json) : option (gmap string json) :=
  match value with
  | JDict d => Some d
  | _ => None
  end.

Definition _sanitize_low_level_payload (payload : gmap string json) : gmap string json :=
  let allowed_top := ImageGenerationRequest_fields ∪ StreamImageGenerationRequest_fields in
  let cleaned := keep_keys allowed_top payload in
  match _as_object_dict (py_get cleaned "parameters") with
  | Some parameters_obj =>
      let allowed_params := ImageParameters_fields ∪ ImageStreamParameters_fields in
      <["parameters" := JDict (keep_keys allowed_params parameters_obj)]> cleaned
  | None => cleaned
  end.

(** [stream_value != "sse"] *)
Definition is_not_sse (stream_value : json) : bool :=
  match stream_value with
  | JStr s => negb (String.eqb s "sse")
  | _ => true
  end.

(** [stream_value is not None] *)
Definition is_not_None (stream_value : json) : bool :=
  match stream_value with
  | JNull => false
  | _ => true
  end.

Definition _normalize_low_level_stream_mode (payload : gmap string json)
    (force_stream : bool) : M (gmap string json) :=
  match _as_object_dict (py_get payload "parameters") with
  | None => ret payload
  | Some parameters_obj =>
      let normalized := payload in
      let params := parameters_obj in
      let stream_value := py_get params "stream" in
      if force_stream && is_not_sse stream_value then
        (if is_not_None stream_value then
           print_line (Line_stream_override stream_value)
             (Warn_stream_override stream_value)
         else ret tt) ;;
        let params := <["stream" := JStr "sse"]> params in
        ret (<["parameters" := JDict params]> normalized)
      else ret normalized
  end.

(** [is_low_level], as [generate_from_request_json] computes it. *)
Definition is_low_level (payload : gmap string json) : bool :=
  let parameters := py_get payload "parameters" in
  match parameters with
  | JDict _ => py_in "input" payload || py_in "action" payload
  | _ => false
  end.

(** The two shapes of a request document, by [is_low_level]. *)
Inductive request_kind : Type :=
  | LOW_LEVEL
  | HIGH_LEVEL.

Definition classify (payload : gmap string json) : request_kind :=
  if is_low_level payload then LOW_LEVEL else HIGH_LEVEL.

(** How the process goes on after [generate_from_request_json]: the
    call returns, [sys.exit] ends the process, or an exception of a
    handler leaves the call. *)
Inductive exit_status : Type :=
  | Returned
  | SystemExit (code : Z)
  | Propagated (e : exn).

Definition low_level_stream_banner : string :=
  "[bold cyan]Starting streaming generation from low-level request JSON...[/bold cyan]".
Definition low_level_banner : string :=
  "[bold cyan]Generating from low-level request JSON...[/bold cyan]".
Definition high_level_stream_banner : string :=
  "[bold cyan]Starting streaming generation from high-level params JSON...[/bold cyan]".
Definition high_level_banner : string :=
  "[bold cyan]Generating from high-level params JSON...[/bold cyan]".

Definition generated_message (n : nat) : string :=
  "Successfully generated " +:+ PyStr.str_of_nat n +:+ " image(s)!".

(** [Model.model_validate(payload)] inside the [try] block. *)
Definition model_validate {A} (validate : gmap string json -> result string A)
    (payload : gmap string json) : M A :=
  match validate payload with
  | Ok a => ret a
  | Raise text => raise (ValidationError text)
  end.

(** [stream_in_payload], from the sanitised payload:
    [parameters is not None and "stream" in parameters]. *)
Definition stream_in_payload (payload : gmap string json) : bool :=
  match _as_object_dict (py_get payload "parameters") with
  | Some parameters => py_in "stream" parameters
  | None => false
  end.

(** The [try] block of [generate_from_request_json], on the payload
    [_load_request_json] returned. *)
Definition request_json_body (args : Namespace) (payload : gmap string json) : M unit :=
  if is_low_level payload then
    let payload := _sanitize_low_level_payload payload in
    let is_stream := Namespace.stream args || stream_in_payload payload in
    payload <- _normalize_low_level_stream_mode payload is_stream ;;
    if is_stream then
      info low_level_stream_banner ;;
      request <- model_validate StreamImageGenerationRequest_validate payload ;;
      emit (Call_api_generate_stream request) ;;
      chunks <- lift (api_client_image_generate_stream request) ;;
      _save_stream_chunks chunks (Namespace.stream_dir args)
    else
      info low_level_banner ;;
      request <- model_validate ImageGenerationRequest_validate payload ;;
      emit (Call_api_generate request) ;;
      images <- lift (api_client_image_generate request) ;;
      _save_images images (Namespace.output args) ;;
      success (generated_message (length images))
  else if Namespace.stream args then
    info high_level_stream_banner ;;
    params <- model_validate GenerateImageStreamParams_validate payload ;;
    emit (Call_generate_stream params) ;;
    chunks <- lift (client_image_generate_stream params) ;;
    _save_stream_chunks chunks (Namespace.stream_dir args)
  else
    info high_level_banner ;;
    params <- model_validate GenerateImageParams_validate payload ;;
    emit (Call_generate params) ;;
    images <- lift (client_image_generate params) ;;
    _save_images images (Namespace.output args) ;;
    success (generated_message (length images)).

(** The line of the [except] clause that catches [e]. *)
Definition failure_message (e : exn) : string :=
  match e with
  | ValidationError text => "Error: Request JSON validation failed:" +:+ String "010" text
  | _ => "Error during request-json generation: " +:+ exn_text e
  end.

(** An [except] clause: [fail] of the line, then [sys.exit(1)]. *)
Definition fail_and_exit (message : string) : list event * exit_status :=
  match fail message with
  | (printed, Ok _) => (printed, SystemExit 1)
  | (printed, Raise e) => (printed, Propagated e)
  end.

(** The [try] block and its two [except] clauses. *)
Definition generate_from_request_json (args : Namespace) (payload : gmap string json)
  : list event * exit_status :=
  match request_json_body args payload with
  | (trace, Ok _) => (trace, Returned)
  | (trace, Raise e) =>
      let '(printed, status) := fail_and_exit (failure_message e) in
      (trace ++ printed, status)
  end.

(** *** Reading a run *)

(** The calls of the client among the events. *)
Definition is_call (e : event) : bool :=
  match e with
  | Call_api_generate _ | Call_api_generate_stream _
  | Call_generate _ | Call_generate_stream _ => true
  | _ => false
  end.

(** The warning of [_normalize_low_level_stream_mode]. *)
Definition is_override_warning (e : event) : Prop :=
  exists stream_value, e = Warn_stream_override stream_value.

(** A call of the client that carries what [model_validate] returned
    for some payload; every other event counts. *)
Definition validated_call (e : event) : Prop :=
  match e with
  | Call_api_generate request =>
      exists p, ImageGenerationRequest_validate p = Ok request
  | Call_api_generate_stream request =>
      exists p, StreamImageGenerationRequest_validate p = Ok request
  | Call_generate params =>
      exists p, GenerateImageParams_validate p = Ok params
  | Call_generate_stream params =>
      exists p, GenerateImageStreamParams_validate p = Ok params
  | _ => True
  end.

(** The first [info] line of a run. *)
Fixpoint first_info (trace : list event) : option string :=
  match trace with
  | [] => None
  | Info message :: _ => Some message
  | _ :: rest => first_info rest
  end.

(** The images saved, and the files written, each with its path. *)
Definition saved_images (trace : list event) : list (Path * Image) :=
  omap (fun e => match e with Save_image p img => Some (p, img) | _ => None end) trace.

Definition written_files (trace : list event) : list (Path * list Byte.byte) :=
  omap (fun e => match e with Write_bytes p data => Some (p, data) | _ => None end) trace.

(** The path of the [n]-th chunk file under [stream_dir]. *)
Definition nth_chunk_path (stream_dir : string) (n : nat) : Path :=
  Path.joinpath (Path.of_str stream_dir) ("chunk_" +:+ PyStr.format_04d n +:+ ".png").

(** The bytes of a chunk, where it decodes. *)
Definition decoded (chunk : ImageStreamChunk) : list Byte.byte :=
  match b64decode (chunk_image chunk) with
  | Ok data => data
  | Raise _ => []
  end.

Definition decodes (chunk : ImageStreamChunk) : Prop :=
  exists data, b64decode (chunk_image chunk) = Ok data.

(** The payload [_normalize_low_level_stream_mode] returns. *)
Definition normalized_payload (payload : gmap string json) (force_stream : bool)
  : gmap string json :=
  match snd (_normalize_low_level_stream_mode payload force_stream) with
  | Ok normalized => normalized
  | Raise _ => payload
  end.



End WithService.

End Generation.

(** ** Sample collaborators

    Instances of the classes, to run the definitions on concrete
    inputs.  The properties below hold for every instance; the samples
    only serve the examples. *)

Module Sample.

Definition constants : Constants :=
  {| MODEL_CHOICES :=
       ["nai-diffusion-4-5-full"; "nai-diffusion-4-5-curated"; "nai-diffusion-4-full";
        "nai-diffusion-4-curated"; "nai-diffusion-3"; "nai-diffusion-3-furry"];
     SAMPLER_CHOICES := ["k_euler"; "k_euler_ancestral"; "k_dpmpp_2m"];
     UC_PRESET_CHOICES := ["strong"; "light"; "none"];
     DEFAULT_MODEL := "nai-diffusion-4-5-full";
     DEFAULT_SAMPLER := "k_euler_ancestral";
     DEFAULT_UC_PRESET := "light" |}.

(** Decimal digits with an optional fraction: the digits as one
    integer, and the number of digits after the point. *)
Fixpoint decimal_digits (s : string) (acc : Z) (seen_point : bool) (frac : nat)
  : option (Z * nat) :=
  match s with
  | EmptyString => Some (acc, frac)
  | String c r =>
      match PyStr.digit_value c with
      | Some d =>
          decimal_digits r (10 * acc + d) seen_point (if seen_point then S frac else frac)
      | None =>
          if Ascii.eqb c "." && negb seen_point then decimal_digits r acc true frac
          else None
      end
  end.

Definition float_of_Z (n : Z) : float := PrimFloat.of_uint63 (Uint63.of_Z n).

Definition unsigned_float (s : string) : option float :=
  let t := PyStr.lower s in
  if String.eqb t "nan" then Some PrimFloat.nan
  else if String.eqb t "inf" || String.eqb t "infinity" then Some PrimFloat.infinity
  else
    match s with
    | EmptyString | String "." EmptyString => None
    | _ =>
        match decimal_digits s 0 false 0 with
        | Some (m, k) =>
            if (m <? 10 ^ 15) && (k <=? 15)%nat
            then Some (float_of_Z m / float_of_Z (10 ^ Z.of_nat k))%float
            else None
        | None => None
        end
    end.

(** A partial stand-in for [float]: it agrees with [float] on a literal
    of at most fifteen digits, with or without sign and decimal point
    (there the quotient of two exactly represented integers is the
    correctly rounded value), and on [nan], [inf] and [infinity]; every
    other string is answered with [None], also where [float] reads it
    (exponents, underscores, longer literals). *)
Definition float_literal (s : string) : option float :=
  match PyStr.strip s with
  | String "-" r => option_map PrimFloat.opp (unsigned_float r)
  | String "+" r => unsigned_float r
  | t => unsigned_float t
  end.

(** The base64 alphabet. *)
Definition b64_value (c : ascii) : option N :=
  let n := N_of_ascii c in
  if ((65 <=? n) && (n <=? 90))%N then Some (n - 65)%N
  else if ((97 <=? n) && (n <=? 122))%N then Some (n - 71)%N
  else if ((48 <=? n) && (n <=? 57))%N then Some (n + 4)%N
  else if (n =? 43)%N then Some 62%N
  else if (n =? 47)%N then Some 63%N
  else None.

Definition byte_of_N (n : N) : Byte.byte :=
  default Byte.x00 (Byte.of_N (n mod 256)).

(** A stand-in for [b64decode]: the loop of CPython's
    [binascii.a2b_base64] without [strict_mode]:
    characters outside the alphabet are skipped, a complete padding ends
    the input, and a last group of one character, or of two or three
    without padding, is an error. *)
Fixpoint a2b_base64 (s : string) (quad_pos : nat) (leftchar : N) (pads : nat)
    (out : list Byte.byte) : result string (list Byte.byte) :=
  match s with
  | EmptyString =>
      match quad_pos with
      | O => Ok (rev out)
      | 1%nat => Raise "Invalid base64-encoded string: number of data characters cannot be 1 more than a multiple of 4"
      | _ => Raise "Incorrect padding"
      end
  | String c r =>
      if Ascii.eqb c "=" then
        if ((2 <=? quad_pos) && (4 <=? quad_pos + (pads + 1)))%nat then Ok (rev out)
        else a2b_base64 r quad_pos leftchar
               (if (2 <=? quad_pos)%nat then S pads else pads) out
      else
        match b64_value c with
        | None => a2b_base64 r quad_pos leftchar pads out
        | Some this_ch =>
            match quad_pos with
            | O => a2b_base64 r 1 this_ch 0 out
            | 1%nat =>
                a2b_base64 r 2 (N.land this_ch 15) 0
                  (byte_of_N (N.lor (N.shiftl leftchar 2) (N.shiftr this_ch 4)) :: out)
            | 2%nat =>
                a2b_base64 r 3 (N.land this_ch 3) 0
                  (byte_of_N (N.lor (N.shiftl leftchar 4) (N.shiftr this_ch 2)) :: out)
            | _ =>
                a2b_base64 r 0 0%N 0
                  (byte_of_N (N.lor (N.shiftl leftchar 6) this_ch) :: out)
            end
        end
  end.

Definition cpython_b64decode (s : string) : result string (list Byte.byte) :=
  a2b_base64 s 0 0%N 0 [].

(** The words of a line, split at blanks. *)
Fixpoint words (s : string) (cur : string) : list string :=
  match s with
  | EmptyString => match cur with EmptyString => [] | _ => [cur] end
  | String c r =>
      if PyStr.isspace c then
        match cur with EmptyString => words r "" | _ => cur :: words r "" end
      else words r (cur +:+ String c "")
  end.

(** A partial stand-in for [shlex.split]: it agrees with it on a line
    without quote and backslash characters; a line with one is answered
    with [None]. *)
Definition plain_split (line : string) : option (list string) :=
  if PyStr.contains_char "'" line || PyStr.contains_char (ascii_of_nat 34) line
     || PyStr.contains_char (ascii_of_nat 92) line
  then None else Some (words line "").

Definition builtins : Builtins :=
  {| py_float := float_literal;
     b64decode := cpython_b64decode;
     shlex_split := plain_split |}.

(** A console with the tags of rich in their plain form: what stands
    between [[] and []] is a tag, a tag opens a style, [[/name]]
    closes the open style [name], [[/]] the last one, and a closing
    tag that closes nothing is the [MarkupError]. *)
Fixpoint remove_first (x : string) (l : list string) : list string :=
  match l with
  | [] => []
  | y :: rest => if String.eqb x y then rest else y :: remove_first x rest
  end.

Fixpoint markup_scan (open : list string) (tag : option string) (s : string) : bool :=
  match s with
  | EmptyString => true
  | String c r =>
      match tag with
      | None =>
          if Ascii.eqb c "[" then markup_scan open (Some EmptyString) r
          else markup_scan open None r
      | Some name =>
          if Ascii.eqb c "]" then
            match name with
            | EmptyString => markup_scan open None r
            | String "/" EmptyString =>
                match open with
                | [] => false
                | _ :: rest => markup_scan rest None r
                end
            | String "/" style =>
                if PyStr.str_in style open
                then markup_scan (remove_first style open) None r
                else false
            | _ => markup_scan (name :: open) None r
            end
          else if Ascii.eqb c "[" then markup_scan open (Some EmptyString) r
          else markup_scan open (Some (name +:+ String c EmptyString)) r
      end
  end.

Definition markup_ok (s : string) : bool := markup_scan [] None s.

Definition json_text (v : json) : string :=
  match v with
  | JStr s => "'" +:+ s +:+ "'"
  | JNull => "None"
  | JBool true => "True"
  | JBool false => "False"
  | _ => "..."
  end.

Definition line_text (line : console_line) : string :=
  match line with
  | Line_info m => m
  | Line_success m => "[bold green]" +:+ m +:+ "[/bold green]"
  | Line_warn m => "[yellow]" +:+ m +:+ "[/yellow]"
  | Line_fail m => "[bold red]" +:+ m +:+ "[/bold red]"
  | Line_stream_override v =>
      "[yellow]Low-level request stream=" +:+ json_text v
      +:+ " is not supported by this CLI parser. Overriding to 'sse'.[/yellow]"
  end.

Definition optional_text (v : option string) : string :=
  match v with
  | Some s => s
  | None => "None"
  end.

(** The texts of the user that a report shows. *)
Definition error_text (exc : Parser.ValueError) : string :=
  match exc with
  | Parser.ValueError_msg message => message
  | Parser.ValueError_range name _ _ => name
  | Parser.ValueError_int literal => literal
  | Parser.ValueError_float literal => literal
  end.

Definition setting_text (args : Namespace) (key : string) : string :=
  if String.eqb key "model" then Namespace.model args
  else if String.eqb key "size" then Namespace.size args
  else if String.eqb key "sampler" then Namespace.sampler args
  else if String.eqb key "uc-preset" then Namespace.uc_preset args
  else if String.eqb key "negative-prompt" then optional_text (Namespace.negative_prompt args)
  else if String.eqb key "reference" then optional_text (Namespace.reference args)
  else if String.eqb key "ref-type" then Namespace.ref_type args
  else if String.eqb key "character-prompt"
  then optional_text (Namespace.character_prompt args)
  else if String.eqb key "controlnet" then optional_text (Namespace.controlnet args)
  else if String.eqb key "image" then optional_text (Namespace.image args)
  else if String.eqb key "output" then Namespace.output args
  else if String.eqb key "stream-dir" then Namespace.stream_dir args
  else EmptyString.

Definition report_texts (args : Namespace) (report : Interactive.command_report)
  : list string :=
  match report with
  | Interactive.Status_table =>
      [Namespace.model args; Namespace.size args; Namespace.sampler args;
       Namespace.uc_preset args; Namespace.output args; Namespace.stream_dir args;
       optional_text (Namespace.negative_prompt args);
       optional_text (Namespace.reference args); Namespace.ref_type args;
       optional_text (Namespace.character_prompt args);
       optional_text (Namespace.controlnet args);
       optional_text (Namespace.image args)]
  | Interactive.Current_short key => [key +:+ "=" +:+ setting_text args key]
  | Interactive.Set_report (Interactive.Unknown_key key) =>
      ["[yellow]Unknown key: " +:+ key +:+ "[/yellow]"]
  | Interactive.Set_report (Interactive.Invalid_value key exc) =>
      ["[yellow]Invalid value for " +:+ key +:+ ": " +:+ error_text exc +:+ "[/yellow]"]
  | Interactive.Set_report (Interactive.Rejected_value key value) =>
      ["[yellow]Rejected value for " +:+ key +:+ ": " +:+ value +:+ "[/yellow]"]
  | Interactive.Set_report (Interactive.Updated key) =>
      ["[bold green]Updated " +:+ key +:+ "=" +:+ setting_text args key
       +:+ "[/bold green]"]
  | Interactive.Unset_unknown_key token =>
      ["[yellow]Unknown key: " +:+ token +:+ "[/yellow]"]
  | Interactive.Unset_done token =>
      ["[bold green]Reset " +:+ token +:+ "[/bold green]"]
  | Interactive.Unknown_command token =>
      ["[yellow]Unknown command: " +:+ token +:+ " (use /help)[/yellow]"]
  | _ => []
  end.

Definition console : Console :=
  {| line_renders := fun line => markup_ok (line_text line);
     MarkupError_text := fun line =>
       "closing tag does not match any open tag: " +:+ line_text line;
     label_renders := fun args =>
       markup_ok ("[bold cyan]novelai[/bold cyan] [dim](" +:+ Namespace.model args
                  +:+ " | " +:+ Namespace.size args +:+ ")[/dim]");
     report_renders := fun args report => forallb markup_ok (report_texts args report) |}.

(** The attributes of a Namespace object that are no arguments:
    some of those CPython gives to every object of a class. *)
Definition namespace_object : Session.Namespace_object :=
  {| Session.object_attribute_of := fun name =>
       if String.eqb name "__dict__" then Some Session.Attr_dict
       else if String.eqb name "__weakref__" then Some Session.Attr_not_writable
       else if PyStr.str_in name
                 ["__class__"; "__doc__"; "__module__"; "__init__"; "__eq__";
                  "__repr__"; "__contains__"; "_get_kwargs"; "_get_args"]
       then Some Session.Attr_plain
       else None |}.










End Sample.


(** ** Predicates and readings used in the statements below *)

(** The ranges [validate_args] enforces, as comparisons of integers and
    of binary64 numbers. *)
Definition in_ranges (args : Namespace) : Prop :=
  1 <= Namespace.steps args <= 50
  /\ 1 <= Namespace.n_images args <= 8
  /\ PrimFloat.leb 0.0 (Namespace.scale args) = true
  /\ PrimFloat.leb (Namespace.scale args) 10.0 = true
  /\ PrimFloat.leb 0.0 (Namespace.ref_fidelity args) = true
  /\ PrimFloat.leb (Namespace.ref_fidelity args) 1.0 = true
  /\ PrimFloat.leb 0.0 (Namespace.ref_strength args) = true
  /\ PrimFloat.leb (Namespace.ref_strength args) 1.0 = true
  /\ PrimFloat.leb 0.01 (Namespace.controlnet_strength args) = true
  /\ PrimFloat.leb (Namespace.controlnet_strength args) 1.0 = true
  /\ PrimFloat.leb 0.01 (Namespace.strength args) = true
  /\ PrimFloat.leb (Namespace.strength args) 0.99 = true
  /\ PrimFloat.leb 0.0 (Namespace.noise args) = true
  /\ PrimFloat.leb (Namespace.noise args) 0.99 = true.

(** A string of decimal digits. *)
Fixpoint all_digits (s : string) : bool :=
  match s with
  | EmptyString => true
  | String c r =>
      match PyStr.digit_value c with
      | Some _ => all_digits r
      | None => false
      end
  end.

(** The record after the turns [inputs] of the interactive loop.  A
    turn that generates is followed by the next one when the generation
    returns, and ends the loop when it exits the process;
    [generation_returns] says which. *)
Fixpoint run_turns `{Constants} `{Builtins} (generation_returns : Namespace -> bool)
    (args defaults : Namespace) (inputs : list Interactive.prompt_input) : Namespace :=
  match inputs with
  | [] => args
  | input :: rest =>
      match Interactive.interactive_turn args defaults input with
      | Interactive.Continue args _ => run_turns generation_returns args defaults rest
      | Interactive.Generate args =>
          if generation_returns args then run_turns generation_returns args defaults rest
          else args
      | Interactive.Break => args
      | Interactive.Uncaught args => args
      end
  end.


(** The [stream] entry that the override warning names: one that is
    neither missing, [None] nor ["sse"]. *)
Definition overridden_stream (params : gmap string json) : option json :=
  match params !! "stream" with
  | None | Some JNull => None
  | Some (JStr s) => if String.eqb s "sse" then None else Some (JStr s)
  | Some v => Some v
  end.

(** The events of saving: console lines of progress and writes to the
    file system. *)
Definition is_output_event `{Service} (e : Generation.event) : bool :=
  match e with
  | Generation.Info _ | Generation.Success _ | Generation.Mkdir _
  | Generation.Save_image _ _ | Generation.Write_bytes _ _ => true
  | _ => false
  end.

(** The calls of the client in a run. *)
Definition client_calls `{Service} (trace : list Generation.event)
  : list Generation.event :=
  List.filter Generation.is_call trace.

(** * Properties *)

(** ** The namespace *)

Section NamespaceFacts.
Import Namespace.

Lemma setattr_getattr (args : Namespace) (a : attr) :
  setattr args a (getattr args a) = args.
Proof. destruct args, a; reflexivity. Qed.

Lemma setattr_setattr (args : Namespace) (a : attr) (v w : attr_type a) :
  setattr (setattr args a v) a w = setattr args a w.
Proof. destruct args, a; reflexivity. Qed.


Lemma getattr_setattr_ne (args : Namespace) (a b : attr) (v : attr_type a) :
  a <> b -> getattr (setattr args a v) b = getattr args b.
Proof. intros Hne. destruct args, a, b; try reflexivity; congruence. Qed.

(** Setting an attribute and putting the old value back gives the
    record one started from. *)
Lemma setattr_rollback (args : Namespace) (a : attr) (v : attr_type a) :
  setattr (setattr args a v) a (getattr args a) = args.
Proof. rewrite setattr_setattr. apply setattr_getattr. Qed.

Lemma attr_of_name_name (a : attr) : attr_of_name (attr_name a) = Some a.
Proof. destruct a; reflexivity. Qed.

End NamespaceFacts.

(** ** The interactive session *)

Section InteractiveFacts.
Context `{Constants} `{Builtins}.
Import Namespace Interactive.

(** In interactive mode [validate_args] returns or re-raises: it never
    ends the process. *)
Lemma validate_args_interactive (args : Namespace) :
  Parser.validate_args args true = Parser.Validated
  \/ exists exc, Parser.validate_args args true = Parser.Raised exc.
Proof.
  unfold Parser.validate_args.
  destruct (Parser.validate_args_checks args) as [ u | exc ]; eauto.
Qed.

Ltac table_case :=
  match goal with
  | Hget : (if String.eqb ?key ?k then _ else _) = Some _ |- _ =>
      let E := fresh "E" in
      destruct (String.eqb key k) eqn:E;
      [ apply String.eqb_eq in E; subst key;
        injection Hget as <- | ]
  end.

Lemma setters_never_None (key : string) (entry : setter) :
  dict_get _interactive_setters key = Some entry -> never_None key entry.
Proof.
  unfold _interactive_setters; cbn [dict_get]; intros Hget.
  repeat (table_case;
    [ intros value v Hcast Hnone; cbn in *;
      first [ discriminate Hnone
            | repeat split; discriminate
            | unfold cast_str_opt in Hcast; injection Hcast as <-;
              discriminate Hnone ] | ]).
  discriminate Hget.
Qed.

Lemma setters_key_matches (key : string) (entry : setter) :
  dict_get _interactive_setters key = Some entry -> key_matches key entry.
Proof.
  unfold _interactive_setters; cbn [dict_get]; intros Hget.
  repeat (table_case;
    [ repeat split; cbn [setter_attr]; intros Ha;
      first [ reflexivity | discriminate Ha ] | ]).
  discriminate Hget.
Qed.

(** What one call of the setter body does: either the record is the
    one it was given and the report is a refusal, or the value was cast,
    the record with it passed [validate_args] and the choice check of
    its key, and that record is the result. *)
Lemma apply_setter_spec (args defaults : Namespace) (key : string)
    (entry : setter) (value : string) :
  never_None key entry ->
  (fst (apply_setter args defaults key entry value) = args
   /\ ((exists exc, snd (apply_setter args defaults key entry value) = Invalid_value key exc)
       \/ snd (apply_setter args defaults key entry value) = Rejected_value key value
       \/ snd (apply_setter args defaults key entry value) = Invalid_choice key))
  \/ (exists v,
        cast_fn entry value = Ok v
        /\ apply_setter args defaults key entry value
           = (setattr args (setter_attr entry) v, Updated key)
        /\ Parser.validate_args (setattr args (setter_attr entry) v) true
           = Parser.Validated
        /\ (key = "model" ->
            PyStr.str_in (model (setattr args (setter_attr entry) v)) MODEL_CHOICES = true)
        /\ (key = "sampler" ->
            PyStr.str_in (sampler (setattr args (setter_attr entry) v)) SAMPLER_CHOICES = true)
        /\ (key = "uc-preset" ->
            PyStr.str_in (uc_preset (setattr args (setter_attr entry) v)) UC_PRESET_CHOICES = true)
        /\ (key = "ref-type" ->
            PyStr.str_in (ref_type (setattr args (setter_attr entry) v)) REF_TYPE_CHOICES = true)).
Proof.
  intros Hnn. unfold apply_setter.
  destruct (cast_fn entry value) as [v|exc] eqn:Hcast.
  2:{ left. cbn. eauto. }
  destruct (validate_args_interactive (setattr args (setter_attr entry) v))
    as [Hval | [exc Hval]]; rewrite Hval.
  2:{ left. cbn. rewrite setattr_rollback. eauto. }
  destruct (String.eqb key "model" && _) eqn:Emodel.
  { left. cbn. rewrite setattr_rollback. eauto. }
  destruct (String.eqb key "sampler" && _) eqn:Esampler.
  { left. cbn. rewrite setattr_rollback. eauto. }
  destruct (String.eqb key "uc-preset" && _) eqn:Epreset.
  { left. cbn. rewrite setattr_rollback. eauto. }
  destruct (String.eqb key "ref-type" && _) eqn:Etype.
  { left. cbn. rewrite setattr_rollback. eauto. }
  right. exists v. split; [reflexivity|].
  assert (Hdead : forall k, k = "reference" \/ k = "controlnet" \/ k = "image" ->
            String.eqb key k && is_None (setter_attr entry) v = false).
  { intros k Hk. destruct (String.eqb key k) eqn:Ek; [|reflexivity].
    apply String.eqb_eq in Ek. subst k.
    destruct (is_None (setter_attr entry) v) eqn:En; [|reflexivity].
    destruct (Hnn value v Hcast En) as (? & ? & ?).
    destruct Hk as [ -> | [ -> | -> ] ]; congruence. }
  rewrite !Hdead by auto.
  split; [reflexivity|]. split; [exact Hval|].
  repeat split; intros ->; cbn [String.eqb Ascii.eqb Bool.eqb andb] in *.
  - destruct (PyStr.str_in _ MODEL_CHOICES); [reflexivity | discriminate].
  - destruct (PyStr.str_in _ SAMPLER_CHOICES); [reflexivity | discriminate].
  - destruct (PyStr.str_in _ UC_PRESET_CHOICES); [reflexivity | discriminate].
  - destruct (PyStr.str_in _ REF_TYPE_CHOICES); [reflexivity | discriminate].
Qed.

(** The same for [_apply_interactive_set]: an unknown key is one more
    refusal. *)
Lemma apply_interactive_set_spec (args defaults : Namespace) (key value : string) :
  (fst (_apply_interactive_set args defaults key value) = args
   /\ (snd (_apply_interactive_set args defaults key value) = Unknown_key key
       \/ (exists exc,
             snd (_apply_interactive_set args defaults key value) = Invalid_value key exc)
       \/ snd (_apply_interactive_set args defaults key value) = Rejected_value key value
       \/ snd (_apply_interactive_set args defaults key value) = Invalid_choice key))
  \/ (exists entry v,
        dict_get _interactive_setters key = Some entry
        /\ cast_fn entry value = Ok v
        /\ _apply_interactive_set args defaults key value
           = (setattr args (setter_attr entry) v, Updated key)
        /\ Parser.validate_args (setattr args (setter_attr entry) v) true
           = Parser.Validated
        /\ (key = "model" ->
            PyStr.str_in (model (setattr args (setter_attr entry) v)) MODEL_CHOICES = true)
        /\ (key = "sampler" ->
            PyStr.str_in (sampler (setattr args (setter_attr entry) v)) SAMPLER_CHOICES = true)
        /\ (key = "uc-preset" ->
            PyStr.str_in (uc_preset (setattr args (setter_attr entry) v)) UC_PRESET_CHOICES = true)
        /\ (key = "ref-type" ->
            PyStr.str_in (ref_type (setattr args (setter_attr entry) v)) REF_TYPE_CHOICES = true)).
Proof.
  unfold _apply_interactive_set.
  destruct (dict_get _interactive_setters key) as [entry|] eqn:Hget.
  2:{ left. cbn. auto. }
  destruct (apply_setter_spec args defaults key entry value
              (setters_never_None key entry Hget))
    as [(Hst & Hrep) | (v & Hcast & Hres & Hrest)].
  - left. split; [exact Hst|]. right. exact Hrep.
  - right. exists entry, v. auto.
Qed.

Lemma apply_interactive_set_valid (args defaults : Namespace) (key value : string) :
  Parser.validate_args args true = Parser.Validated ->
  Parser.validate_args (fst (_apply_interactive_set args defaults key value)) true
  = Parser.Validated.
Proof.
  intros Hvalid.
  destruct (apply_interactive_set_spec args defaults key value)
    as [(Hst & _) | (entry & v & _ & _ & Hres & Hval & _)].
  - rewrite Hst. exact Hvalid.
  - rewrite Hres. exact Hval.
Qed.

Lemma apply_interactive_set_rollback (args defaults : Namespace) (key value : string) :
  (forall k, snd (_apply_interactive_set args defaults key value) <> Updated k) ->
  fst (_apply_interactive_set args defaults key value) = args.
Proof.
  intros Hrep.
  destruct (apply_interactive_set_spec args defaults key value)
    as [(Hst & _) | (entry & v & _ & _ & Hres & _)].
  - exact Hst.
  - rewrite Hres in Hrep. exfalso. apply (Hrep key). reflexivity.
Qed.

Lemma apply_interactive_set_no_exit (args defaults : Namespace) (key value : string) exc :
  snd (_apply_interactive_set args defaults key value) <> Exit_parser_error exc.
Proof.
  destruct (apply_interactive_set_spec args defaults key value)
    as [(_ & [Hr | [[e Hr] | [Hr | Hr]]]) | (entry & v & _ & _ & Hres & _)];
    try rewrite Hr; try rewrite Hres; discriminate.
Qed.

(** A checked attribute other than the one written keeps its value; the
    one written passed its check. *)
Lemma apply_interactive_set_choices (args defaults : Namespace) (key value : string) :
  choices_ok args ->
  choices_ok (fst (_apply_interactive_set args defaults key value)).
Proof.
  intros Hok.
  destruct (apply_interactive_set_spec args defaults key value)
    as [(Hst & _) | (entry & v & Hget & _ & Hres & _ & Hm & Hs & Hu & Hr)].
  { rewrite Hst. exact Hok. }
  rewrite Hres. cbn [fst].
  destruct (setters_key_matches key entry Hget) as (Km & Ks & Ku & Kr).
  destruct Hok as (Om & Os & Ou & Or).
  unfold choices_ok. repeat split.
  - destruct (decide (setter_attr entry = a_model)) as [E|E]; [auto|].
    change (model ?x) with (getattr x a_model).
    rewrite getattr_setattr_ne by exact E. exact Om.
  - destruct (decide (setter_attr entry = a_sampler)) as [E|E]; [auto|].
    change (sampler ?x) with (getattr x a_sampler).
    rewrite getattr_setattr_ne by exact E. exact Os.
  - destruct (decide (setter_attr entry = a_uc_preset)) as [E|E]; [auto|].
    change (uc_preset ?x) with (getattr x a_uc_preset).
    rewrite getattr_setattr_ne by exact E. exact Ou.
  - destruct (decide (setter_attr entry = a_ref_type)) as [E|E]; [auto|].
    change (ref_type ?x) with (getattr x a_ref_type).
    rewrite getattr_setattr_ne by exact E. exact Or.
Qed.

(** The [/set] branch of the command loop. *)
Lemma set_command_unfold (args defaults : Namespace) (rest : list string) :
  interactive_command args defaults ("/set" :: rest)
  = match rest with
    | key_token :: ((_ :: _) as value_tokens) =>
        match _apply_interactive_set args defaults (_normalize_set_key key_token)
                (PyStr.join " " value_tokens) with
        | (args, Exit_parser_error exc) => Uncaught args
        | (args, r) => Continue args (Some (Set_report r))
        end
    | _ => Continue args (Some Usage_set)
    end.
Proof. reflexivity. Qed.

(** After one [/set] line the loop goes on, with the record
    [_apply_interactive_set] returned or with the one it had. *)
Lemma set_command_step (args defaults : Namespace) (rest : list string) :
  exists args' report,
    interactive_command args defaults ("/set" :: rest) = Continue args' report
    /\ (args' = args
        \/ exists key value, args' = fst (_apply_interactive_set args defaults key value)).
Proof.
  rewrite set_command_unfold.
  destruct rest as [|key_token [|v vs]]; [eauto | eauto |].
  set (key := _normalize_set_key key_token).
  set (value := PyStr.join " " (v :: vs)).
  pose proof (apply_interactive_set_no_exit args defaults key value) as Hne.
  destruct (_apply_interactive_set args defaults key value) as [a r] eqn:Hres.
  assert (Ha : a = fst (_apply_interactive_set args defaults key value))
    by (rewrite Hres; reflexivity).
  destruct r; try (eexists _, _; split; [reflexivity | right; eauto]).
  exfalso. exact (Hne exc eq_refl).
Qed.

(** An invariant of the record that every call of
    [_apply_interactive_set] keeps is kept by a run of [/set] lines. *)
Lemma run_set_commands_invariant (P : Namespace -> Prop) (defaults : Namespace) :
  (forall args key value,
      P args -> P (fst (_apply_interactive_set args defaults key value))) ->
  forall commands args,
    P args -> P (run_commands args defaults (map (cons "/set") commands)).
Proof.
  intros Hstep commands.
  induction commands as [|rest commands IH]; intros args HP; [exact HP|].
  cbn [map run_commands].
  destruct (set_command_step args defaults rest)
    as (args' & report & -> & [-> | (key & value & ->)]).
  - apply IH, HP.
  - apply IH, Hstep, HP.
Qed.

(** ** Properties of the [/set] and [/unset] commands *)

(** C1. From a record that passes [validate_args], any run of [/set]
    lines -- whatever tokens follow [/set] -- ends in a record that passes
    [validate_args]; if the four attributes with choices held one of their
    choices, they still do; and a call of [_apply_interactive_set] that
    does not report an update (unknown key, failed cast, failed range
    check, failed choice check) returns the record it was given. *)
Theorem set_commands_preserve_validity
    (args defaults : Namespace) (commands : list (list string)) :
  Parser.validate_args args true = Parser.Validated ->
  Parser.validate_args
    (run_commands args defaults (map (cons "/set") commands)) true
  = Parser.Validated
  /\ (choices_ok args ->
      choices_ok (run_commands args defaults (map (cons "/set") commands)))
  /\ (forall key value,
        (forall k, snd (_apply_interactive_set args defaults key value) <> Updated k) ->
        fst (_apply_interactive_set args defaults key value) = args).
Proof.
  intros Hvalid. split; [|split].
  - apply (run_set_commands_invariant
             (fun a => Parser.validate_args a true = Parser.Validated)).
    + intros a key value. apply apply_interactive_set_valid.
    + exact Hvalid.
  - intros Hok. apply (run_set_commands_invariant choices_ok).
    + intros a key value. apply apply_interactive_set_choices.
    + exact Hok.
  - intros key value. apply apply_interactive_set_rollback.
Qed.



(** ... and for the key [reference]: the cast [str] never gives
    [None]. *)
Lemma apply_set_reference (args defaults : Namespace) (value : string) :
  Parser.validate_args args true = Parser.Validated ->
  _apply_interactive_set args defaults "reference" value
  = (setattr args a_reference (Some value), Updated "reference").
Proof.
  intros Hvalid.
  unfold _apply_interactive_set.
  cbn [dict_get _interactive_setters String.eqb Ascii.eqb Bool.eqb].
  unfold apply_setter. cbn [setter_attr cast_fn cast_str_opt].
  replace (Parser.validate_args (setattr args a_reference (Some value)) true)
    with Parser.Validated by (rewrite <- Hvalid; destruct args; reflexivity).
  reflexivity.
Qed.

(** C2, as the code behaves. [/unset reference] writes [None] to
    [reference] and nothing else: [ref_type], [ref_fidelity] and
    [ref_strength] keep the values they had, whatever the defaults are.
    The same for [/unset controlnet] and [/unset image]. *)
Theorem unset_keeps_siblings (args defaults : Namespace) :
  (interactive_command args defaults ["/unset"; "reference"]
   = Continue (setattr args a_reference None) (Some (Unset_done "reference"))
   /\ reference (setattr args a_reference None) = None
   /\ ref_type (setattr args a_reference None) = ref_type args
   /\ ref_fidelity (setattr args a_reference None) = ref_fidelity args
   /\ ref_strength (setattr args a_reference None) = ref_strength args)
  /\ (interactive_command args defaults ["/unset"; "controlnet"]
      = Continue (setattr args a_controlnet None) (Some (Unset_done "controlnet"))
      /\ controlnet_strength (setattr args a_controlnet None) = controlnet_strength args)
  /\ (interactive_command args defaults ["/unset"; "image"]
      = Continue (setattr args a_image None) (Some (Unset_done "image"))
      /\ strength (setattr args a_image None) = strength args
      /\ noise (setattr args a_image None) = noise args).
Proof.
  repeat split; destruct args; reflexivity.
Qed.

End InteractiveFacts.

(** ** Request documents *)

Section PayloadFacts.
Context `{Builtins} `{Console} `{Service}.
Import Generation.

Lemma keep_keys_lookup (allowed : gset string) (d : gmap string json) (k : string) (v : json) :
  keep_keys allowed d !! k = Some v <-> d !! k = Some v /\ k ∈ allowed.
Proof. unfold keep_keys. rewrite map_lookup_filter_Some. reflexivity. Qed.

(** Filtering by a set of keys a second time removes nothing. *)
Lemma keep_keys_idempotent (allowed : gset string) (d : gmap string json) :
  keep_keys allowed (keep_keys allowed d) = keep_keys allowed d.
Proof.
  unfold keep_keys at 1. apply map_filter_id.
  intros k v Hk. apply keep_keys_lookup in Hk. exact (proj2 Hk).
Qed.

(** Writing an allowed key into a filtered mapping commutes with the
    filter. *)
Lemma keep_keys_insert (allowed : gset string) (d : gmap string json) (k : string) (v : json) :
  k ∈ allowed ->
  keep_keys allowed (<[k := v]> d) = <[k := v]> (keep_keys allowed d).
Proof. intros Hk. unfold keep_keys. apply map_filter_insert_True. exact Hk. Qed.

Lemma py_get_insert (d : gmap string json) (k : string) (v : json) :
  py_get (<[k := v]> d) k = v.
Proof. unfold py_get. rewrite lookup_insert_eq. reflexivity. Qed.

(** C5. Sanitising a payload twice gives the mapping that sanitising it
    once gives, whatever the payload holds under ["parameters"] and
    whatever the field sets of the request models are. *)
Theorem sanitize_idempotent (payload : gmap string json) :
  _sanitize_low_level_payload (_sanitize_low_level_payload payload)
  = _sanitize_low_level_payload payload.
Proof.
  unfold _sanitize_low_level_payload.
  set (top := ImageGenerationRequest_fields ∪ StreamImageGenerationRequest_fields).
  set (inner := ImageParameters_fields ∪ ImageStreamParameters_fields).
  set (cleaned := keep_keys top payload).
  assert (Hclean : keep_keys top cleaned = cleaned)
    by apply keep_keys_idempotent.
  destruct (_as_object_dict (py_get cleaned "parameters")) as [d|] eqn:Hparams.
  - assert (Hin : "parameters" ∈ top).
    { unfold py_get in Hparams.
      destruct (cleaned !! "parameters") as [v|] eqn:Hlook; [|discriminate].
      apply keep_keys_lookup in Hlook. exact (proj2 Hlook). }
    rewrite keep_keys_insert by exact Hin.
    rewrite Hclean, py_get_insert. cbn [_as_object_dict].
    rewrite keep_keys_idempotent, insert_insert_eq. reflexivity.
  - rewrite Hclean, Hparams. reflexivity.
Qed.

(** C4. A payload is classified [LOW_LEVEL] exactly when it holds a
    mapping under ["parameters"] and has an ["input"] or an ["action"]
    key; every other payload is [HIGH_LEVEL]. *)
Theorem classify_low_level_iff (payload : gmap string json) :
  (classify payload = LOW_LEVEL <->
     (exists d, payload !! "parameters" = Some (JDict d))
     /\ (is_Some (payload !! "input") \/ is_Some (payload !! "action")))
  /\ (classify payload = HIGH_LEVEL <->
        ~ ((exists d, payload !! "parameters" = Some (JDict d))
           /\ (is_Some (payload !! "input") \/ is_Some (payload !! "action")))).
Proof.
  assert (Hlow : is_low_level payload = true <->
     (exists d, payload !! "parameters" = Some (JDict d))
     /\ (is_Some (payload !! "input") \/ is_Some (payload !! "action"))).
  { unfold is_low_level, py_get, py_in.
    destruct (payload !! "parameters") as [v|]; cbn [default from_option id].
    2:{ split; [discriminate | intros [[d Hd] _]; discriminate]. }
    destruct v; cbv beta iota;
      try (split; [discriminate | intros [[d' Hd] _]; discriminate]).
    rewrite orb_true_iff, !bool_decide_eq_true.
    split; [intros Hor; split; [eauto | exact Hor] | intros [_ Hor]; exact Hor]. }
  unfold classify. destruct (is_low_level payload).
  - split; [split; [intros _; apply Hlow; reflexivity | reflexivity]|].
    split; [discriminate | intros Hn; exfalso; apply Hn, Hlow; reflexivity].
  - split; [split; [discriminate | intros Hc; apply Hlow in Hc; discriminate]|].
    split; [intros _ Hc; apply Hlow in Hc; discriminate | reflexivity].
Qed.

(** C8. With [force_stream] false the normaliser returns the payload it
    was given, prints nothing and raises nothing, whatever the payload
    holds under ["parameters"] and under its ["stream"] key. *)
Theorem normalize_without_stream_is_identity (payload : gmap string json) :
  _normalize_low_level_stream_mode payload false = ([], Ok payload).
Proof.
  unfold _normalize_low_level_stream_mode.
  destruct (_as_object_dict (py_get payload "parameters")); reflexivity.
Qed.

End PayloadFacts.

(** ** Runs: events and results *)

Section RunFacts.
Context `{Builtins} `{Console} `{Service}.
Import Generation.

Local Notation "x <- m ;; k" := (bind m (fun x => k))
  (at level 100, m at next level, right associativity).
Local Notation "m ;; k" := (bind m (fun _ => k))
  (at level 100, right associativity).

Lemma bind_emit {B} (e : event) (k : M B) :
  (emit e ;; k) = (e :: fst k, snd k).
Proof. unfold bind, emit. destruct k as [t r]. reflexivity. Qed.

Lemma bind_ret {A B} (a : A) (f : A -> M B) : bind (ret a) f = f a.
Proof. unfold bind, ret. destruct (f a) as [t r]. reflexivity. Qed.

Lemma bind_raise {A B} (e : exn) (f : A -> M B) : bind (raise e) f = ([], Raise e).
Proof. reflexivity. Qed.

Lemma bind_fst {A B} (m : M A) (f : A -> M B) :
  fst (bind m f)
  = fst m ++ match snd m with Ok a => fst (f a) | Raise _ => [] end.
Proof.
  destruct m as [t [a|e]]; cbn [bind fst snd].
  - destruct (f a) as [t' r]. reflexivity.
  - rewrite app_nil_r. reflexivity.
Qed.

Lemma bind_snd {A B} (m : M A) (f : A -> M B) :
  snd (bind m f) = match snd m with Ok a => snd (f a) | Raise e => Raise e end.
Proof.
  destruct m as [t [a|e]]; cbn [bind fst snd]; [|reflexivity].
  destruct (f a) as [t' r]. reflexivity.
Qed.

(** A console call, and what follows it. *)
Lemma bind_print {B} (line : console_line) (e : event) (k : M B) :
  (print_line line e ;; k)
  = if line_renders line then (e :: fst k, snd k) else ([], Raise (MarkupError line)).
Proof.
  unfold print_line. destruct (line_renders line); [apply bind_emit | reflexivity].
Qed.

Lemma print_line_run (line : console_line) (e : event) :
  print_line line e
  = if line_renders line then ([e], Ok tt) else ([], Raise (MarkupError line)).
Proof. unfold print_line. destruct (line_renders line); reflexivity. Qed.

(** *** [_save_images] *)

(** The loop saves the images in their order and stops, if it stops,
    at a line of success that is refused, after the image it is for. *)
Lemma save_numbered_run (output_path : Path) (images : list Image) (i : nat) :
  exists n,
    (n <= length images)%nat
    /\ (images <> [] -> (1 <= n)%nat)
    /\ saved_images (fst (save_numbered output_path i images))
       = imap (fun k img =>
                 (Path.joinpath output_path
                    ("image_" +:+ PyStr.format_04d (i + k + 1) +:+ ".png"), img))
           (take n images)
    /\ match snd (save_numbered output_path i images) with
       | Ok _ => n = length images
       | Raise e => exists message, e = MarkupError (Line_success message)
       end.
Proof.
  revert i. induction images as [|img rest IH]; intros i.
  { exists 0%nat. cbn. repeat split; [lia | contradiction]. }
  cbn [save_numbered]. rewrite bind_emit. unfold success. rewrite bind_print.
  destruct (line_renders _).
  - destruct (IH (S i)) as (n & Hn & _ & Hsaved & Hres). exists (S n).
    cbn [fst snd length]. split; [lia|]. split; [lia|]. split.
    + cbn [saved_images omap list_omap take]. rewrite imap_cons. f_equal.
      * rewrite Nat.add_0_r. reflexivity.
      * fold (saved_images (fst (save_numbered output_path (S i) rest))).
        rewrite Hsaved. apply imap_ext. intros k img' _. cbn [compose].
        replace (S i + k + 1)%nat with (i + S k + 1)%nat by lia. reflexivity.
    + destruct (snd (save_numbered output_path (S i) rest)); [lia | exact Hres].
  - exists 1%nat. cbn [fst snd length]. split; [lia|]. split; [lia|]. split.
    + cbn. rewrite Nat.add_0_r. reflexivity.
    + eauto.
Qed.


Lemma save_numbered_no_call (output_path : Path) (images : list Image) (i : nat) :
  Forall (fun e => is_call e = false) (fst (save_numbered output_path i images)).
Proof.
  revert i. induction images as [|img rest IH]; intros i; [constructor|].
  cbn [save_numbered]. rewrite bind_emit. unfold success. rewrite bind_print.
  destruct (line_renders _); cbn [fst]; repeat constructor. apply IH.
Qed.

Lemma save_images_no_call (images : list Image) (output : string) :
  Forall (fun e => is_call e = false) (fst (_save_images images output)).
Proof.
  unfold _save_images.
  destruct images as [|img [|img' rest]];
    rewrite ?bind_emit; unfold success; rewrite ?print_line_run;
    try destruct (line_renders _); cbn [fst]; repeat constructor;
    apply save_numbered_no_call.
Qed.

(** [_save_images] returns, or a line of success is refused. *)
Lemma save_images_result (images : list Image) (output : string) :
  snd (_save_images images output) = Ok tt
  \/ exists message, snd (_save_images images output) = Raise (MarkupError (Line_success message)).
Proof.
  unfold _save_images.
  destruct images as [|img [|img' rest]]; rewrite ?bind_emit; cbn [snd].
  - left. reflexivity.
  - unfold success. rewrite print_line_run. destruct (line_renders _); cbn [snd]; eauto.
  - destruct (save_numbered_run
                (if negb (String.eqb (Path.suffix (Path.of_str output)) "")
                 then Path.parent (Path.of_str output) else Path.of_str output)
                (img :: img' :: rest) 0) as (n & _ & _ & _ & Hres).
    destruct (snd (save_numbered _ _ _)) as [[]|e]; [left; reflexivity|].
    destruct Hres as [message ->]. eauto.
Qed.




(** *** [_save_stream_chunks] *)

(** The loop writes one file for each chunk, in their order, until it
    has written them all, or a chunk does not decode, or the line of a
    chunk it has written is refused. *)
Lemma save_chunks_run (stream_dir : string) (chunks : list ImageStreamChunk)
    (total_bytes chunk_count : nat) :
  exists k,
    (k <= length chunks)%nat
    /\ Forall decodes (take k chunks)
    /\ written_files (fst (save_chunks (Path.of_str stream_dir) chunks total_bytes chunk_count))
       = imap (fun i chunk => (nth_chunk_path stream_dir (chunk_count + i + 1), decoded chunk))
           (take k chunks)
    /\ match snd (save_chunks (Path.of_str stream_dir) chunks total_bytes chunk_count) with
       | Ok (_, n) => k = length chunks /\ n = (chunk_count + length chunks)%nat
       | Raise (binascii_Error text) =>
           exists bad, chunks !! k = Some bad /\ b64decode (chunk_image bad) = Raise text
       | Raise (MarkupError line) =>
           (1 <= k)%nat
           /\ exists size total,
                line = Line_info ("Received chunk " +:+ PyStr.str_of_nat (chunk_count + k)
                                  +:+ ": " +:+ PyStr.str_of_nat size +:+ " bytes (total: "
                                  +:+ PyStr.str_of_nat total +:+ " bytes)")
       | Raise _ => False
       end.
Proof.
  revert total_bytes chunk_count.
  induction chunks as [|chunk rest IH]; intros total_bytes chunk_count.
  { exists 0%nat. cbn. repeat split; first [constructor | lia]. }
  cbn [save_chunks].
  destruct (b64decode (chunk_image chunk)) as [data|text] eqn:Hdec.
  2:{ exists 0%nat. cbn. split; [lia|]. split; [constructor|]. split; [reflexivity | eauto]. }
  rewrite bind_emit. unfold info. rewrite bind_print.
  assert (Hchunk : decodes chunk) by (exists data; exact Hdec).
  assert (Hdata : decoded chunk = data) by (unfold decoded; rewrite Hdec; reflexivity).
  destruct (line_renders _).
  - destruct (IH (total_bytes + length data)%nat (chunk_count + 1)%nat)
      as (k & Hk & Hall & Hfiles & Hres).
    exists (S k). cbn [fst snd length take]. split; [lia|].
    split; [constructor; assumption|]. split.
    + change (written_files (Write_bytes ?p ?d :: Info ?m :: ?t))
        with ((p, d) :: written_files t).
      rewrite imap_cons, Hfiles. f_equal.
      * unfold nth_chunk_path. rewrite Hdata, Nat.add_0_r. reflexivity.
      * apply imap_ext. intros i c _. cbn [compose].
        replace (chunk_count + 1 + i + 1)%nat with (chunk_count + S i + 1)%nat by lia.
        reflexivity.
    + destruct (snd (save_chunks _ rest _ _)) as [[t n]|[]]; try exact Hres.
      * destruct Hres as [-> ->]. split; lia.
      * destruct Hres as [Hone (size & total & Hline)]. split; [lia|].
        exists size, total. rewrite Hline.
        replace (chunk_count + 1 + k)%nat with (chunk_count + S k)%nat by lia.
        reflexivity.
  - exists 1%nat. cbn [fst snd length take]. split; [lia|].
    split; [repeat constructor; assumption|]. split.
    + cbn. unfold nth_chunk_path. rewrite Hdata, Nat.add_0_r. reflexivity.
    + split; [lia | eauto].
Qed.




Lemma save_chunks_no_call (output_dir : Path) (chunks : list ImageStreamChunk)
    (total_bytes chunk_count : nat) :
  Forall (fun e => is_call e = false)
    (fst (save_chunks output_dir chunks total_bytes chunk_count)).
Proof.
  revert total_bytes chunk_count.
  induction chunks as [|chunk rest IH]; intros total_bytes chunk_count; [constructor|].
  cbn [save_chunks]. destruct (b64decode (chunk_image chunk)); [|constructor].
  rewrite bind_emit. unfold info. rewrite bind_print.
  destruct (line_renders _); cbn [fst]; repeat constructor. apply IH.
Qed.

(** The two closing lines of [_save_stream_chunks]. *)
Lemma closing_lines (first second : string) :
  (snd (success first ;; success second) = Ok tt
   /\ fst (success first ;; success second) = [Success first; Success second]
   \/ exists message,
        snd (success first ;; success second) = Raise (MarkupError (Line_success message))
        /\ (fst (success first ;; success second) = []
            \/ fst (success first ;; success second) = [Success first])).
Proof.
  unfold success. rewrite bind_print, print_line_run.
  destruct (line_renders (Line_success first)); [|right; eauto].
  destruct (line_renders (Line_success second)); cbn [fst snd]; [left; auto | right; eauto].
Qed.

(** [_save_stream_chunks] is the directory, the loop, and the two
    closing lines or the error of an empty stream. *)
Lemma save_stream_chunks_unfold (chunks : list ImageStreamChunk) (stream_dir : string) :
  fst (_save_stream_chunks chunks stream_dir)
  = Mkdir (Path.of_str stream_dir)
    :: fst (save_chunks (Path.of_str stream_dir) chunks 0 0)
    ++ match snd (save_chunks (Path.of_str stream_dir) chunks 0 0) with
       | Ok (total_bytes, chunk_count) =>
           if (chunk_count =? 0)%nat then []
           else fst (success ("Streaming complete! Received "
                              +:+ PyStr.str_of_nat total_bytes +:+ " bytes total") ;;
                     success ("Saved " +:+ PyStr.str_of_nat chunk_count +:+ " chunks to: "
                              +:+ Path.to_str (Path.of_str stream_dir)))
       | Raise _ => []
       end
  /\ snd (_save_stream_chunks chunks stream_dir)
     = match snd (save_chunks (Path.of_str stream_dir) chunks 0 0) with
       | Ok (total_bytes, chunk_count) =>
           if (chunk_count =? 0)%nat then Raise (RuntimeError no_chunks_message)
           else snd (success ("Streaming complete! Received "
                              +:+ PyStr.str_of_nat total_bytes +:+ " bytes total") ;;
                     success ("Saved " +:+ PyStr.str_of_nat chunk_count +:+ " chunks to: "
                              +:+ Path.to_str (Path.of_str stream_dir)))
       | Raise e => Raise e
       end.
Proof.
  unfold _save_stream_chunks. rewrite bind_emit. cbn [fst snd].
  rewrite bind_fst, bind_snd.
  destruct (snd (save_chunks (Path.of_str stream_dir) chunks 0 0)) as [[t n]|e];
    [|split; reflexivity].
  destruct (n =? 0)%nat; split; reflexivity.
Qed.

(** The files of [_save_stream_chunks] are those of its loop. *)
Lemma save_stream_chunks_files (chunks : list ImageStreamChunk) (stream_dir : string) :
  written_files (fst (_save_stream_chunks chunks stream_dir))
  = written_files (fst (save_chunks (Path.of_str stream_dir) chunks 0 0)).
Proof.
  rewrite (proj1 (save_stream_chunks_unfold chunks stream_dir)).
  change (written_files (Mkdir ?d :: ?t)) with (written_files t).
  unfold written_files. rewrite omap_app.
  destruct (snd (save_chunks _ _ _ _)) as [[t n]|e]; [|apply app_nil_r].
  destruct (n =? 0)%nat; [apply app_nil_r|].
  destruct (closing_lines
              ("Streaming complete! Received " +:+ PyStr.str_of_nat t +:+ " bytes total")
              ("Saved " +:+ PyStr.str_of_nat n +:+ " chunks to: "
               +:+ Path.to_str (Path.of_str stream_dir)))
    as [[_ ->] | (message & _ & [-> | ->])]; apply app_nil_r.
Qed.

Lemma save_stream_chunks_no_call (chunks : list ImageStreamChunk) (stream_dir : string) :
  Forall (fun e => is_call e = false) (fst (_save_stream_chunks chunks stream_dir)).
Proof.
  rewrite (proj1 (save_stream_chunks_unfold chunks stream_dir)).
  constructor; [reflexivity|]. apply Forall_app. split.
  - apply save_chunks_no_call.
  - destruct (snd (save_chunks _ _ _ _)) as [[t n]|e]; [|constructor].
    destruct (n =? 0)%nat; [constructor|].
    destruct (closing_lines
                ("Streaming complete! Received " +:+ PyStr.str_of_nat t +:+ " bytes total")
                ("Saved " +:+ PyStr.str_of_nat n +:+ " chunks to: "
                 +:+ Path.to_str (Path.of_str stream_dir)))
      as [[_ ->] | (message & _ & [-> | ->])]; repeat constructor.
Qed.


(** *** [generate_from_request_json] *)

(** The normaliser returns the payload [normalized_payload] names, or
    its warning is refused; every event of it is that warning. *)
Lemma normalize_run (payload : gmap string json) (force_stream : bool) :
  (snd (_normalize_low_level_stream_mode payload force_stream)
   = Ok (normalized_payload payload force_stream)
   \/ exists stream_value,
        _normalize_low_level_stream_mode payload force_stream
        = ([], Raise (MarkupError (Line_stream_override stream_value))))
  /\ Forall is_override_warning
       (fst (_normalize_low_level_stream_mode payload force_stream)).
Proof.
  unfold normalized_payload, _normalize_low_level_stream_mode.
  destruct (_as_object_dict (py_get payload "parameters")) as [params|];
    [|split; [left; reflexivity | constructor]].
  destruct (force_stream && is_not_sse (py_get params "stream"));
    [|split; [left; reflexivity | constructor]].
  destruct (is_not_None (py_get params "stream")).
  - rewrite bind_print. destruct (line_renders _); cbn.
    + split; [left; reflexivity|]. repeat constructor. eexists. reflexivity.
    + split; [right; eauto | constructor].
  - rewrite bind_ret. cbn. split; [left; reflexivity | constructor].
Qed.


Lemma warnings_no_call (warnings : list event) :
  Forall is_override_warning warnings ->
  Forall (fun e => is_call e = false) warnings.
Proof.
  intros Hw. eapply Forall_impl; [exact Hw|]. intros e [v ->]. reflexivity.
Qed.

(** One dispatch: the banner, the validation, the call, what is done
    with its result. *)
Lemma dispatch_run {R X : Type} (banner : string)
    (validate : gmap string json -> result string R) (call : R -> event)
    (transport : R -> result exn X) (consume : X -> M unit)
    (payload : gmap string json) :
  fst (info banner ;;
       request <- model_validate validate payload ;;
       emit (call request) ;;
       x <- lift (transport request) ;;
       consume x)
  = (if line_renders (Line_info banner) then
       Info banner
       :: match validate payload with
          | Raise _ => []
          | Ok request =>
              call request
              :: match transport request with
                 | Raise _ => []
                 | Ok x => fst (consume x)
                 end
          end
     else [])
  /\ snd (info banner ;;
          request <- model_validate validate payload ;;
          emit (call request) ;;
          x <- lift (transport request) ;;
          consume x)
     = (if line_renders (Line_info banner) then
          match validate payload with
          | Raise text => Raise (ValidationError text)
          | Ok request =>
              match transport request with
              | Raise e => Raise e
              | Ok x => snd (consume x)
              end
          end
        else Raise (MarkupError (Line_info banner))).
Proof.
  unfold info. rewrite bind_print.
  destruct (line_renders (Line_info banner)); [|split; reflexivity].
  cbn [fst snd]. unfold model_validate.
  destruct (validate payload) as [request|text]; [|split; reflexivity].
  cbv beta iota. rewrite (bind_ret request), bind_emit. cbn [fst snd]. unfold lift.
  destruct (transport request) as [x|e]; [|split; reflexivity].
  change (bind ([], Ok x) consume) with (bind (ret x) consume).
  rewrite (bind_ret x). split; reflexivity.
Qed.

Lemma fail_and_exit_run (message : string) :
  fail_and_exit message
  = if line_renders (Line_fail message) then ([Fail message], SystemExit 1)
    else ([], Propagated (MarkupError (Line_fail message))).
Proof.
  unfold fail_and_exit, fail. rewrite print_line_run.
  destruct (line_renders _); reflexivity.
Qed.

(** What the two [except] clauses add to a run of the [try] block. *)
Lemma generate_from_request_json_run (args : Namespace) (payload : gmap string json) :
  fst (generate_from_request_json args payload)
  = fst (request_json_body args payload)
    ++ match snd (request_json_body args payload) with
       | Ok _ => []
       | Raise e => fst (fail_and_exit (failure_message e))
       end
  /\ snd (generate_from_request_json args payload)
     = match snd (request_json_body args payload) with
       | Ok _ => Returned
       | Raise e => snd (fail_and_exit (failure_message e))
       end.
Proof.
  unfold generate_from_request_json.
  destruct (request_json_body args payload) as [trace [u|e]]; cbn [fst snd].
  - rewrite app_nil_r. split; reflexivity.
  - destruct (fail_and_exit (failure_message e)). split; reflexivity.
Qed.

(** The [try] block on a low-level payload: the warnings of the
    normaliser, then one dispatch; or the warning is refused, and that
    is all of it. *)
Lemma request_json_body_low_level (args : Namespace) (payload : gmap string json) :
  is_low_level payload = true ->
  let sanitized := _sanitize_low_level_payload payload in
  let is_stream := Namespace.stream args || stream_in_payload sanitized in
  let normalized := normalized_payload sanitized is_stream in
  (exists stream_value,
      _normalize_low_level_stream_mode sanitized is_stream
      = ([], Raise (MarkupError (Line_stream_override stream_value)))
      /\ request_json_body args payload
         = ([], Raise (MarkupError (Line_stream_override stream_value))))
  \/ (exists warnings,
        Forall is_override_warning warnings
        /\ _normalize_low_level_stream_mode sanitized is_stream = (warnings, Ok normalized)
        /\ request_json_body args payload
           = (warnings
              ++ fst (if is_stream then
                        info low_level_stream_banner ;;
                        request <- model_validate StreamImageGenerationRequest_validate normalized ;;
                        emit (Call_api_generate_stream request) ;;
                        chunks <- lift (api_client_image_generate_stream request) ;;
                        _save_stream_chunks chunks (Namespace.stream_dir args)
                      else
                        info low_level_banner ;;
                        request <- model_validate ImageGenerationRequest_validate normalized ;;
                        emit (Call_api_generate request) ;;
                        images <- lift (api_client_image_generate request) ;;
                        _save_images images (Namespace.output args) ;;
                        success (generated_message (length images))),
              snd (if is_stream then
                     info low_level_stream_banner ;;
                     request <- model_validate StreamImageGenerationRequest_validate normalized ;;
                     emit (Call_api_generate_stream request) ;;
                     chunks <- lift (api_client_image_generate_stream request) ;;
                     _save_stream_chunks chunks (Namespace.stream_dir args)
                   else
                     info low_level_banner ;;
                     request <- model_validate ImageGenerationRequest_validate normalized ;;
                     emit (Call_api_generate request) ;;
                     images <- lift (api_client_image_generate request) ;;
                     _save_images images (Namespace.output args) ;;
                     success (generated_message (length images))))).
Proof.
  intros Hlow sanitized is_stream normalized.
  destruct (normalize_run sanitized is_stream) as [[Hres | [v Hraise]] Hwarn].
  - right. exists (fst (_normalize_low_level_stream_mode sanitized is_stream)).
    split; [exact Hwarn|]. split.
    + apply injective_projections; [reflexivity | exact Hres].
    + unfold request_json_body. rewrite Hlow.
      fold sanitized. fold is_stream.
      apply injective_projections; cbn [fst snd].
      * rewrite bind_fst, Hres. reflexivity.
      * rewrite bind_snd, Hres. reflexivity.
  - left. exists v. split; [exact Hraise|].
    unfold request_json_body. rewrite Hlow.
    fold sanitized. fold is_stream. rewrite Hraise. reflexivity.
Qed.


Lemma banners_differ : low_level_stream_banner <> low_level_banner.
Proof.
  intros Heq. apply String.eqb_eq in Heq. vm_compute in Heq. discriminate Heq.
Qed.


Lemma except_clauses_no_call (message : string) :
  Forall (fun e => is_call e = false) (fst (fail_and_exit message)).
Proof.
  rewrite fail_and_exit_run. destruct (line_renders _); repeat constructor.
Qed.

Lemma except_clause_tail {A} (r : result exn A) :
  Forall (fun e => is_call e = false)
    match r with
    | Ok _ => []
    | Raise e => fst (fail_and_exit (failure_message e))
    end.
Proof. destruct r as [a|e]; [constructor | apply except_clauses_no_call]. Qed.

(** *** Reading the runs *)

Lemma client_calls_app (t1 t2 : list event) :
  client_calls (t1 ++ t2) = client_calls t1 ++ client_calls t2.
Proof. apply List.filter_app. Qed.

Lemma client_calls_none (trace : list event) :
  Forall (fun e => is_call e = false) trace -> client_calls trace = [].
Proof.
  induction 1 as [|e trace He _ IH]; [reflexivity|].
  unfold client_calls in *. cbn [List.filter]. rewrite He. exact IH.
Qed.

Lemma saved_images_app (t1 t2 : list event) :
  saved_images (t1 ++ t2) = saved_images t1 ++ saved_images t2.
Proof. apply omap_app. Qed.

Lemma written_files_app (t1 t2 : list event) :
  written_files (t1 ++ t2) = written_files t1 ++ written_files t2.
Proof. apply omap_app. Qed.






Lemma save_numbered_writes_no_file (output_path : Path) (images : list Image) (i : nat) :
  written_files (fst (save_numbered output_path i images)) = [].
Proof.
  revert i. induction images as [|img rest IH]; intros i; [reflexivity|].
  cbn [save_numbered]. rewrite bind_emit. unfold success. rewrite bind_print.
  destruct (line_renders _); [|reflexivity]. cbn [fst].
  change (written_files (Save_image ?p ?d :: Success ?m :: ?t)) with (written_files t).
  apply IH.
Qed.

(** [_save_images] and the line that follows it: the events, the
    images and the result. *)
Lemma save_then_report (output : string) (images : list Image) :
  Forall (fun e => is_call e = false)
    (fst (_save_images images output ;; success (generated_message (length images))))
  /\ written_files
       (fst (_save_images images output ;; success (generated_message (length images))))
     = []
  /\ saved_images
       (fst (_save_images images output ;; success (generated_message (length images))))
     = saved_images (fst (_save_images images output))
  /\ (snd (_save_images images output ;; success (generated_message (length images)))
      = Ok tt
      \/ exists message,
           snd (_save_images images output ;; success (generated_message (length images)))
           = Raise (MarkupError (Line_success message))).
Proof.
  rewrite bind_fst, bind_snd.
  assert (Hlast : forall u : unit,
            (fst (success (generated_message (length images))) = []
             \/ fst (success (generated_message (length images)))
                = [Success (generated_message (length images))])
            /\ (snd (success (generated_message (length images))) = Ok tt
                \/ exists message,
                     snd (success (generated_message (length images)))
                     = Raise (MarkupError (Line_success message)))).
  { intros _. unfold success. rewrite print_line_run.
    destruct (line_renders _); cbn [fst snd]; eauto. }
  assert (Hw : written_files (fst (_save_images images output)) = []).
  { unfold _save_images.
    destruct images as [|img [|img' rest]]; rewrite ?bind_emit; cbn [fst].
    - reflexivity.
    - unfold success. rewrite print_line_run. destruct (line_renders _); reflexivity.
    - change (written_files (Mkdir ?d :: ?t)) with (written_files t).
      apply save_numbered_writes_no_file. }
  destruct (save_images_result images output) as [Hok | [message Hraise]].
  - rewrite Hok. destruct (Hlast tt) as [[Hf | Hf] Hs]; rewrite Hf.
    + rewrite app_nil_r. split; [apply save_images_no_call|].
      split; [exact Hw|]. split; [reflexivity | exact Hs].
    + split; [apply Forall_app; split; [apply save_images_no_call | repeat constructor]|].
      split; [rewrite written_files_app, Hw; reflexivity|].
      split; [rewrite saved_images_app; apply app_nil_r | exact Hs].
  - rewrite Hraise, app_nil_r. split; [apply save_images_no_call|].
    split; [exact Hw|]. split; [reflexivity | eauto].
Qed.

Lemma save_then_report_no_call (output : string) (images : list Image) :
  Forall (fun e => is_call e = false)
    (fst (_save_images images output ;; success (generated_message (length images)))).
Proof. apply save_then_report. Qed.

Lemma call_observed (e : event) (trace : list event) :
  is_call e = true ->
  client_calls (e :: trace) = e :: client_calls trace
  /\ saved_images (e :: trace) = saved_images trace
  /\ written_files (e :: trace) = written_files trace
  /\ first_info (e :: trace) = first_info trace.
Proof.
  intros He. unfold client_calls. cbn [List.filter]. rewrite He.
  destruct e; try discriminate He; repeat split.
Qed.




Lemma no_call_validated (trace : list event) :
  Forall (fun e => is_call e = false) trace -> Forall validated_call trace.
Proof.
  intros Hn. eapply Forall_impl; [exact Hn|].
  intros e He. destruct e; first [exact I | discriminate He].
Qed.

Lemma dispatch_run_Forall {R X : Type} (Q : event -> Prop) (banner : string)
    (validate : gmap string json -> result string R) (call : R -> event)
    (transport : R -> result exn X) (consume : X -> M unit)
    (payload : gmap string json) :
  Q (Info banner) ->
  (forall request, validate payload = Ok request -> Q (call request)) ->
  (forall x, Forall Q (fst (consume x))) ->
  Forall Q (fst (info banner ;;
                 request <- model_validate validate payload ;;
                 emit (call request) ;;
                 x <- lift (transport request) ;;
                 consume x)).
Proof.
  intros Hbanner Hcall Hconsume.
  rewrite (proj1 (dispatch_run banner validate call transport consume payload)).
  destruct (line_renders (Line_info banner)); [|constructor].
  constructor; [exact Hbanner|].
  destruct (validate payload) as [request|text] eqn:Hv; [|constructor].
  constructor; [apply Hcall; reflexivity|].
  destruct (transport request) as [x|e]; [apply Hconsume | constructor].
Qed.

(** X1. Whatever the payload, a run calls the client only with a
    request that [model_validate] of the model of that call returned. *)
Lemma calls_are_validated (args : Namespace) (payload : gmap string json) :
  Forall validated_call (fst (generate_from_request_json args payload)).
Proof.
  rewrite (proj1 (generate_from_request_json_run args payload)).
  apply Forall_app. split; [|apply no_call_validated, except_clause_tail].
  destruct (is_low_level payload) eqn:Hlow.
  - destruct (request_json_body_low_level args payload Hlow)
      as [(v & _ & ->) | (warnings & Hwarn & _ & Hbody)]; [constructor|].
    cbv zeta in Hbody. rewrite Hbody. cbn [fst]. clear Hbody.
    apply Forall_app. split; [apply no_call_validated, warnings_no_call, Hwarn|].
    destruct (Namespace.stream args || stream_in_payload _).
    + apply dispatch_run_Forall; [exact I | intros r Hr; cbn; eauto |].
      intros chunks. apply no_call_validated, save_stream_chunks_no_call.
    + apply dispatch_run_Forall; [exact I | intros r Hr; cbn; eauto |].
      intros images. apply no_call_validated, save_then_report_no_call.
  - unfold request_json_body. rewrite Hlow.
    destruct (Namespace.stream args).
    + apply dispatch_run_Forall; [exact I | intros r Hr; cbn; eauto |].
      intros chunks. apply no_call_validated, save_stream_chunks_no_call.
    + apply dispatch_run_Forall; [exact I | intros r Hr; cbn; eauto |].
      intros images. apply no_call_validated, save_then_report_no_call.
Qed.

End RunFacts.


(** * Further properties of the parser *)

Section StringFacts.

Lemma lower_char_idempotent (c : ascii) :
  PyStr.lower_char (PyStr.lower_char c) = PyStr.lower_char c.
Proof. destruct c as [[] [] [] [] [] [] [] []]; reflexivity. Qed.

Lemma isspace_lower_char (c : ascii) :
  PyStr.isspace (PyStr.lower_char c) = PyStr.isspace c.
Proof. destruct c as [[] [] [] [] [] [] [] []]; reflexivity. Qed.

Lemma lower_idempotent (s : string) : PyStr.lower (PyStr.lower s) = PyStr.lower s.
Proof.
  induction s as [|c r IH]; [reflexivity|].
  cbn [PyStr.lower]. rewrite lower_char_idempotent, IH. reflexivity.
Qed.

Lemma lstrip_lower (s : string) :
  PyStr.lstrip (PyStr.lower s) = PyStr.lower (PyStr.lstrip s).
Proof.
  induction s as [|c r IH]; [reflexivity|].
  cbn [PyStr.lower PyStr.lstrip]. rewrite isspace_lower_char.
  destruct (PyStr.isspace c); [exact IH | reflexivity].
Qed.

Lemma rstrip_lower (s : string) :
  PyStr.rstrip (PyStr.lower s) = PyStr.lower (PyStr.rstrip s).
Proof.
  induction s as [|c r IH]; [reflexivity|].
  cbn [PyStr.lower PyStr.rstrip]. rewrite IH, isspace_lower_char.
  destruct (PyStr.rstrip r) as [|c' r']; cbn [PyStr.lower].
  - destruct (PyStr.isspace c); reflexivity.
  - reflexivity.
Qed.

Lemma strip_lower (s : string) :
  PyStr.strip (PyStr.lower s) = PyStr.lower (PyStr.strip s).
Proof. unfold PyStr.strip. rewrite lstrip_lower, rstrip_lower. reflexivity. Qed.

Lemma rstrip_idempotent (s : string) : PyStr.rstrip (PyStr.rstrip s) = PyStr.rstrip s.
Proof.
  induction s as [|c r IH]; [reflexivity|].
  cbn [PyStr.rstrip].
  destruct (PyStr.rstrip r) as [|c' r'] eqn:Hr.
  - destruct (PyStr.isspace c) eqn:Hc; [reflexivity|].
    cbn [PyStr.rstrip]. rewrite Hc. reflexivity.
  - cbn [PyStr.rstrip] in *. rewrite IH. reflexivity.
Qed.

(** A string that is empty or starts with a character that is not a
    blank. *)
Lemma lstrip_fixed (s : string) :
  match s with String c _ => PyStr.isspace c = false | EmptyString => True end ->
  PyStr.lstrip s = s.
Proof. destruct s as [|c r]; [reflexivity|]. cbn. intros ->. reflexivity. Qed.

Lemma lstrip_head (s : string) :
  match PyStr.lstrip s with
  | String c _ => PyStr.isspace c = false
  | EmptyString => True
  end.
Proof.
  induction s as [|c r IH]; [exact I|].
  cbn [PyStr.lstrip]. destruct (PyStr.isspace c) eqn:Hc; [exact IH | exact Hc].
Qed.

Lemma rstrip_head (s : string) :
  match s with String c _ => PyStr.isspace c = false | EmptyString => True end ->
  match PyStr.rstrip s with
  | String c _ => PyStr.isspace c = false
  | EmptyString => True
  end.
Proof.
  destruct s as [|c r]; [intros _; exact I|]. intros Hc.
  cbn [PyStr.rstrip]. destruct (PyStr.rstrip r); [rewrite Hc|]; exact Hc.
Qed.

Lemma strip_idempotent (s : string) : PyStr.strip (PyStr.strip s) = PyStr.strip s.
Proof.
  unfold PyStr.strip.
  rewrite (lstrip_fixed (PyStr.rstrip (PyStr.lstrip s)))
    by apply rstrip_head, lstrip_head.
  apply rstrip_idempotent.
Qed.

(** Lower-casing the stripped string is a normal form. *)
Lemma lower_strip_idempotent (s : string) :
  PyStr.lower (PyStr.strip (PyStr.lower (PyStr.strip s))) = PyStr.lower (PyStr.strip s).
Proof. rewrite strip_lower, strip_idempotent, lower_idempotent. reflexivity. Qed.

End StringFacts.

(** *** Decimal numerals *)

Section DecimalFacts.

Lemma digit_not_space (c : ascii) d :
  PyStr.digit_value c = Some d ->
  PyStr.isspace c = false /\ Ascii.eqb c "x" = false /\ Ascii.eqb c "_" = false
  /\ Ascii.eqb c "-" = false /\ Ascii.eqb c "+" = false
  /\ Ascii.eqb c "n" = false /\ Ascii.eqb c "r" = false
  /\ PyStr.lower_char c = c.
Proof.
  destruct c as [[] [] [] [] [] [] [] []]; cbn; intros Hd;
    first [discriminate Hd | repeat split].
Qed.

Lemma string_of_uint_digits (d : Decimal.uint) :
  all_digits (NilEmpty.string_of_uint d) = true.
Proof. induction d; cbn; auto. Qed.

Lemma str_of_nat_digits (n : nat) :
  all_digits (PyStr.str_of_nat n) = true /\ PyStr.str_of_nat n <> "".
Proof.
  split; [apply string_of_uint_digits|].
  unfold PyStr.str_of_nat.
  assert (Hn : Nat.to_uint n <> Decimal.Nil).
  { rewrite <- (DecimalNat.Unsigned.of_to n) at 1.
    rewrite DecimalNat.Unsigned.to_of. apply DecimalFacts.unorm_nonnil. }
  destruct (Nat.to_uint n); [contradiction | discriminate ..].
Qed.

Lemma digits_rstrip (s : string) : all_digits s = true -> PyStr.rstrip s = s.
Proof.
  induction s as [|c r IH]; [reflexivity|]. cbn [all_digits PyStr.rstrip].
  destruct (PyStr.digit_value c) as [d|] eqn:Hd; [|discriminate].
  intros Hr. rewrite (IH Hr).
  destruct (digit_not_space c d Hd) as (-> & _). destruct r; reflexivity.
Qed.

Lemma digits_strip (s : string) : all_digits s = true -> PyStr.strip s = s.
Proof.
  intros Hs. unfold PyStr.strip. rewrite lstrip_fixed; [apply digits_rstrip, Hs|].
  destruct s as [|c r]; [exact I|]. cbn [all_digits] in Hs.
  destruct (PyStr.digit_value c) as [d|] eqn:Hd; [|discriminate].
  exact (proj1 (digit_not_space c d Hd)).
Qed.

Lemma digits_lower (s : string) : all_digits s = true -> PyStr.lower s = s.
Proof.
  induction s as [|c r IH]; [reflexivity|]. cbn [all_digits PyStr.lower].
  destruct (PyStr.digit_value c) as [d|] eqn:Hd; [|discriminate].
  intros Hr. rewrite (IH Hr).
  destruct (digit_not_space c d Hd) as (_ & _ & _ & _ & _ & _ & _ & ->). reflexivity.
Qed.

Lemma digits_no_x (s : string) :
  all_digits s = true -> PyStr.contains_char "x" s = false.
Proof.
  induction s as [|c r IH]; [reflexivity|]. cbn [all_digits PyStr.contains_char].
  destruct (PyStr.digit_value c) as [d|] eqn:Hd; [|discriminate].
  intros Hr. rewrite (IH Hr).
  destruct (digit_not_space c d Hd) as (_ & -> & _). reflexivity.
Qed.

Lemma strip_minus_digits (s : string) :
  all_digits s = true -> PyStr.strip (String "-" s) = String "-" s.
Proof.
  intros Hd. unfold PyStr.strip. cbn [PyStr.lstrip].
  change (PyStr.isspace "-") with false. cbv iota. cbn [PyStr.rstrip].
  rewrite (digits_rstrip _ Hd). destruct s; reflexivity.
Qed.

Lemma digit_not_int_space (c : ascii) d :
  PyStr.digit_value c = Some d -> PyStr.int_space c = false.
Proof.
  destruct c as [[] [] [] [] [] [] [] []]; cbn; intros Hd;
    first [discriminate Hd | reflexivity].
Qed.

Lemma digits_int_rstrip (s : string) : all_digits s = true -> PyStr.int_rstrip s = s.
Proof.
  induction s as [|c r IH]; [reflexivity|]. cbn [all_digits PyStr.int_rstrip].
  destruct (PyStr.digit_value c) as [d|] eqn:Hd; [|discriminate].
  intros Hr. rewrite (IH Hr), (digit_not_int_space c d Hd). destruct r; reflexivity.
Qed.

Lemma digits_int_strip (s : string) :
  all_digits s = true -> PyStr.int_rstrip (PyStr.int_lstrip s) = s.
Proof.
  intros Hs. replace (PyStr.int_lstrip s) with s; [apply digits_int_rstrip, Hs|].
  destruct s as [|c r]; [reflexivity|]. cbn [all_digits] in Hs.
  destruct (PyStr.digit_value c) as [d|] eqn:Hd; [|discriminate].
  cbn [PyStr.int_lstrip]. rewrite (digit_not_int_space c d Hd). reflexivity.
Qed.

(** Reading the digits of a numeral continues the accumulator the way
    [Nat.of_uint_acc] does, as long as the digits stay within the
    limit. *)
Lemma int_digits_of_uint (d : Decimal.uint) (acc : nat) (after_digit : bool)
    (count : nat) :
  d <> Decimal.Nil \/ after_digit = true ->
  PyStr.int_digits (NilEmpty.string_of_uint d) (Z.of_nat acc) after_digit count
  = if (count + String.length (NilEmpty.string_of_uint d) <=? PyStr.MAX_STR_DIGITS)%nat
    then Some (Z.of_nat (Nat.of_uint_acc d acc)) else None.
Proof.
  revert acc after_digit count.
  induction d; intros acc after_digit count Hd;
    [destruct Hd as [Hd | ->]; [contradiction|];
     cbn [NilEmpty.string_of_uint PyStr.int_digits String.length andb Nat.of_uint_acc];
     rewrite Nat.add_0_r; reflexivity | ..];
    cbn [NilEmpty.string_of_uint PyStr.int_digits String.length];
    match goal with
    | |- context [PyStr.digit_value ?c] =>
        let v := eval vm_compute in (PyStr.digit_value c) in
        change (PyStr.digit_value c) with v
    end;
    cbv iota beta; cbn [Nat.of_uint_acc]; rewrite Nat.tail_mul_spec;
    rewrite <- Nat.add_succ_comm;
    match goal with
    | |- PyStr.int_digits _ ?z true _ = (if _ then Some (Z.of_nat (Nat.of_uint_acc _ ?m)) else _) =>
        replace z with (Z.of_nat m) by lia
    end;
    apply IHd; right; reflexivity.
Qed.

(** [int(str(n)) == n] and [int("-" + str(n)) == -n], for a numeral
    within the limit of digits; beyond it [int] refuses the numeral. *)
Lemma int_str_of_nat (n : nat) :
  PyStr.int (PyStr.str_of_nat n)
  = (if (String.length (PyStr.str_of_nat n) <=? PyStr.MAX_STR_DIGITS)%nat
     then Some (Z.of_nat n) else None)
  /\ PyStr.int (String "-" (PyStr.str_of_nat n))
     = (if (String.length (PyStr.str_of_nat n) <=? PyStr.MAX_STR_DIGITS)%nat
        then Some (- Z.of_nat n) else None).
Proof.
  destruct (str_of_nat_digits n) as [Hd Hne].
  assert (Hval : PyStr.int_digits (PyStr.str_of_nat n) 0 false 0
                 = if (String.length (PyStr.str_of_nat n) <=? PyStr.MAX_STR_DIGITS)%nat
                   then Some (Z.of_nat n) else None).
  { unfold PyStr.str_of_nat in *.
    change 0 with (Z.of_nat 0).
    rewrite int_digits_of_uint.
    - change (Nat.of_uint_acc (Nat.to_uint n) 0) with (Nat.of_uint (Nat.to_uint n)).
      rewrite DecimalNat.Unsigned.of_to. reflexivity.
    - left. intros Hnil. rewrite Hnil in Hne. apply Hne. reflexivity. }
  split.
  - unfold PyStr.int. rewrite (digits_int_strip _ Hd).
    destruct (PyStr.str_of_nat n) as [|c r] eqn:Hs; [contradiction|].
    cbn [all_digits] in Hd.
    destruct (PyStr.digit_value c) as [d|] eqn:Hc; [|discriminate].
    destruct (digit_not_space c d Hc) as (_ & _ & _ & Hm & Hp & _).
    destruct c as [[] [] [] [] [] [] [] []]; try discriminate Hm; try discriminate Hp;
      exact Hval.
  - unfold PyStr.int.
    assert (Hstrip : PyStr.int_rstrip (PyStr.int_lstrip (String "-" (PyStr.str_of_nat n)))
                     = String "-" (PyStr.str_of_nat n)).
    { cbn [PyStr.int_lstrip]. change (PyStr.int_space "-") with false.
      cbv iota. cbn [PyStr.int_rstrip]. rewrite (digits_int_rstrip _ Hd).
      destruct (PyStr.str_of_nat n); reflexivity. }
    rewrite Hstrip, Hval.
    destruct (String.length (PyStr.str_of_nat n) <=? PyStr.MAX_STR_DIGITS)%nat;
      reflexivity.
Qed.

End DecimalFacts.

Section ParserFacts.
Import Namespace.

Lemma validate_args_in_ranges (args : Namespace) (in_interactive : bool) :
  Parser.validate_args args in_interactive = Parser.Validated <-> in_ranges args.
Proof.
  unfold Parser.validate_args, Parser.validate_args_checks, Parser._validate_range,
    in_ranges.
  destruct (Z.ltb_spec (steps args) 1);
    [split; [destruct in_interactive; discriminate | lia]|].
  destruct (Z.gtb_spec (steps args) 50);
    [split; [destruct in_interactive; discriminate | lia]|].
  destruct (Z.ltb_spec (n_images args) 1);
    [split; [destruct in_interactive; discriminate | lia]|].
  destruct (Z.gtb_spec (n_images args) 8);
    [split; [destruct in_interactive; discriminate | lia]|].
  repeat match goal with
  | |- context [PrimFloat.leb ?a ?b] =>
      destruct (PrimFloat.leb a b) eqn:?;
      cbn [andb negb];
      try (split; [destruct in_interactive; discriminate
                  | intros Hr; decompose [and] Hr; discriminate])
  end.
  split; [intros _; repeat split; lia | reflexivity].
Qed.

(** X3. [validate_args] accepts exactly the records whose numbers are in
    range: steps in 1..50, n-images in 1..8, and each float between its
    two bounds under the comparison of binary64 numbers, so a NaN is
    refused wherever it stands.  A refusal is the same exception in
    both modes, re-raised in the interactive one and given to
    [parser.error] otherwise. *)
Theorem validate_args_accepts_iff (args : Namespace) (in_interactive : bool) :
  (Parser.validate_args args in_interactive = Parser.Validated <-> in_ranges args)
  /\ (forall exc,
        Parser.validate_args args true = Parser.Raised exc
        <-> Parser.validate_args args false = Parser.ParserError exc)
  /\ (scale args = PrimFloat.nan \/ ref_fidelity args = PrimFloat.nan
      \/ ref_strength args = PrimFloat.nan \/ controlnet_strength args = PrimFloat.nan
      \/ strength args = PrimFloat.nan \/ noise args = PrimFloat.nan ->
      Parser.validate_args args in_interactive <> Parser.Validated).
Proof.
  split; [apply validate_args_in_ranges|]. split.
  - intros exc. unfold Parser.validate_args.
    destruct (Parser.validate_args_checks args) as [u|e].
    + split; discriminate.
    + split; intros Heq; injection Heq as <-; reflexivity.
  - intros Hnan Hvalid.
    apply validate_args_in_ranges in Hvalid. unfold in_ranges in Hvalid.
    decompose [and] Hvalid.
    decompose [or] Hnan;
      match goal with Hn : _ = PrimFloat.nan |- _ => rewrite Hn in * end;
      discriminate.
Qed.

(** *** [parse_size], [parse_seed_value] *)

Lemma append_cons (c : ascii) (a b : string) :
  String c a +:+ b = String c (a +:+ b).
Proof. reflexivity. Qed.

Lemma split_without_sep (sep : ascii) (s : string) :
  PyStr.contains_char sep s = false -> PyStr.split sep s = [s].
Proof.
  induction s as [|c r IH]; [reflexivity|]. cbn [PyStr.contains_char PyStr.split].
  destruct (Ascii.eqb c sep); [discriminate|]. cbn [orb].
  intros Hr. rewrite (IH Hr). reflexivity.
Qed.

Lemma split_at_first_sep (sep : ascii) (a b : string) :
  PyStr.contains_char sep a = false ->
  PyStr.split sep (a +:+ String sep b) = a :: PyStr.split sep b.
Proof.
  induction a as [|c r IH]; cbn [PyStr.contains_char].
  - intros _. change ("" +:+ String sep b) with (String sep b).
    cbn [PyStr.split]. rewrite Ascii.eqb_refl. reflexivity.
  - destruct (Ascii.eqb c sep) eqn:Hc; [discriminate|]. cbn [orb]. intros Hr.
    rewrite append_cons. cbn [PyStr.split]. rewrite Hc, (IH Hr). reflexivity.
Qed.

Lemma contains_after (sep : ascii) (a b : string) :
  PyStr.contains_char sep (a +:+ String sep b) = true.
Proof.
  induction a as [|c r IH].
  - change ("" +:+ String sep b) with (String sep b).
    cbn [PyStr.contains_char]. rewrite Ascii.eqb_refl. reflexivity.
  - rewrite append_cons. cbn [PyStr.contains_char]. rewrite IH. apply orb_true_r.
Qed.

(** X4. [parse_size] reads [W] and [H] back from the text [WxH] written
    in decimal, for all natural numbers, zero included, whose numerals
    [int] reads: there is no bound on an explicit size but the limit
    of 4300 digits that [int] has, and a numeral beyond it ends in the
    failure branch.  A text without an [x] is handed on as a preset
    name, whatever it is; a text with an [x] is never a preset name, so
    a word such as [extra] ends in the failure branch. *)
Theorem parse_size_round_trip :
  (forall width height : nat,
      (String.length (PyStr.str_of_nat width) <= PyStr.MAX_STR_DIGITS)%nat ->
      (String.length (PyStr.str_of_nat height) <= PyStr.MAX_STR_DIGITS)%nat ->
      Parser.parse_size (PyStr.str_of_nat width +:+ String "x" (PyStr.str_of_nat height))
      = Parser.SizePair (Z.of_nat width) (Z.of_nat height))
  /\ (forall width height : nat,
        (PyStr.MAX_STR_DIGITS < String.length (PyStr.str_of_nat width))%nat
        \/ (PyStr.MAX_STR_DIGITS < String.length (PyStr.str_of_nat height))%nat ->
        Parser.parse_size (PyStr.str_of_nat width +:+ String "x" (PyStr.str_of_nat height))
        = Parser.SizeExit
            ("Error: Invalid size format: "
             +:+ (PyStr.str_of_nat width +:+ String "x" (PyStr.str_of_nat height))))
  /\ (forall size_str,
        PyStr.contains_char "x" size_str = false ->
        Parser.parse_size size_str = Parser.SizePreset size_str)
  /\ (forall size_str name,
        PyStr.contains_char "x" size_str = true ->
        Parser.parse_size size_str <> Parser.SizePreset name).
Proof.
  assert (Hsplit : forall width height : nat,
            Parser.parse_size
              (PyStr.str_of_nat width +:+ String "x" (PyStr.str_of_nat height))
            = match PyStr.int (PyStr.str_of_nat width),
                    PyStr.int (PyStr.str_of_nat height) with
              | Some w, Some h => Parser.SizePair w h
              | _, _ =>
                  Parser.SizeExit
                    ("Error: Invalid size format: "
                     +:+ (PyStr.str_of_nat width
                          +:+ String "x" (PyStr.str_of_nat height)))
              end).
  { intros width height. unfold Parser.parse_size.
    destruct (str_of_nat_digits width) as [Hw _].
    destruct (str_of_nat_digits height) as [Hh _].
    rewrite contains_after, split_at_first_sep by (apply digits_no_x, Hw).
    rewrite split_without_sep by (apply digits_no_x, Hh).
    cbn [map].
    destruct (PyStr.int (PyStr.str_of_nat width)),
      (PyStr.int (PyStr.str_of_nat height)); reflexivity. }
  split; [|split; [|split]].
  - intros width height Hw Hh. rewrite Hsplit.
    rewrite (proj1 (int_str_of_nat width)), (proj1 (int_str_of_nat height)).
    apply Nat.leb_le in Hw, Hh. rewrite Hw, Hh. reflexivity.
  - intros width height Hlong. rewrite Hsplit.
    rewrite (proj1 (int_str_of_nat width)), (proj1 (int_str_of_nat height)).
    destruct Hlong as [Hlong | Hlong]; apply Nat.leb_gt in Hlong; rewrite Hlong.
    + reflexivity.
    + destruct (String.length (PyStr.str_of_nat width) <=? PyStr.MAX_STR_DIGITS)%nat;
        reflexivity.
  - intros size_str Hx. unfold Parser.parse_size. rewrite Hx. reflexivity.
  - intros size_str name Hx. unfold Parser.parse_size. rewrite Hx.
    destruct (map PyStr.int (PyStr.split "x" size_str)) as [|[w|] [|[h|] [|? ?]]];
      discriminate.
Qed.

Lemma digits_not_reserved (s : string) :
  all_digits s = true -> s <> "" ->
  PyStr.str_in s ["none"; "null"; "random"] = false.
Proof.
  destruct s as [|c r]; [contradiction|]. cbn [all_digits]. intros Hd _.
  destruct (PyStr.digit_value c) as [d|] eqn:Hc; [|discriminate].
  destruct (digit_not_space c d Hc) as (_ & _ & _ & _ & _ & Hn & Hr & _).
  unfold PyStr.str_in. cbn [existsb String.eqb]. rewrite Hn, Hr. reflexivity.
Qed.

(** X5. [parse_seed_value] reads every integer in decimal, negative
    ones too, back as that seed, as long as [int] reads the numeral: a
    seed has no lower or upper bound but the limit of 4300 digits, and
    a numeral beyond it is the [ValueError] of [int].  The three words
    [none], [null] and [random] clear the seed in any letter case and
    with blanks around them. *)
Theorem parse_seed_value_round_trip :
  (forall n : nat,
      (String.length (PyStr.str_of_nat n) <= PyStr.MAX_STR_DIGITS)%nat ->
      Parser.parse_seed_value (PyStr.str_of_nat n) = Ok (Some (Z.of_nat n))
      /\ Parser.parse_seed_value (String "-" (PyStr.str_of_nat n))
         = Ok (Some (- Z.of_nat n)))
  /\ (forall n : nat,
        (PyStr.MAX_STR_DIGITS < String.length (PyStr.str_of_nat n))%nat ->
        Parser.parse_seed_value (PyStr.str_of_nat n)
        = Raise (Parser.ValueError_int (PyStr.str_of_nat n)))
  /\ (forall value,
        In (PyStr.lower (PyStr.strip value)) ["none"; "null"; "random"] ->
        Parser.parse_seed_value value = Ok None
        /\ Parser.parse_seed_value (PyStr.lower value) = Ok None
        /\ Parser.parse_seed_value (PyStr.strip value) = Ok None).
Proof.
  split; [|split].
  - intros n Hlen. destruct (str_of_nat_digits n) as [Hd Hne].
    destruct (int_str_of_nat n) as [Hpos Hneg].
    apply Nat.leb_le in Hlen. rewrite Hlen in Hpos, Hneg.
    unfold Parser.parse_seed_value. split.
    + rewrite (digits_strip _ Hd), (digits_lower _ Hd),
        (digits_not_reserved _ Hd Hne), Hpos. reflexivity.
    + assert (Hnorm : PyStr.lower (PyStr.strip (String "-" (PyStr.str_of_nat n)))
                      = String "-" (PyStr.str_of_nat n)).
      { rewrite (strip_minus_digits _ Hd). cbn [PyStr.lower].
        rewrite (digits_lower _ Hd). reflexivity. }
      rewrite Hnorm, Hneg. reflexivity.
  - intros n Hlen. destruct (str_of_nat_digits n) as [Hd Hne].
    pose proof (proj1 (int_str_of_nat n)) as Hpos.
    apply Nat.leb_gt in Hlen. rewrite Hlen in Hpos.
    unfold Parser.parse_seed_value.
    rewrite (digits_strip _ Hd), (digits_lower _ Hd),
      (digits_not_reserved _ Hd Hne), Hpos. reflexivity.
  - intros value Hin.
    assert (Hres : forall v, PyStr.lower (PyStr.strip v) = PyStr.lower (PyStr.strip value) ->
                     Parser.parse_seed_value v = Ok None).
    { intros v Hv. unfold Parser.parse_seed_value. rewrite Hv.
      destruct Hin as [<- | [<- | [<- | []]]]; reflexivity. }
    split; [apply Hres; reflexivity|]. split; apply Hres.
    + rewrite strip_lower, lower_idempotent. reflexivity.
    + rewrite strip_idempotent. reflexivity.
Qed.

End ParserFacts.

(** * Further properties of the interactive session *)

Section InteractiveMore.
Context `{Constants} `{Builtins}.
Import Namespace Interactive.

Ltac lookup_case :=
  match goal with
  | Hget : (if String.eqb ?key ?k then _ else _) = Some _ |- _ =>
      let E := fresh "E" in
      destruct (String.eqb key k) eqn:E;
      [ apply String.eqb_eq in E; subst key;
        injection Hget as <- | ]
  end.

(** A canonical key is its own normal form and names a setter. *)
Lemma alias_target (key canonical : string) :
  dict_get KEY_ALIASES key = Some canonical ->
  _normalize_set_key canonical = canonical
  /\ is_Some (dict_get _interactive_setters canonical).
Proof.
  unfold KEY_ALIASES; cbn [dict_get]; intros Hget.
  repeat (lookup_case; [split; [reflexivity | eexists; reflexivity] | ]).
  discriminate Hget.
Qed.

(** X6. Key normalisation is a projection: a normalised key is left as
    it is, and a key is normalised the same way whatever its letter case
    and the blanks around it.  Every alias resolves to a key of the
    setters table. *)
Theorem normalize_set_key_idempotent (key : string) :
  _normalize_set_key (_normalize_set_key key) = _normalize_set_key key
  /\ _normalize_set_key (PyStr.lower key) = _normalize_set_key key
  /\ _normalize_set_key (PyStr.strip key) = _normalize_set_key key
  /\ (forall canonical,
        dict_get KEY_ALIASES (PyStr.lower (PyStr.strip key)) = Some canonical ->
        _normalize_set_key key = canonical
        /\ is_Some (dict_get _interactive_setters canonical)).
Proof.
  split; [|split; [|split]].
  - unfold _normalize_set_key at 2 3.
    destruct (dict_get KEY_ALIASES (PyStr.lower (PyStr.strip key))) as [canonical|] eqn:Hget.
    + exact (proj1 (alias_target _ _ Hget)).
    + unfold _normalize_set_key. rewrite lower_strip_idempotent, Hget. reflexivity.
  - unfold _normalize_set_key. rewrite strip_lower, lower_idempotent. reflexivity.
  - unfold _normalize_set_key. rewrite strip_idempotent. reflexivity.
  - intros canonical Hget. unfold _normalize_set_key. rewrite Hget.
    split; [reflexivity | exact (proj2 (alias_target _ _ Hget))].
Qed.

(** X8. A [/set] writes at most the attribute of its key: every other
    attribute of the record keeps its value, whether the value is
    accepted or refused. *)
Theorem set_changes_one_attribute
    (args defaults : Namespace) (key value : string) (other : attr) :
  (forall entry,
      dict_get _interactive_setters key = Some entry -> setter_attr entry <> other) ->
  getattr (fst (_apply_interactive_set args defaults key value)) other
  = getattr args other.
Proof.
  intros Hother.
  destruct (apply_interactive_set_spec args defaults key value)
    as [(Hst & _) | (entry & v & Hget & _ & Hres & _)].
  - rewrite Hst. reflexivity.
  - rewrite Hres. cbn [fst]. apply getattr_setattr_ne, Hother, Hget.
Qed.

(** *** Numbers given to [/set] *)

Lemma in_ranges_set_steps (args : Namespace) (n : Z) :
  in_ranges args -> (in_ranges (setattr args a_steps n) <-> 1 <= n <= 50).
Proof. destruct args. unfold in_ranges. cbn. intuition lia. Qed.

Lemma in_ranges_set_n_images (args : Namespace) (n : Z) :
  in_ranges args -> (in_ranges (setattr args a_n_images n) <-> 1 <= n <= 8).
Proof. destruct args. unfold in_ranges. cbn. intuition lia. Qed.

Lemma in_ranges_set_scale (args : Namespace) (x : float) :
  in_ranges args ->
  (in_ranges (setattr args a_scale x)
   <-> PrimFloat.leb 0.0 x = true /\ PrimFloat.leb x 10.0 = true).
Proof. destruct args. unfold in_ranges. cbn. intuition. Qed.

(** The verdict on a record, as a case distinction. *)
Lemma validate_args_verdict (args : Namespace) :
  (in_ranges args /\ Parser.validate_args args true = Parser.Validated)
  \/ (~ in_ranges args /\ exists exc, Parser.validate_args args true = Parser.Raised exc).
Proof.
  destruct (validate_args_interactive args) as [Hv | [exc Hv]].
  - left. split; [apply (validate_args_in_ranges args true), Hv | exact Hv].
  - right. split; [|eauto]. intros Hr.
    apply (validate_args_in_ranges args true) in Hr. congruence.
Qed.

(** What [_apply_interactive_set] gives for the three numbers with a
    range, on a record in range. *)
Lemma apply_set_steps (args defaults : Namespace) (value : string) :
  in_ranges args ->
  _apply_interactive_set args defaults "steps" value
  = match PyStr.int value with
    | None => (args, Invalid_value "steps" (Parser.ValueError_int value))
    | Some n =>
        if (1 <=? n) && (n <=? 50) then (setattr args a_steps n, Updated "steps")
        else (args, Rejected_value "steps" value)
    end.
Proof.
  intros Hvalid. unfold _apply_interactive_set.
  cbn [dict_get _interactive_setters String.eqb Ascii.eqb Bool.eqb].
  unfold apply_setter. cbn [setter_attr cast_fn]. unfold cast_int.
  destruct (PyStr.int value) as [n|]; [|reflexivity].
  destruct (validate_args_verdict (setattr args a_steps n)) as [[Hr ->] | [Hr [exc ->]]];
    rewrite (in_ranges_set_steps args n Hvalid) in Hr.
  - replace ((1 <=? n) && (n <=? 50)) with true by (symmetry; apply andb_true_iff; lia).
    reflexivity.
  - replace ((1 <=? n) && (n <=? 50)) with false by (symmetry; apply andb_false_iff; lia).
    rewrite setattr_rollback. reflexivity.
Qed.

Lemma apply_set_n_images (args defaults : Namespace) (value : string) :
  in_ranges args ->
  _apply_interactive_set args defaults "n-images" value
  = match PyStr.int value with
    | None => (args, Invalid_value "n-images" (Parser.ValueError_int value))
    | Some n =>
        if (1 <=? n) && (n <=? 8)
        then (setattr args a_n_images n, Updated "n-images")
        else (args, Rejected_value "n-images" value)
    end.
Proof.
  intros Hvalid. unfold _apply_interactive_set.
  cbn [dict_get _interactive_setters String.eqb Ascii.eqb Bool.eqb].
  unfold apply_setter. cbn [setter_attr cast_fn]. unfold cast_int.
  destruct (PyStr.int value) as [n|]; [|reflexivity].
  destruct (validate_args_verdict (setattr args a_n_images n))
    as [[Hr ->] | [Hr [exc ->]]];
    rewrite (in_ranges_set_n_images args n Hvalid) in Hr.
  - replace ((1 <=? n) && (n <=? 8)) with true by (symmetry; apply andb_true_iff; lia).
    reflexivity.
  - replace ((1 <=? n) && (n <=? 8)) with false by (symmetry; apply andb_false_iff; lia).
    rewrite setattr_rollback. reflexivity.
Qed.

Lemma apply_set_scale (args defaults : Namespace) (value : string) :
  in_ranges args ->
  _apply_interactive_set args defaults "scale" value
  = match py_float value with
    | None => (args, Invalid_value "scale" (Parser.ValueError_float value))
    | Some x =>
        if PrimFloat.leb 0.0 x && PrimFloat.leb x 10.0
        then (setattr args a_scale x, Updated "scale")
        else (args, Rejected_value "scale" value)
    end.
Proof.
  intros Hvalid. unfold _apply_interactive_set.
  cbn [dict_get _interactive_setters String.eqb Ascii.eqb Bool.eqb].
  unfold apply_setter. cbn [setter_attr cast_fn]. unfold cast_float.
  destruct (py_float value) as [x|]; [|reflexivity].
  destruct (validate_args_verdict (setattr args a_scale x)) as [[Hr ->] | [Hr [exc ->]]];
    rewrite (in_ranges_set_scale args x Hvalid) in Hr.
  - destruct Hr as [-> ->]. reflexivity.
  - replace (PrimFloat.leb 0.0 x && PrimFloat.leb x 10.0) with false.
    + rewrite setattr_rollback. reflexivity.
    + symmetry. destruct (PrimFloat.leb 0.0 x), (PrimFloat.leb x 10.0);
        try reflexivity. exfalso. apply Hr. split; reflexivity.
Qed.

(** *** [/unset] *)



(** *** The whole loop *)

Lemma parser_defaults_in_ranges : in_ranges Parser.parser_defaults.
Proof. apply (validate_args_in_ranges _ true). reflexivity. Qed.

Lemma in_ranges_unset (args defaults : Namespace) (a : attr) :
  in_ranges args -> in_ranges defaults ->
  in_ranges (setattr args a (_normalize_unset_value a defaults)).
Proof.
  destruct args, defaults. unfold in_ranges.
  destruct a; cbn; intuition.
Qed.

Lemma in_ranges_set_prompt (args : Namespace) (line : option string) :
  in_ranges args -> in_ranges (setattr args a_prompt line).
Proof. destruct args. unfold in_ranges. cbn. intuition. Qed.

(** The record a turn leaves behind. *)
Lemma apply_interactive_set_in_ranges (args defaults : Namespace) (key value : string) :
  in_ranges args -> in_ranges (fst (_apply_interactive_set args defaults key value)).
Proof.
  intros Hr. apply (validate_args_in_ranges _ true).
  apply apply_interactive_set_valid. apply (validate_args_in_ranges _ true), Hr.
Qed.

Lemma interactive_command_in_ranges (args defaults : Namespace) (tokens : list string) :
  in_ranges args -> in_ranges defaults ->
  match interactive_command args defaults tokens with
  | Continue a _ | Generate a | Uncaught a => in_ranges a
  | Break => True
  end.
Proof.
  intros Hr Hd. unfold interactive_command.
  destruct tokens as [|token0 rest]; [exact Hr|]. cbv zeta.
  destruct (PyStr.str_in (PyStr.lower token0) ["/quit"; "/exit"]); [exact I|].
  destruct (String.eqb (PyStr.lower token0) "/help"); [exact Hr|].
  destruct (String.eqb (PyStr.lower token0) "/show"); [exact Hr|].
  destruct (String.eqb (PyStr.lower token0) "/set").
  { destruct rest as [|key_token [|v vs]]; [exact Hr | exact Hr |].
    pose proof (apply_interactive_set_in_ranges args defaults
                  (_normalize_set_key key_token) (PyStr.join " " (v :: vs)) Hr) as Ha.
    destruct (_apply_interactive_set _ _ _ _) as [a r]. destruct r; exact Ha. }
  destruct (PyStr.str_in _ ["model"; "size"; "steps"; "scale"; "sampler"]).
  { destruct rest as [|v vs]; [exact Hr|].
    pose proof (apply_interactive_set_in_ranges args defaults
                  (_normalize_set_key (PyStr.lstrip_char "/" (PyStr.lower token0)))
                  (PyStr.join " " (v :: vs)) Hr) as Ha.
    destruct (_apply_interactive_set _ _ _ _) as [a r]. destruct r; exact Ha. }
  destruct (String.eqb (PyStr.lower token0) "/unset"); [|exact Hr].
  destruct rest as [|key_token [|? ?]]; [exact Hr | | exact Hr].
  destruct (attr_of_name _) as [a|]; [apply in_ranges_unset; assumption | exact Hr].
Qed.

Lemma interactive_turn_in_ranges (args defaults : Namespace) (input : prompt_input) :
  in_ranges args -> in_ranges defaults ->
  match interactive_turn args defaults input with
  | Continue a _ | Generate a | Uncaught a => in_ranges a
  | Break => True
  end.
Proof.
  intros Hr Hd. unfold interactive_turn.
  destruct input as [| |text]; [exact Hr | exact I |].
  destruct (PyStr.strip text) as [|c r] eqn:Hline; [exact Hr|].
  destruct (PyStr.startswith_char "/" (String c r)).
  - destruct (shlex_split (String c r)) as [tokens|]; [|exact Hr].
    apply interactive_command_in_ranges; assumption.
  - apply in_ranges_set_prompt, Hr.
Qed.

(** X12. The interactive loop keeps the record in range through every
    turn -- [/set], the shortcuts, [/unset], [/show], [/help], unknown
    commands, prompt lines, interrupts -- when it starts from a record
    in range and resets to the defaults of the parser, which are in
    range themselves; and whatever the tokeniser and the generation
    do. *)
Theorem session_stays_in_ranges (generation_returns : Namespace -> bool)
    (args : Namespace) (inputs : list prompt_input) :
  Parser.validate_args args true = Parser.Validated ->
  Parser.validate_args
    (run_turns generation_returns args Parser.parser_defaults inputs) true
  = Parser.Validated
  /\ Parser.validate_args Parser.parser_defaults true = Parser.Validated.
Proof.
  intros Hvalid. split; [|reflexivity].
  apply (validate_args_in_ranges _ true).
  apply (validate_args_in_ranges _ true) in Hvalid.
  revert args Hvalid.
  induction inputs as [|input rest IH]; intros args Hr; [exact Hr|].
  cbn [run_turns].
  pose proof (interactive_turn_in_ranges args Parser.parser_defaults input Hr
                parser_defaults_in_ranges) as Hturn.
  destruct (interactive_turn args Parser.parser_defaults input) as [a r| |a|a].
  - apply IH, Hturn.
  - exact Hr.
  - destruct (generation_returns a); [apply IH, Hturn | exact Hturn].
  - exact Hturn.
Qed.

End InteractiveMore.

(** ** The loop with the console and the object *)

Section SessionFacts.
Context `{Constants} `{Builtins} `{Console} `{Session.Namespace_object}.
Import Namespace Interactive Session.

Lemma store_same (s : session) : store s (session_args s) = s.
Proof. destruct s; reflexivity. Qed.

Lemma session_args_store (s : session) (args' : Namespace) :
  session_args (store s args') = args'.
Proof. destruct s; reflexivity. Qed.

Lemma session_of_print_report (s : session) (report : command_report) :
  session_of (print_report s report) = s.
Proof. unfold print_report. destruct (report_renders _ _); reflexivity. Qed.

(** A line that is no [/unset] of a name outside the parser does what
    [interactive_command] says, and its report goes to the console. *)
Lemma loop_command_unfold (s : session) (tokens : list string) :
  unset_other_key tokens = None ->
  interactive_loop_command s tokens
  = match interactive_command (session_args s) (session_defaults s) tokens with
    | Continue args None => Goes_on (store s args)
    | Continue args (Some report) => print_report (store s args) report
    | Break => Leaves s
    | Generate args => Generates (store s args)
    | Uncaught args => Raises (store s args) Exception_of_command
    end.
Proof. intros Hother. unfold interactive_loop_command. rewrite Hother. reflexivity. Qed.

(** [/set key value] hands the record and the report of
    [_apply_interactive_set] to the console. *)
Lemma loop_set_command (s : session) (key_token value : string) :
  interactive_loop_command s ["/set"; key_token; value]
  = print_report
      (store s (fst (_apply_interactive_set (session_args s) (session_defaults s)
                       (_normalize_set_key key_token) value)))
      (Set_report (snd (_apply_interactive_set (session_args s) (session_defaults s)
                          (_normalize_set_key key_token) value))).
Proof.
  rewrite loop_command_unfold by reflexivity.
  rewrite set_command_unfold. change (PyStr.join " " [value]) with value.
  pose proof (apply_interactive_set_no_exit (session_args s) (session_defaults s)
                (_normalize_set_key key_token) value) as Hne.
  destruct (_apply_interactive_set (session_args s) (session_defaults s)
              (_normalize_set_key key_token) value) as [a r].
  cbn [fst snd] in *. destruct r; try reflexivity.
  exfalso. exact (Hne exc eq_refl).
Qed.



(** X2. [/set reference value] stores [Some value], whatever the value
    and whether or not rich prints the confirmation: the cast [str]
    never gives [None], so the block of [_apply_interactive_set] that
    resets the siblings of [reference] is never entered, and the
    siblings keep their values. *)
Theorem set_reference_never_clears (s : session) (value : string) :
  Parser.validate_args (session_args s) true = Parser.Validated ->
  interactive_loop_command s ["/set"; "reference"; value]
  = print_report (store s (setattr (session_args s) a_reference (Some value)))
      (Set_report (Updated "reference"))
  /\ reference (session_args
                  (session_of (interactive_loop_command s ["/set"; "reference"; value])))
     = Some value
  /\ ref_type (session_args
                 (session_of (interactive_loop_command s ["/set"; "reference"; value])))
     = ref_type (session_args s)
  /\ ref_fidelity (session_args
                     (session_of (interactive_loop_command s ["/set"; "reference"; value])))
     = ref_fidelity (session_args s)
  /\ ref_strength (session_args
                     (session_of (interactive_loop_command s ["/set"; "reference"; value])))
     = ref_strength (session_args s).
Proof.
  intros Hvalid.
  assert (Hrun : interactive_loop_command s ["/set"; "reference"; value]
                 = print_report
                     (store s (setattr (session_args s) a_reference (Some value)))
                     (Set_report (Updated "reference"))).
  { rewrite loop_set_command. change (_normalize_set_key "reference") with "reference".
    rewrite (apply_set_reference _ _ value Hvalid). reflexivity. }
  split; [exact Hrun|].
  rewrite Hrun, session_of_print_report, session_args_store.
  destruct (session_args s); repeat split.
Qed.

(** X7. Each shortcut command is [/set] under another name: for every
    alias of [KEY_ALIASES], [/<alias> value ...] does what
    [/set <canonical key> value ...] does, to the record, to the
    console and to the loop; without a value it prints the setting,
    leaves the record as it is, and leaves the loop when rich refuses
    the line. *)
Theorem shortcuts_are_set :
  Forall (fun entry : string * string =>
            forall (s : session) (v : string) (vs : list string),
              interactive_loop_command s (("/" +:+ fst entry) :: v :: vs)
              = interactive_loop_command s ("/set" :: snd entry :: v :: vs)
              /\ interactive_loop_command s ["/" +:+ fst entry]
                 = (if report_renders (session_args s) (Current_short (snd entry))
                    then Goes_on s
                    else Raises s (MarkupError_of_report (Current_short (snd entry)))))
    KEY_ALIASES.
Proof.
  unfold KEY_ALIASES.
  repeat (constructor;
          [intros s v vs; split;
           [destruct vs; reflexivity
           | destruct s; reflexivity]|]).
  constructor.
Qed.

(** X9. On a record in range and for a value of ASCII characters,
    [/set steps v] stores [int(v)] exactly when it is an integer from 1
    to 50, [/set n-images v] exactly when it is from 1 to 8, and
    [/set scale v] stores [float(v)] exactly when it is a number
    between 0.0 and 10.0.  Every other value leaves the record as it
    was.  In each case the report goes to the console after the
    record is written. *)
Theorem set_number_accepts_iff (s : session) (value : string) :
  PyStr.is_ascii value = true ->
  Parser.validate_args (session_args s) true = Parser.Validated ->
  (interactive_loop_command s ["/set"; "steps"; value]
   = match PyStr.int value with
     | None =>
         print_report s (Set_report (Invalid_value "steps" (Parser.ValueError_int value)))
     | Some n =>
         if (1 <=? n) && (n <=? 50)
         then print_report (store s (setattr (session_args s) a_steps n))
                (Set_report (Updated "steps"))
         else print_report s (Set_report (Rejected_value "steps" value))
     end)
  /\ (forall n, PyStr.int value = Some n -> 1 <= n <= 50 ->
      session_of (interactive_loop_command s ["/set"; "steps"; value])
      = store s (setattr (session_args s) a_steps n))
  /\ (~ (exists n, PyStr.int value = Some n /\ 1 <= n <= 50) ->
      session_of (interactive_loop_command s ["/set"; "steps"; value]) = s)
  /\ (interactive_loop_command s ["/set"; "n-images"; value]
      = match PyStr.int value with
        | None =>
            print_report s
              (Set_report (Invalid_value "n-images" (Parser.ValueError_int value)))
        | Some n =>
            if (1 <=? n) && (n <=? 8)
            then print_report (store s (setattr (session_args s) a_n_images n))
                   (Set_report (Updated "n-images"))
            else print_report s (Set_report (Rejected_value "n-images" value))
        end)
  /\ (forall n, PyStr.int value = Some n -> 1 <= n <= 8 ->
      session_of (interactive_loop_command s ["/set"; "n-images"; value])
      = store s (setattr (session_args s) a_n_images n))
  /\ (~ (exists n, PyStr.int value = Some n /\ 1 <= n <= 8) ->
      session_of (interactive_loop_command s ["/set"; "n-images"; value]) = s)
  /\ (interactive_loop_command s ["/set"; "scale"; value]
      = match py_float value with
        | None =>
            print_report s
              (Set_report (Invalid_value "scale" (Parser.ValueError_float value)))
        | Some x =>
            if PrimFloat.leb 0.0 x && PrimFloat.leb x 10.0
            then print_report (store s (setattr (session_args s) a_scale x))
                   (Set_report (Updated "scale"))
            else print_report s (Set_report (Rejected_value "scale" value))
        end)
  /\ (forall x, py_float value = Some x ->
      PrimFloat.leb 0.0 x = true -> PrimFloat.leb x 10.0 = true ->
      session_of (interactive_loop_command s ["/set"; "scale"; value])
      = store s (setattr (session_args s) a_scale x))
  /\ (~ (exists x, py_float value = Some x
                   /\ PrimFloat.leb 0.0 x = true /\ PrimFloat.leb x 10.0 = true) ->
      session_of (interactive_loop_command s ["/set"; "scale"; value]) = s).
Proof.
  intros _ Hvalid. apply (validate_args_in_ranges (session_args s) true) in Hvalid.
  assert (Hsteps : interactive_loop_command s ["/set"; "steps"; value]
            = match PyStr.int value with
              | None =>
                  print_report s
                    (Set_report (Invalid_value "steps" (Parser.ValueError_int value)))
              | Some n =>
                  if (1 <=? n) && (n <=? 50)
                  then print_report (store s (setattr (session_args s) a_steps n))
                         (Set_report (Updated "steps"))
                  else print_report s (Set_report (Rejected_value "steps" value))
              end).
  { rewrite loop_set_command. change (_normalize_set_key "steps") with "steps".
    rewrite (apply_set_steps _ _ value Hvalid).
    destruct (PyStr.int value) as [n|]; [destruct ((1 <=? n) && (n <=? 50))|];
      cbn [fst snd]; rewrite ?store_same; reflexivity. }
  assert (Himages : interactive_loop_command s ["/set"; "n-images"; value]
            = match PyStr.int value with
              | None =>
                  print_report s
                    (Set_report (Invalid_value "n-images" (Parser.ValueError_int value)))
              | Some n =>
                  if (1 <=? n) && (n <=? 8)
                  then print_report (store s (setattr (session_args s) a_n_images n))
                         (Set_report (Updated "n-images"))
                  else print_report s (Set_report (Rejected_value "n-images" value))
              end).
  { rewrite loop_set_command. change (_normalize_set_key "n-images") with "n-images".
    rewrite (apply_set_n_images _ _ value Hvalid).
    destruct (PyStr.int value) as [n|]; [destruct ((1 <=? n) && (n <=? 8))|];
      cbn [fst snd]; rewrite ?store_same; reflexivity. }
  assert (Hscale : interactive_loop_command s ["/set"; "scale"; value]
            = match py_float value with
              | None =>
                  print_report s
                    (Set_report (Invalid_value "scale" (Parser.ValueError_float value)))
              | Some x =>
                  if PrimFloat.leb 0.0 x && PrimFloat.leb x 10.0
                  then print_report (store s (setattr (session_args s) a_scale x))
                         (Set_report (Updated "scale"))
                  else print_report s (Set_report (Rejected_value "scale" value))
              end).
  { rewrite loop_set_command. change (_normalize_set_key "scale") with "scale".
    rewrite (apply_set_scale _ _ value Hvalid).
    destruct (py_float value) as [x|];
      [destruct (PrimFloat.leb 0.0 x && PrimFloat.leb x 10.0)|];
      cbn [fst snd]; rewrite ?store_same; reflexivity. }
  split; [exact Hsteps|]. split; [|split].
  { intros n Hn Hr. rewrite Hsteps, Hn.
    replace ((1 <=? n) && (n <=? 50)) with true by (symmetry; apply andb_true_iff; lia).
    apply session_of_print_report. }
  { intros Hno. rewrite Hsteps.
    destruct (PyStr.int value) as [n|]; [|apply session_of_print_report].
    destruct ((1 <=? n) && (n <=? 50)) eqn:Hb; [|apply session_of_print_report].
    exfalso. apply Hno. exists n. split; [reflexivity|].
    apply andb_true_iff in Hb. lia. }
  split; [exact Himages|]. split; [|split].
  { intros n Hn Hr. rewrite Himages, Hn.
    replace ((1 <=? n) && (n <=? 8)) with true by (symmetry; apply andb_true_iff; lia).
    apply session_of_print_report. }
  { intros Hno. rewrite Himages.
    destruct (PyStr.int value) as [n|]; [|apply session_of_print_report].
    destruct ((1 <=? n) && (n <=? 8)) eqn:Hb; [|apply session_of_print_report].
    exfalso. apply Hno. exists n. split; [reflexivity|].
    apply andb_true_iff in Hb. lia. }
  split; [exact Hscale|]. split.
  { intros x Hx Hlo Hhi. rewrite Hscale, Hx, Hlo, Hhi.
    apply session_of_print_report. }
  { intros Hno. rewrite Hscale.
    destruct (py_float value) as [x|]; [|apply session_of_print_report].
    destruct (PrimFloat.leb 0.0 x) eqn:Hlo, (PrimFloat.leb x 10.0) eqn:Hhi;
      cbn [andb]; try apply session_of_print_report.
    exfalso. apply Hno. exists x. auto. }
Qed.



End SessionFacts.

(** * Further properties of the request payloads *)

Section PayloadMore.
Context `{Builtins} `{Console} `{Service}.
Import Generation.

Lemma as_object_dict_Some (payload : gmap string json) (k : string) (d : gmap string json) :
  _as_object_dict (py_get payload k) = Some d <-> payload !! k = Some (JDict d).
Proof.
  unfold py_get. destruct (payload !! k) as [v|]; cbn [default from_option id].
  - destruct v; cbn [_as_object_dict]; split; intros Heq; try discriminate;
      injection Heq as <-; reflexivity.
  - cbn [_as_object_dict]. split; discriminate.
Qed.

(** The sanitised payload, key by key. *)
Lemma sanitize_lookup (payload : gmap string json) :
  (forall k, k ∉ ImageGenerationRequest_fields ∪ StreamImageGenerationRequest_fields ->
             _sanitize_low_level_payload payload !! k = None)
  /\ (forall k, k ∈ ImageGenerationRequest_fields ∪ StreamImageGenerationRequest_fields ->
                k <> "parameters" ->
                _sanitize_low_level_payload payload !! k = payload !! k)
  /\ ("parameters" ∈ ImageGenerationRequest_fields ∪ StreamImageGenerationRequest_fields ->
      _sanitize_low_level_payload payload !! "parameters"
      = match payload !! "parameters" with
        | Some (JDict params) =>
            Some (JDict (keep_keys (ImageParameters_fields ∪ ImageStreamParameters_fields)
                           params))
        | other => other
        end).
Proof.
  set (top := ImageGenerationRequest_fields ∪ StreamImageGenerationRequest_fields).
  set (inner := ImageParameters_fields ∪ ImageStreamParameters_fields).
  assert (Hlook : forall k, keep_keys top payload !! k
                            = if decide (k ∈ top) then payload !! k else None).
  { intros k. destruct (decide (k ∈ top)) as [Hin|Hout].
    - destruct (payload !! k) as [v|] eqn:Hk.
      + apply keep_keys_lookup. split; assumption.
      + destruct (keep_keys top payload !! k) as [v|] eqn:Hk'; [|reflexivity].
        apply keep_keys_lookup in Hk'. destruct Hk' as [Hk' _]. congruence.
    - destruct (keep_keys top payload !! k) as [v|] eqn:Hk'; [|reflexivity].
      apply keep_keys_lookup in Hk'. destruct Hk' as [_ Hk']. contradiction. }
  assert (Hother : forall k, k <> "parameters" ->
            _sanitize_low_level_payload payload !! k = keep_keys top payload !! k).
  { intros k Hne. unfold _sanitize_low_level_payload. fold top inner.
    destruct (_as_object_dict (py_get (keep_keys top payload) "parameters"));
      [|reflexivity].
    apply lookup_insert_ne. congruence. }
  split; [|split].
  - intros k Hout. destruct (decide (k = "parameters")) as [->|Hne].
    + unfold _sanitize_low_level_payload. fold top inner.
      destruct (_as_object_dict (py_get (keep_keys top payload) "parameters"))
        as [d|] eqn:Hd.
      * apply as_object_dict_Some in Hd. rewrite Hlook in Hd.
        destruct (decide ("parameters" ∈ top)); [contradiction | discriminate].
      * rewrite Hlook. destruct (decide ("parameters" ∈ top)); [contradiction | reflexivity].
    + rewrite (Hother k Hne), Hlook. destruct (decide (k ∈ top)); [contradiction | reflexivity].
  - intros k Hin Hne. rewrite (Hother k Hne), Hlook.
    destruct (decide (k ∈ top)); [reflexivity | contradiction].
  - intros Hin. unfold _sanitize_low_level_payload. fold top inner.
    assert (Hkeep : keep_keys top payload !! "parameters" = payload !! "parameters").
    { rewrite Hlook. destruct (decide ("parameters" ∈ top)); [reflexivity | contradiction]. }
    unfold py_get. rewrite Hkeep.
    destruct (payload !! "parameters") as [v|] eqn:Hv; cbn [default from_option id].
    + destruct v; cbn [_as_object_dict]; try (rewrite Hkeep; reflexivity).
      apply lookup_insert_eq.
    + cbn [_as_object_dict]. exact Hkeep.
Qed.

(** X13. What the sanitiser keeps.  A key of the result is a field of
    one of the two request models; a value under a key other than
    ["parameters"] is the value the payload had; a mapping under
    ["parameters"] is cut down to the fields of the two parameter
    models, each with the value it had, and a value there that is no
    mapping stays.  A payload that holds known keys only is returned as
    it is. *)
Theorem sanitize_keeps_known_keys (payload : gmap string json) :
  (forall k, is_Some (_sanitize_low_level_payload payload !! k) ->
             k ∈ ImageGenerationRequest_fields ∪ StreamImageGenerationRequest_fields
             /\ is_Some (payload !! k))
  /\ (forall k, k ∈ ImageGenerationRequest_fields ∪ StreamImageGenerationRequest_fields ->
                k <> "parameters" ->
                _sanitize_low_level_payload payload !! k = payload !! k)
  /\ (forall v, "parameters" ∈ ImageGenerationRequest_fields ∪ StreamImageGenerationRequest_fields ->
                payload !! "parameters" = Some v ->
                (forall params, v <> JDict params) ->
                _sanitize_low_level_payload payload !! "parameters" = Some v)
  /\ (forall params,
        "parameters" ∈ ImageGenerationRequest_fields ∪ StreamImageGenerationRequest_fields ->
        payload !! "parameters" = Some (JDict params) ->
        exists kept,
          _sanitize_low_level_payload payload !! "parameters" = Some (JDict kept)
          /\ forall k v, kept !! k = Some v
                         <-> params !! k = Some v
                             /\ k ∈ ImageParameters_fields ∪ ImageStreamParameters_fields)
  /\ ((forall k, is_Some (payload !! k) ->
                 k ∈ ImageGenerationRequest_fields ∪ StreamImageGenerationRequest_fields) ->
      (forall params k, payload !! "parameters" = Some (JDict params) ->
                        is_Some (params !! k) ->
                        k ∈ ImageParameters_fields ∪ ImageStreamParameters_fields) ->
      _sanitize_low_level_payload payload = payload).
Proof.
  destruct (sanitize_lookup payload) as (Hout & Hsame & Hparams).
  set (top := ImageGenerationRequest_fields ∪ StreamImageGenerationRequest_fields) in *.
  set (inner := ImageParameters_fields ∪ ImageStreamParameters_fields) in *.
  split; [|split; [|split; [|split]]].
  - intros k Hsome. destruct (decide (k ∈ top)) as [Hin|Hnin].
    + split; [exact Hin|]. destruct (decide (k = "parameters")) as [->|Hne].
      * rewrite (Hparams Hin) in Hsome.
        destruct (payload !! "parameters"); [eauto | exact Hsome].
      * rewrite (Hsame k Hin Hne) in Hsome. exact Hsome.
    + rewrite (Hout k Hnin) in Hsome. destruct Hsome as [? Hx]. discriminate Hx.
  - exact Hsame.
  - intros v Hin Hv Hnd. rewrite (Hparams Hin), Hv.
    destruct v; try reflexivity. exfalso. exact (Hnd d eq_refl).
  - intros params Hin Hv. exists (keep_keys inner params).
    split; [rewrite (Hparams Hin), Hv; reflexivity|].
    intros k v. apply keep_keys_lookup.
  - intros Htop Hinner.
    assert (Hclean : keep_keys top payload = payload).
    { apply map_filter_id. intros k v Hk. apply Htop. exists v. exact Hk. }
    unfold _sanitize_low_level_payload. fold top inner. rewrite Hclean.
    destruct (_as_object_dict (py_get payload "parameters")) as [d|] eqn:Hd;
      [|reflexivity].
    apply as_object_dict_Some in Hd.
    assert (Hd' : keep_keys inner d = d).
    { apply map_filter_id. intros k v Hk. apply (Hinner d k Hd). exists v. exact Hk. }
    rewrite Hd'. apply insert_id, Hd.
Qed.

(** X14. A ["stream"] key in the parameters of a low-level payload
    survives the sanitiser, and so switches the request to streaming,
    exactly when ["parameters"] is a field of a request model and
    ["stream"] a field of a parameter model; its value plays no part. *)
Theorem stream_in_sanitized_payload_iff (payload : gmap string json) :
  stream_in_payload (_sanitize_low_level_payload payload) = true
  <-> "parameters" ∈ ImageGenerationRequest_fields ∪ StreamImageGenerationRequest_fields
      /\ "stream" ∈ ImageParameters_fields ∪ ImageStreamParameters_fields
      /\ exists params, payload !! "parameters" = Some (JDict params)
                        /\ is_Some (params !! "stream").
Proof.
  set (top := ImageGenerationRequest_fields ∪ StreamImageGenerationRequest_fields).
  set (inner := ImageParameters_fields ∪ ImageStreamParameters_fields).
  destruct (sanitize_lookup payload) as (Hout & _ & Hparams).
  fold top inner in Hout, Hparams.
  unfold stream_in_payload, py_in, py_get.
  destruct (decide ("parameters" ∈ top)) as [Hin|Hnin].
  - rewrite (Hparams Hin).
    destruct (payload !! "parameters") as [v|] eqn:Hv; cbn [default from_option id].
    + destruct v; cbn [default from_option id _as_object_dict];
        try (split; [discriminate | intros (_ & _ & params & Hp & _); discriminate]).
      rewrite bool_decide_eq_true. split.
      * intros [x Hx]. apply keep_keys_lookup in Hx. destruct Hx as [Hx Hs].
        split; [exact Hin|]. split; [exact Hs|]. exists d. split; [reflexivity | eauto].
      * intros (_ & Hs & params & Hp & [x Hx]). injection Hp as <-.
        exists x. apply keep_keys_lookup. split; assumption.
    + cbn [_as_object_dict].
      split; [discriminate | intros (_ & _ & params & Hp & _); discriminate].
  - rewrite (Hout _ Hnin). cbn [default from_option id _as_object_dict].
    split; [discriminate | intros (Hin & _); contradiction].
Qed.

(** X15. With [force_stream] set, the normaliser leaves a payload whose
    parameters mapping says [stream = "sse"]: every other parameter and
    every other key of the payload is as it was, the warning is printed
    exactly when the payload asked for another stream mode (a missing
    or null one is set without a word), and a normalised payload is
    normalised again into itself.  The warning quotes the mode that was
    asked for: when rich refuses it, [MarkupError] leaves the normaliser
    and no payload is returned.  A payload without a parameters mapping
    is returned as it is. *)
Theorem normalize_forces_sse (payload : gmap string json) :
  (forall params, payload !! "parameters" = Some (JDict params) ->
     ((forall v, overridden_stream params = Some v ->
                 line_renders (Line_stream_override v) = true) ->
      snd (_normalize_low_level_stream_mode payload true)
      = Ok (normalized_payload payload true)
      /\ (exists params',
             normalized_payload payload true !! "parameters" = Some (JDict params')
             /\ params' !! "stream" = Some (JStr "sse")
             /\ forall k, k <> "stream" -> params' !! k = params !! k)
      /\ (forall k, k <> "parameters" ->
          normalized_payload payload true !! k = payload !! k)
      /\ fst (_normalize_low_level_stream_mode payload true)
         = match overridden_stream params with
           | Some v => [Warn_stream_override v]
           | None => []
           end
      /\ _normalize_low_level_stream_mode (normalized_payload payload true) true
         = ([], Ok (normalized_payload payload true)))
     /\ (forall v, overridden_stream params = Some v ->
                   line_renders (Line_stream_override v) = false ->
                   _normalize_low_level_stream_mode payload true
                   = ([], Raise (MarkupError (Line_stream_override v)))))
  /\ ((forall params, payload !! "parameters" <> Some (JDict params)) ->
      _normalize_low_level_stream_mode payload true = ([], Ok payload)).
Proof.
  split.
  - intros params Hp.
    assert (Hobj : _as_object_dict (py_get payload "parameters") = Some params)
      by (apply as_object_dict_Some, Hp).
    assert (Hsse : forall q : gmap string json,
              q !! "parameters" = Some (JDict (<["stream" := JStr "sse"]> params)) ->
              _normalize_low_level_stream_mode q true = ([], Ok q)).
    { intros q Hq. unfold _normalize_low_level_stream_mode.
      rewrite (proj2 (as_object_dict_Some q "parameters" _) Hq).
      rewrite py_get_insert. reflexivity. }
    assert (Hset : forall v,
              py_get params "stream" = v -> is_not_sse v = true ->
              _normalize_low_level_stream_mode payload true
              = if is_not_None v then
                  if line_renders (Line_stream_override v) then
                    ([Warn_stream_override v],
                     Ok (<["parameters" := JDict (<["stream" := JStr "sse"]> params)]> payload))
                  else ([], Raise (MarkupError (Line_stream_override v)))
                else
                  ([], Ok (<["parameters" := JDict (<["stream" := JStr "sse"]> params)]> payload))).
    { intros v Hv Hn. unfold _normalize_low_level_stream_mode. rewrite Hobj, Hv, Hn.
      cbn [andb]. destruct (is_not_None v); [|reflexivity].
      rewrite bind_print. destruct (line_renders _); reflexivity. }
    assert (Hdone : forall events,
              _normalize_low_level_stream_mode payload true
              = (events,
                 Ok (<["parameters" := JDict (<["stream" := JStr "sse"]> params)]> payload)) ->
              snd (_normalize_low_level_stream_mode payload true)
              = Ok (normalized_payload payload true)
              /\ (exists params',
                     normalized_payload payload true !! "parameters" = Some (JDict params')
                     /\ params' !! "stream" = Some (JStr "sse")
                     /\ forall k, k <> "stream" -> params' !! k = params !! k)
              /\ (forall k, k <> "parameters" ->
                  normalized_payload payload true !! k = payload !! k)
              /\ fst (_normalize_low_level_stream_mode payload true) = events
              /\ _normalize_low_level_stream_mode (normalized_payload payload true) true
                 = ([], Ok (normalized_payload payload true))).
    { intros events Hrun. unfold normalized_payload. rewrite Hrun. cbn [fst snd].
      split; [reflexivity|].
      split; [eexists; split; [apply lookup_insert_eq|];
              split; [apply lookup_insert_eq |
                      intros k Hk; apply lookup_insert_ne; congruence]|].
      split; [intros k Hk; apply lookup_insert_ne; congruence|].
      split; [reflexivity|].
      apply Hsse, lookup_insert_eq. }
    (* a warning is due for [v] *)
    assert (Hdue : forall v,
              py_get params "stream" = v -> is_not_sse v = true -> is_not_None v = true ->
              overridden_stream params = Some v ->
              ((forall v', overridden_stream params = Some v' ->
                           line_renders (Line_stream_override v') = true) ->
               snd (_normalize_low_level_stream_mode payload true)
               = Ok (normalized_payload payload true)
               /\ (exists params',
                      normalized_payload payload true !! "parameters" = Some (JDict params')
                      /\ params' !! "stream" = Some (JStr "sse")
                      /\ forall k, k <> "stream" -> params' !! k = params !! k)
               /\ (forall k, k <> "parameters" ->
                   normalized_payload payload true !! k = payload !! k)
               /\ fst (_normalize_low_level_stream_mode payload true)
                  = match overridden_stream params with
                    | Some v => [Warn_stream_override v]
                    | None => []
                    end
               /\ _normalize_low_level_stream_mode (normalized_payload payload true) true
                  = ([], Ok (normalized_payload payload true)))
              /\ (forall v', overridden_stream params = Some v' ->
                             line_renders (Line_stream_override v') = false ->
                             _normalize_low_level_stream_mode payload true
                             = ([], Raise (MarkupError (Line_stream_override v'))))).
    { intros v Hv Hn Hnn Ho. rewrite Ho. pose proof (Hset v Hv Hn) as Hrun.
      rewrite Hnn in Hrun. split.
      - intros Hr. rewrite (Hr v eq_refl) in Hrun. apply Hdone, Hrun.
      - intros v' Hv' Hf. injection Hv' as <-. rewrite Hf in Hrun. exact Hrun. }
    (* no warning is due, and the entry is written *)
    assert (Hquiet : forall v,
              py_get params "stream" = v -> is_not_sse v = true -> is_not_None v = false ->
              overridden_stream params = None ->
              ((forall v', overridden_stream params = Some v' ->
                           line_renders (Line_stream_override v') = true) ->
               snd (_normalize_low_level_stream_mode payload true)
               = Ok (normalized_payload payload true)
               /\ (exists params',
                      normalized_payload payload true !! "parameters" = Some (JDict params')
                      /\ params' !! "stream" = Some (JStr "sse")
                      /\ forall k, k <> "stream" -> params' !! k = params !! k)
               /\ (forall k, k <> "parameters" ->
                   normalized_payload payload true !! k = payload !! k)
               /\ fst (_normalize_low_level_stream_mode payload true)
                  = match overridden_stream params with
                    | Some v => [Warn_stream_override v]
                    | None => []
                    end
               /\ _normalize_low_level_stream_mode (normalized_payload payload true) true
                  = ([], Ok (normalized_payload payload true)))
              /\ (forall v', overridden_stream params = Some v' ->
                             line_renders (Line_stream_override v') = false ->
                             _normalize_low_level_stream_mode payload true
                             = ([], Raise (MarkupError (Line_stream_override v'))))).
    { intros v Hv Hn Hnn Ho. rewrite Ho. pose proof (Hset v Hv Hn) as Hrun.
      rewrite Hnn in Hrun. split; [intros _; apply Hdone, Hrun | discriminate]. }
    destruct (params !! "stream") as [v|] eqn:Hs.
    + assert (Hv : py_get params "stream" = v) by (unfold py_get; rewrite Hs; reflexivity).
      destruct v as [|b|n|x|s|items|d];
        try (apply (Hdue _ Hv); [reflexivity | reflexivity |];
             unfold overridden_stream; rewrite Hs; reflexivity).
      * apply (Hquiet _ Hv); [reflexivity | reflexivity |].
        unfold overridden_stream. rewrite Hs. reflexivity.
      * destruct (String.eqb s "sse") eqn:Heq.
        -- assert (Ho : overridden_stream params = None)
             by (unfold overridden_stream; rewrite Hs, Heq; reflexivity).
           apply String.eqb_eq in Heq. subst s.
           assert (Hrun : _normalize_low_level_stream_mode payload true = ([], Ok payload)).
           { unfold _normalize_low_level_stream_mode. rewrite Hobj, Hv. reflexivity. }
           rewrite Ho. split; [|discriminate]. intros _.
           unfold normalized_payload. rewrite Hrun. cbn [fst snd].
           split; [reflexivity|].
           split; [exists params; split; [exact Hp | split; [exact Hs | reflexivity]]|].
           split; [reflexivity|]. split; [reflexivity|]. exact Hrun.
        -- apply (Hdue _ Hv).
           ++ cbn [is_not_sse]. rewrite Heq. reflexivity.
           ++ reflexivity.
           ++ unfold overridden_stream. rewrite Hs, Heq. reflexivity.
    + assert (Hv : py_get params "stream" = JNull) by (unfold py_get; rewrite Hs; reflexivity).
      apply (Hquiet _ Hv); [reflexivity | reflexivity |].
      unfold overridden_stream. rewrite Hs. reflexivity.
  - intros Hno. unfold _normalize_low_level_stream_mode.
    destruct (_as_object_dict (py_get payload "parameters")) as [d|] eqn:Hd; [|reflexivity].
    apply as_object_dict_Some in Hd. exfalso. exact (Hno d Hd).
Qed.

End PayloadMore.

(** * Further properties of the files and the runs *)

Section FileNames.

Lemma length_append (a b : string) :
  String.length (a +:+ b) = (String.length a + String.length b)%nat.
Proof.
  induction a as [|c a IH]; [reflexivity|].
  rewrite append_cons. cbn [String.length]. rewrite IH. reflexivity.
Qed.

Lemma append_inj_r (a b s : string) : a +:+ s = b +:+ s -> a = b.
Proof.
  revert b. induction a as [|c a IH]; intros [|c' b] Heq.
  - reflexivity.
  - apply (f_equal String.length) in Heq. rewrite !length_append in Heq.
    cbn [String.length] in Heq. lia.
  - apply (f_equal String.length) in Heq. rewrite !length_append in Heq.
    cbn [String.length] in Heq. lia.
  - rewrite !append_cons in Heq. injection Heq as -> Heq. f_equal. apply IH, Heq.
Qed.

Lemma contains_char_app (c : ascii) (a b : string) :
  PyStr.contains_char c (a +:+ b)
  = PyStr.contains_char c a || PyStr.contains_char c b.
Proof.
  induction a as [|x a IH]; [reflexivity|].
  rewrite append_cons. cbn [PyStr.contains_char]. rewrite IH. apply orb_assoc.
Qed.

Lemma digits_without (c : ascii) (s : string) :
  PyStr.digit_value c = None -> all_digits s = true -> PyStr.contains_char c s = false.
Proof.
  intros Hc. induction s as [|a r IH]; [reflexivity|].
  cbn [all_digits PyStr.contains_char].
  destruct (PyStr.digit_value a) as [d|] eqn:Ha; [|discriminate].
  intros Hr. rewrite (IH Hr).
  destruct (Ascii.eqb a c) eqn:Heq; [|reflexivity].
  apply Ascii.eqb_eq in Heq. subst a. congruence.
Qed.

Lemma all_digits_app (a b : string) :
  all_digits a = true -> all_digits b = true -> all_digits (a +:+ b) = true.
Proof.
  intros Ha Hb. induction a as [|c a IH]; [exact Hb|].
  rewrite append_cons. cbn [all_digits] in *.
  destruct (PyStr.digit_value c); [apply IH, Ha | discriminate].
Qed.

Lemma zeros_digits (k : nat) : all_digits (PyStr.zeros k) = true.
Proof. induction k as [|k IH]; [reflexivity | exact IH]. Qed.

Lemma format_04d_digits (n : nat) : all_digits (PyStr.format_04d n) = true.
Proof.
  unfold PyStr.format_04d. apply all_digits_app;
    [apply zeros_digits | apply str_of_nat_digits].
Qed.

Lemma zeros_read (k : nat) (s : string) :
  option_map Nat.of_uint (NilEmpty.uint_of_string (PyStr.zeros k +:+ s))
  = option_map Nat.of_uint (NilEmpty.uint_of_string s).
Proof.
  induction k as [|k IH]; [reflexivity|].
  cbn [PyStr.zeros]. rewrite append_cons. cbn [NilEmpty.uint_of_string].
  destruct (NilEmpty.uint_of_string (PyStr.zeros k +:+ s)) as [d|];
    cbn [option_map] in *; rewrite <- IH; reflexivity.
Qed.

(** The number of a zero-padded numeral can be read back. *)
Lemma format_04d_read (n : nat) :
  option_map Nat.of_uint (NilEmpty.uint_of_string (PyStr.format_04d n)) = Some n.
Proof.
  unfold PyStr.format_04d. cbv zeta. rewrite zeros_read.
  unfold PyStr.str_of_nat. rewrite NilEmpty.usu. cbn [option_map].
  rewrite DecimalNat.Unsigned.of_to. reflexivity.
Qed.

Lemma format_04d_inj (n m : nat) : PyStr.format_04d n = PyStr.format_04d m -> n = m.
Proof.
  intros Heq. pose proof (format_04d_read n) as Hn. rewrite Heq, format_04d_read in Hn.
  injection Hn as Hn. symmetry. exact Hn.
Qed.

(** A numbered file name: no separator in it, and the number can be
    read back. *)
Lemma numbered_name_inj (stem : string) (n m : nat) :
  stem +:+ PyStr.format_04d n +:+ ".png" = stem +:+ PyStr.format_04d m +:+ ".png" -> n = m.
Proof.
  intros Heq. apply String.app_inj in Heq. apply append_inj_r in Heq.
  apply format_04d_inj, Heq.
Qed.

Lemma numbered_name_plain (stem : string) (n : nat) :
  PyStr.contains_char "/" stem = false ->
  PyStr.contains_char "/" (stem +:+ PyStr.format_04d n +:+ ".png") = false.
Proof.
  intros Hstem. rewrite !contains_char_app, Hstem.
  rewrite (digits_without "/" _ eq_refl (format_04d_digits n)). reflexivity.
Qed.

(** [Path(name)] for a plain file name. *)
Lemma of_str_name (name : string) :
  PyStr.contains_char "/" name = false -> name <> "" -> name <> "." ->
  Path.of_str name = Path.mk "" [name].
Proof.
  intros Hplain Hne Hdot. destruct name as [|c r]; [contradiction|].
  assert (Hc : Ascii.eqb c "/" = false).
  { cbn [PyStr.contains_char] in Hplain. apply orb_false_iff in Hplain. apply Hplain. }
  assert (Hof : Path.of_str (String c r)
                = Path.mk "" (filter Path.keep_part (PyStr.split "/" (String c r)))).
  { destruct c as [[] [] [] [] [] [] [] []];
      first [reflexivity | (vm_compute in Hc; discriminate Hc)]. }
  rewrite Hof, (split_without_sep _ _ Hplain).
  assert (Hkeep : Path.keep_part (String c r) = true).
  { unfold Path.keep_part. apply String.eqb_neq in Hdot. rewrite Hdot. reflexivity. }
  rewrite filter_cons_True by (rewrite Hkeep; exact I). reflexivity.
Qed.

Lemma joinpath_name (directory : Path) (name : string) :
  PyStr.contains_char "/" name = false -> name <> "" -> name <> "." ->
  Path.joinpath directory name
  = Path.mk (Path.root directory) (Path.parts directory ++ [name])
  /\ Path.parent (Path.joinpath directory name) = directory
  /\ Path.name (Path.joinpath directory name) = name.
Proof.
  intros Hplain Hne Hdot. unfold Path.joinpath. rewrite (of_str_name _ Hplain Hne Hdot).
  cbn [Path.root Path.parts]. split; [reflexivity|]. split.
  - unfold Path.parent. cbn [Path.root Path.parts].
    destruct (Path.parts directory ++ [name]) as [|p ps] eqn:Hps.
    + destruct (Path.parts directory); discriminate Hps.
    + rewrite <- Hps, removelast_last. destruct directory; reflexivity.
  - unfold Path.name. cbn [Path.parts]. apply last_last.
Qed.

End FileNames.

Section RunMore.
Context `{Builtins} `{Console} `{Service}.
Import Generation.

Local Notation "x <- m ;; k" := (bind m (fun x => k))
  (at level 100, m at next level, right associativity).
Local Notation "m ;; k" := (bind m (fun _ => k))
  (at level 100, right associativity).

(** *** The files of [_save_images] *)

Lemma numbered_name_facts (stem : string) (c : ascii) (n : nat) :
  PyStr.contains_char "/" (String c stem) = false ->
  PyStr.contains_char "/" (String c stem +:+ PyStr.format_04d n +:+ ".png") = false
  /\ String c stem +:+ PyStr.format_04d n +:+ ".png" <> ""
  /\ String c stem +:+ PyStr.format_04d n +:+ ".png" <> ".".
Proof.
  intros Hstem. split; [apply numbered_name_plain, Hstem|].
  rewrite append_cons. split; [discriminate|].
  intros Heq. injection Heq as _ Heq.
  apply (f_equal String.length) in Heq. rewrite !length_append in Heq.
  cbn [String.length] in Heq. lia.
Qed.

Lemma numbered_path_inj (directory : Path) (stem : string) (c : ascii) (n m : nat) :
  PyStr.contains_char "/" (String c stem) = false ->
  Path.joinpath directory (String c stem +:+ PyStr.format_04d n +:+ ".png")
  = Path.joinpath directory (String c stem +:+ PyStr.format_04d m +:+ ".png") ->
  n = m.
Proof.
  intros Hstem Heq.
  destruct (numbered_name_facts stem c n Hstem) as (Hn1 & Hn2 & Hn3).
  destruct (numbered_name_facts stem c m Hstem) as (Hm1 & Hm2 & Hm3).
  rewrite (proj1 (joinpath_name directory _ Hn1 Hn2 Hn3)) in Heq.
  rewrite (proj1 (joinpath_name directory _ Hm1 Hm2 Hm3)) in Heq.
  injection Heq as Heq. apply app_inv_head in Heq.
  assert (Hname : String c stem +:+ PyStr.format_04d n +:+ ".png"
                  = String c stem +:+ PyStr.format_04d m +:+ ".png")
    by congruence.
  apply (numbered_name_inj (String c stem)), Hname.
Qed.

Lemma save_numbered_output (output_path : Path) (images : list Image) (i : nat) :
  Forall (fun e => is_output_event e = true) (fst (save_numbered output_path i images))
  /\ Forall (fun e => forall d, e <> Mkdir d) (fst (save_numbered output_path i images)).
Proof.
  revert i. induction images as [|img rest IH]; intros i; [split; constructor|].
  cbn [save_numbered]. rewrite bind_emit. unfold success. rewrite bind_print.
  destruct (IH (S i)) as [Ho Hm].
  destruct (line_renders _); cbn [fst];
    split; repeat (constructor; [first [reflexivity | discriminate]|]);
    first [assumption | constructor].
Qed.




(** *** The files of [_save_stream_chunks] *)

Lemma nth_chunk_path_facts (stream_dir : string) (n m : nat) :
  Path.parent (nth_chunk_path stream_dir n) = Path.of_str stream_dir
  /\ (nth_chunk_path stream_dir n = nth_chunk_path stream_dir m -> n = m).
Proof.
  unfold nth_chunk_path. split.
  - destruct (numbered_name_facts "hunk_" "c" n eq_refl) as (H2 & H3 & H4).
    exact (proj1 (proj2 (joinpath_name _ _ H2 H3 H4))).
  - apply (numbered_path_inj _ "hunk_" "c" _ _ eq_refl).
Qed.

Lemma save_chunks_output (output_dir : Path) (chunks : list ImageStreamChunk)
    (total_bytes chunk_count : nat) :
  Forall (fun e => is_output_event e = true)
    (fst (save_chunks output_dir chunks total_bytes chunk_count)).
Proof.
  revert total_bytes chunk_count.
  induction chunks as [|chunk rest IH]; intros total_bytes chunk_count; [constructor|].
  cbn [save_chunks]. destruct (b64decode (chunk_image chunk)); [|constructor].
  rewrite bind_emit. unfold info. rewrite bind_print.
  destruct (line_renders _); cbn [fst]; repeat constructor. apply IH.
Qed.

(** X17. The chunk files of a stream are [chunk_0001.png],
    [chunk_0002.png], ... without a gap, each with the decoded bytes of
    its chunk: they all lie in the stream directory, and no chunk
    overwrites the file of another, however long the stream is.  When
    rich prints the line of every chunk, there is one file for each
    chunk up to the first that does not decode, and for all of them
    when they all decode; when it refuses the line of a chunk, that
    chunk is the last with a file. *)
Theorem stream_chunk_files (chunks : list ImageStreamChunk) (stream_dir : string) :
  exists n,
    (n <= length chunks)%nat
    /\ written_files (fst (_save_stream_chunks chunks stream_dir))
       = imap (fun i chunk => (nth_chunk_path stream_dir (i + 1), decoded chunk))
           (take n chunks)
    /\ Forall decodes (take n chunks)
    /\ map fst (written_files (fst (_save_stream_chunks chunks stream_dir)))
       = map (nth_chunk_path stream_dir) (seq 1 n)
    /\ NoDup (map fst (written_files (fst (_save_stream_chunks chunks stream_dir))))
    /\ Forall (fun f => Path.parent (fst f) = Path.of_str stream_dir)
         (written_files (fst (_save_stream_chunks chunks stream_dir)))
    /\ ((forall message,
            snd (_save_stream_chunks chunks stream_dir)
            <> Raise (MarkupError (Line_info message))) ->
        n = length chunks
        \/ exists bad text,
             chunks !! n = Some bad /\ b64decode (chunk_image bad) = Raise text)
    /\ (forall message,
          snd (_save_stream_chunks chunks stream_dir)
          = Raise (MarkupError (Line_info message)) ->
          (1 <= n)%nat
          /\ exists size total,
               message = "Received chunk " +:+ PyStr.str_of_nat n +:+ ": "
                         +:+ PyStr.str_of_nat size +:+ " bytes (total: "
                         +:+ PyStr.str_of_nat total +:+ " bytes)").
Proof.
  destruct (save_chunks_run stream_dir chunks 0 0) as (n & Hn & Hdec & Hfiles & Hres).
  rewrite (save_stream_chunks_files chunks stream_dir), Hfiles.
  assert (Hpaths : map fst (imap (fun i chunk =>
                                    (nth_chunk_path stream_dir (0 + i + 1), decoded chunk))
                              (take n chunks))
                   = map (nth_chunk_path stream_dir) (seq 1 n)).
  { apply list_eq. intros k.
    change (map ?f ?l) with (f <$> l).
    rewrite !list_lookup_fmap, list_lookup_imap.
    destruct (decide (k < n)%nat) as [Hlt | Hge].
    - rewrite (lookup_seq_lt _ _ _ Hlt).
      destruct (lookup_lt_is_Some_2 (take n chunks) k) as [c Hc];
        [rewrite length_take; lia|].
      rewrite Hc. cbn. f_equal. f_equal. lia.
    - rewrite lookup_seq_ge by lia.
      rewrite (lookup_ge_None_2 (take n chunks) k) by (rewrite length_take; lia).
      reflexivity. }
  assert (Hsnd : snd (_save_stream_chunks chunks stream_dir)
                 = match snd (save_chunks (Path.of_str stream_dir) chunks 0 0) with
                   | Ok (total_bytes, chunk_count) =>
                       if (chunk_count =? 0)%nat then Raise (RuntimeError no_chunks_message)
                       else snd (success ("Streaming complete! Received "
                                          +:+ PyStr.str_of_nat total_bytes
                                          +:+ " bytes total") ;;
                                 success ("Saved " +:+ PyStr.str_of_nat chunk_count
                                          +:+ " chunks to: "
                                          +:+ Path.to_str (Path.of_str stream_dir)))
                   | Raise e => Raise e
                   end)
    by apply save_stream_chunks_unfold.
  exists n. split; [exact Hn|]. split.
  { apply imap_ext. intros i c _. reflexivity. }
  split; [exact Hdec|]. split; [exact Hpaths|]. split.
  { rewrite Hpaths. change (map ?f ?l) with (f <$> l). apply NoDup_fmap_2_strong.
    - intros a b _ _ Heq. exact (proj2 (nth_chunk_path_facts stream_dir a b) Heq).
    - apply NoDup_seq. }
  split.
  { apply list.Forall_forall. intros f Hin.
    assert (Hin' : fst f ∈ map fst (imap (fun i chunk =>
                     (nth_chunk_path stream_dir (0 + i + 1), decoded chunk))
                     (take n chunks))).
    { change (map ?g ?l) with (g <$> l). apply list_elem_of_fmap.
      exists f. split; [reflexivity | exact Hin]. }
    rewrite Hpaths in Hin'. change (map ?g ?l) with (g <$> l) in Hin'.
    apply list_elem_of_fmap in Hin'. destruct Hin' as (k & -> & _).
    exact (proj1 (nth_chunk_path_facts stream_dir k k)). }
  split.
  - intros Hprints. rewrite Hsnd in Hprints.
    destruct (snd (save_chunks _ _ _ _)) as [[t k]|[]]; try contradiction.
    + left. exact (proj1 Hres).
    + right. destruct Hres as (bad & Hbad & Hraise). eauto.
    + destruct Hres as [_ (size & total & ->)]. exfalso. exact (Hprints _ eq_refl).
  - intros message Hraise. rewrite Hsnd in Hraise.
    destruct (snd (save_chunks _ _ _ _)) as [[t k]|e].
    + destruct (k =? 0)%nat; [discriminate|].
      destruct (closing_lines
                  ("Streaming complete! Received " +:+ PyStr.str_of_nat t +:+ " bytes total")
                  ("Saved " +:+ PyStr.str_of_nat k +:+ " chunks to: "
                   +:+ Path.to_str (Path.of_str stream_dir)))
        as [[Hok _] | (m & Hm & _)]; rewrite Hraise in *; discriminate.
    + injection Hraise as ->. destruct Hres as [Hone (size & total & Hline)].
      split; [exact Hone|]. exists size, total. injection Hline as ->. reflexivity.
Qed.

(** *** The calls and the end of a run *)

Lemma output_no_call (trace : list event) :
  Forall (fun e => is_output_event e = true) trace ->
  Forall (fun e => is_call e = false) trace.
Proof.
  intros Ho. eapply Forall_impl; [exact Ho|].
  intros e He. destruct e; first [reflexivity | discriminate He].
Qed.

Lemma output_no_fail (trace : list event) :
  Forall (fun e => is_output_event e = true) trace ->
  Forall (fun e => forall message, e <> Fail message) trace.
Proof.
  intros Ho. eapply Forall_impl; [exact Ho|].
  intros e He message ->. discriminate He.
Qed.

Lemma warnings_no_fail (warnings : list event) :
  Forall is_override_warning warnings ->
  Forall (fun e => forall message, e <> Fail message) warnings.
Proof.
  intros Hw. eapply Forall_impl; [exact Hw|]. intros e [v ->] message. discriminate.
Qed.

Lemma save_stream_chunks_end (chunks : list ImageStreamChunk) (stream_dir : string) :
  Forall (fun e => is_output_event e = true) (fst (_save_stream_chunks chunks stream_dir))
  /\ (forall u, snd (_save_stream_chunks chunks stream_dir) = Ok u ->
      exists message,
        last (fst (_save_stream_chunks chunks stream_dir)) = Some (Success message)).
Proof.
  destruct (save_stream_chunks_unfold chunks stream_dir) as [Htrace Hres].
  rewrite Htrace, Hres.
  assert (Hclose : forall t n,
            Forall (fun e => is_output_event e = true)
              (fst (success ("Streaming complete! Received " +:+ PyStr.str_of_nat t
                             +:+ " bytes total") ;;
                    success ("Saved " +:+ PyStr.str_of_nat n +:+ " chunks to: "
                             +:+ Path.to_str (Path.of_str stream_dir))))
            /\ (forall u,
                  snd (success ("Streaming complete! Received " +:+ PyStr.str_of_nat t
                                +:+ " bytes total") ;;
                       success ("Saved " +:+ PyStr.str_of_nat n +:+ " chunks to: "
                                +:+ Path.to_str (Path.of_str stream_dir))) = Ok u ->
                  exists before message,
                    fst (success ("Streaming complete! Received " +:+ PyStr.str_of_nat t
                                  +:+ " bytes total") ;;
                         success ("Saved " +:+ PyStr.str_of_nat n +:+ " chunks to: "
                                  +:+ Path.to_str (Path.of_str stream_dir)))
                    = before ++ [Success message])).
  { intros t n.
    destruct (closing_lines
                ("Streaming complete! Received " +:+ PyStr.str_of_nat t +:+ " bytes total")
                ("Saved " +:+ PyStr.str_of_nat n +:+ " chunks to: "
                 +:+ Path.to_str (Path.of_str stream_dir)))
      as [[Hok ->] | (m & Hm & [-> | ->])].
    - split; [repeat constructor|]. intros u _. eexists [_], _. reflexivity.
    - split; [constructor|]. intros u Hu. rewrite Hm in Hu. discriminate Hu.
    - split; [repeat constructor|]. intros u Hu. rewrite Hm in Hu. discriminate Hu. }
  split.
  - constructor; [reflexivity|]. apply Forall_app. split; [apply save_chunks_output|].
    destruct (snd (save_chunks _ _ _ _)) as [[t n]|e]; [|constructor].
    destruct (n =? 0)%nat; [constructor | apply Hclose].
  - intros u. destruct (snd (save_chunks _ _ _ _)) as [[t n]|e]; [|discriminate].
    destruct (n =? 0)%nat; [discriminate|]. intros Hok.
    destruct (proj2 (Hclose t n) u Hok) as (before & message & ->).
    exists message. rewrite app_comm_cons, app_assoc. apply last_snoc.
Qed.

Lemma save_then_report_end (output : string) (images : list Image) :
  Forall (fun e => is_output_event e = true)
    (fst (_save_images images output ;; success (generated_message (length images))))
  /\ (forall u,
        snd (_save_images images output ;; success (generated_message (length images)))
        = Ok u ->
        exists message,
          last (fst (_save_images images output ;;
                     success (generated_message (length images))))
          = Some (Success message)).
Proof.
  rewrite bind_fst, bind_snd.
  assert (Hout : Forall (fun e => is_output_event e = true) (fst (_save_images images output))).
  { unfold _save_images.
    destruct images as [|img [|img' rest]];
      rewrite ?bind_emit; unfold success; rewrite ?print_line_run;
      try destruct (line_renders _); cbn [fst]; repeat constructor;
      apply save_numbered_output. }
  destruct (save_images_result images output) as [Hok | [message Hraise]].
  - rewrite Hok. unfold success. rewrite print_line_run.
    destruct (line_renders _); cbn [fst snd].
    + split; [apply Forall_app; split; [exact Hout | repeat constructor]|].
      intros u _. eexists. apply last_snoc.
    + split; [rewrite app_nil_r; exact Hout | discriminate].
  - rewrite Hraise. split; [rewrite app_nil_r; exact Hout | discriminate].
Qed.

(** One dispatch: its calls, its events and its last line. *)
Lemma dispatch_shape {R X : Type} (banner : string)
    (validate : gmap string json -> result string R) (call : R -> event)
    (transport : R -> result exn X) (consume : X -> M unit)
    (payload : gmap string json) :
  (forall request, is_call (call request) = true) ->
  (forall x, Forall (fun e => is_output_event e = true) (fst (consume x))) ->
  (forall x u, snd (consume x) = Ok u ->
               exists message, last (fst (consume x)) = Some (Success message)) ->
  (client_calls (fst (info banner ;;
                      request <- model_validate validate payload ;;
                      emit (call request) ;;
                      x <- lift (transport request) ;;
                      consume x)) = []
   \/ exists c,
        client_calls (fst (info banner ;;
                           request <- model_validate validate payload ;;
                           emit (call request) ;;
                           x <- lift (transport request) ;;
                           consume x)) = [c])
  /\ Forall (fun e => forall message, e <> Fail message)
       (fst (info banner ;;
             request <- model_validate validate payload ;;
             emit (call request) ;;
             x <- lift (transport request) ;;
             consume x))
  /\ (forall u,
        snd (info banner ;;
             request <- model_validate validate payload ;;
             emit (call request) ;;
             x <- lift (transport request) ;;
             consume x) = Ok u ->
        exists message,
          last (fst (info banner ;;
                     request <- model_validate validate payload ;;
                     emit (call request) ;;
                     x <- lift (transport request) ;;
                     consume x)) = Some (Success message)).
Proof.
  intros Hcall Hout Hend.
  destruct (dispatch_run banner validate call transport consume payload) as [-> ->].
  destruct (line_renders (Line_info banner)).
  2:{ split; [left; reflexivity|]. split; [constructor | discriminate]. }
  split; [|split].
  - change (client_calls (Info ?b :: ?t)) with (client_calls t).
    destruct (validate payload) as [request|text]; [|left; reflexivity].
    right. exists (call request).
    rewrite (proj1 (call_observed (call request) _ (Hcall request))). f_equal.
    apply client_calls_none.
    destruct (transport request) as [x|e]; [apply output_no_call, Hout | constructor].
  - constructor; [discriminate|].
    destruct (validate payload) as [request|text]; [|constructor].
    constructor.
    + intros message Heq. pose proof (Hcall request) as Hc. rewrite Heq in Hc. discriminate Hc.
    + destruct (transport request) as [x|e]; [|constructor]. apply output_no_fail, Hout.
  - intros u. destruct (validate payload) as [request|text]; [|discriminate].
    destruct (transport request) as [x|e]; [|discriminate].
    intros Hok. destruct (Hend x u Hok) as [message Hlast]. exists message.
    rewrite !last_cons, Hlast. reflexivity.
Qed.

(** The [try] block: at most one call, no line of failure, and a line
    of success at the end when it returns. *)
Lemma request_json_body_shape (args : Namespace) (payload : gmap string json) :
  (client_calls (fst (request_json_body args payload)) = []
   \/ exists call, client_calls (fst (request_json_body args payload)) = [call])
  /\ Forall (fun e => forall message, e <> Fail message)
       (fst (request_json_body args payload))
  /\ (forall u, snd (request_json_body args payload) = Ok u ->
      exists message, last (fst (request_json_body args payload)) = Some (Success message)).
Proof.
  destruct (is_low_level payload) eqn:Hlow.
  - destruct (request_json_body_low_level args payload Hlow)
      as [(v & _ & ->) | (warnings & Hwarn & _ & Hbody)].
    { split; [left; reflexivity|]. split; [constructor | discriminate]. }
    cbv zeta in Hbody. rewrite Hbody. cbn [fst snd]. clear Hbody.
    rewrite client_calls_app, (client_calls_none warnings (warnings_no_call _ Hwarn)).
    cbn [app].
    destruct (Namespace.stream args || stream_in_payload _).
    + match goal with
      | |- context [fst (bind (info ?b) (fun _ => bind (model_validate ?v ?p) _))] =>
          destruct (dispatch_shape b v Call_api_generate_stream
                      api_client_image_generate_stream
                      (fun chunks => _save_stream_chunks chunks (Namespace.stream_dir args))
                      p (fun _ => eq_refl)
                      (fun x => proj1 (save_stream_chunks_end x _))
                      (fun x => proj2 (save_stream_chunks_end x _)))
            as (Hc & Hf & Hl)
      end.
      split; [exact Hc|]. split.
      * apply Forall_app. split; [apply warnings_no_fail, Hwarn | exact Hf].
      * intros u Hok. destruct (Hl u Hok) as [message Hlast]. exists message.
        rewrite last_app, Hlast. reflexivity.
    + match goal with
      | |- context [fst (bind (info ?b) (fun _ => bind (model_validate ?v ?p) _))] =>
          destruct (dispatch_shape b v Call_api_generate
                      api_client_image_generate
                      (fun images => _save_images images (Namespace.output args) ;;
                                     success (generated_message (length images)))
                      p (fun _ => eq_refl)
                      (fun x => proj1 (save_then_report_end _ x))
                      (fun x => proj2 (save_then_report_end _ x)))
            as (Hc & Hf & Hl)
      end.
      split; [exact Hc|]. split.
      * apply Forall_app. split; [apply warnings_no_fail, Hwarn | exact Hf].
      * intros u Hok. destruct (Hl u Hok) as [message Hlast]. exists message.
        rewrite last_app, Hlast. reflexivity.
  - unfold request_json_body. rewrite Hlow.
    destruct (Namespace.stream args).
    + exact (dispatch_shape high_level_stream_banner GenerateImageStreamParams_validate
               Call_generate_stream client_image_generate_stream
               (fun chunks => _save_stream_chunks chunks (Namespace.stream_dir args))
               payload (fun _ => eq_refl)
               (fun x => proj1 (save_stream_chunks_end x _))
               (fun x => proj2 (save_stream_chunks_end x _))).
    + exact (dispatch_shape high_level_banner GenerateImageParams_validate
               Call_generate client_image_generate
               (fun images => _save_images images (Namespace.output args) ;;
                              success (generated_message (length images)))
               payload (fun _ => eq_refl)
               (fun x => proj1 (save_then_report_end _ x))
               (fun x => proj2 (save_then_report_end _ x))).
Qed.

(** X18. A run of [generate_from_request_json] calls the client at most
    once.  It returns, or exits with status 1, or [MarkupError] leaves
    it from a line of failure that rich refuses, nothing else.  It
    exits exactly when its last line is a line of failure, and no line
    of failure is printed before the last; a run that returns ends on a
    line of success; a run that [MarkupError] leaves has printed no
    line of failure. *)
Theorem request_json_run_shape (args : Namespace) (payload : gmap string json) :
  (length (client_calls (fst (generate_from_request_json args payload))) <= 1)%nat
  /\ (snd (generate_from_request_json args payload) = Returned
      \/ snd (generate_from_request_json args payload) = SystemExit 1
      \/ exists message,
           snd (generate_from_request_json args payload)
           = Propagated (MarkupError (Line_fail message)))
  /\ (snd (generate_from_request_json args payload) = SystemExit 1
      <-> exists message,
            last (fst (generate_from_request_json args payload)) = Some (Fail message))
  /\ (snd (generate_from_request_json args payload) = Returned ->
      exists message,
        last (fst (generate_from_request_json args payload)) = Some (Success message))
  /\ (forall before message after,
        fst (generate_from_request_json args payload) = before ++ Fail message :: after ->
        after = [])
  /\ (forall e,
        snd (generate_from_request_json args payload) = Propagated e ->
        Forall (fun event => forall message, event <> Fail message)
          (fst (generate_from_request_json args payload))).
Proof.
  destruct (generate_from_request_json_run args payload) as [-> ->].
  destruct (request_json_body_shape args payload) as (Hcalls & Hfail & Hlast).
  assert (Hin : forall before message after,
            fst (request_json_body args payload) = before ++ Fail message :: after -> False).
  { intros before message after Heq. rewrite Heq in Hfail.
    apply Forall_app in Hfail. destruct Hfail as [_ Hfail].
    inversion Hfail as [|? ? Hhead _]. exact (Hhead message eq_refl). }
  assert (Hnot : forall message,
            last (fst (request_json_body args payload)) <> Some (Fail message)).
  { intros message Hl. apply last_Some in Hl. destruct Hl as [before Hl].
    apply (Hin before message []). exact Hl. }
  destruct (snd (request_json_body args payload)) as [u|e] eqn:Hres.
  - rewrite app_nil_r. destruct (Hlast u eq_refl) as [message Hend].
    split; [destruct Hcalls as [-> | [c ->]]; cbn [length]; lia|].
    split; [left; reflexivity|].
    split; [split; [discriminate | intros [m Hm]; congruence]|].
    split; [intros _; eauto|].
    split; [|discriminate].
    intros before message' after Heq. exfalso. exact (Hin _ _ _ Heq).
  - rewrite fail_and_exit_run.
    destruct (line_renders (Line_fail (failure_message e))); cbn [fst snd].
    + split.
      { rewrite client_calls_app.
        change (client_calls [Fail (failure_message e)]) with (@nil event).
        rewrite app_nil_r. destruct Hcalls as [-> | [c ->]]; cbn [length]; lia. }
      split; [right; left; reflexivity|].
      split; [split; [intros _; eexists; apply last_snoc | reflexivity]|].
      split; [discriminate|]. split; [|discriminate].
      intros before message' after Heq.
      destruct after as [|x after _] using rev_ind; [reflexivity|]. exfalso.
      rewrite app_comm_cons, app_assoc in Heq. apply app_inj_tail in Heq.
      destruct Heq as [Heq _]. exact (Hin _ _ _ Heq).
    + rewrite app_nil_r.
      split; [destruct Hcalls as [-> | [c ->]]; cbn [length]; lia|].
      split; [right; right; eauto|].
      split; [split; [discriminate | intros [m Hm]; exfalso; exact (Hnot m Hm)]|].
      split; [discriminate|].
      split; [|intros _ _; exact Hfail].
      intros before message' after Heq. exfalso. exact (Hin _ _ _ Heq).
Qed.

End RunMore.

(** * The properties on concrete inputs

    Each statement below is closed: the sample collaborators of
    [Sample] stand for the classes. *)

Section Examples.
Import Sample.

(** The session of the specification: [/set st 999] is refused and
    leaves [steps] at 23, [/st 30] is accepted; [nan] is refused as a
    scale. *)
Example session_steps :
  Namespace.steps
    (@Interactive.run_commands constants builtins
       (@Parser.parser_defaults constants) (@Parser.parser_defaults constants)
       [["/set"; "st"; "999"]])
  = 23
  /\ Namespace.steps
       (@Interactive.run_commands constants builtins
          (@Parser.parser_defaults constants) (@Parser.parser_defaults constants)
          [["/set"; "st"; "999"]; ["/st"; "30"]; ["/set"; "scale"; "nan"]])
     = 30
  /\ @Interactive.interactive_command constants builtins
       (@Parser.parser_defaults constants) (@Parser.parser_defaults constants)
       ["/set"; "scale"; "nan"]
     = Interactive.Continue (@Parser.parser_defaults constants)
         (Some (Interactive.Set_report (Interactive.Rejected_value "scale" "nan"))).
Proof. repeat split; vm_compute; reflexivity. Qed.

(** What [int] reads and what it refuses. *)
Example int_literals :
  PyStr.int " 1_000 " = Some 1000
  /\ PyStr.int "-007" = Some (-7)
  /\ PyStr.int (String (ascii_of_nat 28) "5") = None
  /\ PyStr.strip (String (ascii_of_nat 28) "5") = "5"
  /\ PyStr.int "1__0" = None
  /\ PyStr.int "+" = None.
Proof. repeat split. Qed.

(** The lines of a session on the sample console: a size that reads as
    a closing tag is stored and ends the loop; [/unset __dict__] makes
    the record the one of the defaults, and from then on a [/set] is
    not undone by [/unset]; a size that closes and opens the style of
    the prompt is shown in the prompt and refused in the line of
    [/res]. *)
Example session_lines :
  let defaults := @Parser.parser_defaults constants in
  let start := Session.Own_dict defaults defaults in
  @Session.interactive_loop_turn constants builtins console namespace_object
    start (Interactive.Line "/set size [/x]")
  = Session.Raises
      (Session.Own_dict (Namespace.setattr defaults Namespace.a_size "[/x]") defaults)
      (Session.MarkupError_of_report
         (Interactive.Set_report (Interactive.Updated "size")))
  /\ @Session.interactive_loop_turn constants builtins console namespace_object
       (Session.Own_dict (Namespace.setattr defaults Namespace.a_steps 30) defaults)
       (Interactive.Line "/unset --dict--")
     = Session.Goes_on (Session.Shared_dict defaults)
  /\ @Session.interactive_loop_turn constants builtins console namespace_object
       (Session.Shared_dict defaults) (Interactive.Line "/set steps 30")
     = Session.Goes_on (Session.Shared_dict (Namespace.setattr defaults Namespace.a_steps 30))
  /\ @Session.interactive_loop_turn constants builtins console namespace_object
       (Session.Shared_dict (Namespace.setattr defaults Namespace.a_steps 30))
       (Interactive.Line "/unset steps")
     = Session.Goes_on (Session.Shared_dict (Namespace.setattr defaults Namespace.a_steps 30))
  /\ @Session.interactive_loop_turn constants builtins console namespace_object
       start (Interactive.Line "/unset __weakref__")
     = Session.Raises start (Session.AttributeError "__weakref__")
  /\ @Session.interactive_loop_turn constants builtins console namespace_object
       (Session.Own_dict (Namespace.setattr defaults Namespace.a_size "[/dim][dim]")
          defaults)
       (Interactive.Line "/res")
     = Session.Raises
         (Session.Own_dict (Namespace.setattr defaults Namespace.a_size "[/dim][dim]")
            defaults)
         (Session.MarkupError_of_report (Interactive.Current_short "size")).
Proof. repeat split; vm_compute; reflexivity. Qed.

End Examples.

Lemma set_commands_preserve_validity_witness :
  Parser.validate_args
    (@Interactive.run_commands Sample.constants Sample.builtins
       (@Parser.parser_defaults Sample.constants) (@Parser.parser_defaults Sample.constants)
       [["/set"; "st"; "999"]; ["/set"; "cfg"; "6.5"]; ["/set"; "model"; "unknown"]])
    true
  = Parser.Validated.
Proof.
  exact (proj1 (@set_commands_preserve_validity Sample.constants Sample.builtins
                  (@Parser.parser_defaults Sample.constants)
                  (@Parser.parser_defaults Sample.constants)
                  [["st"; "999"]; ["cfg"; "6.5"]; ["model"; "unknown"]]
                  eq_refl)).
Defined.



(** The failing input of C2: a reference with fidelity 0.5 is unset,
    and the fidelity stays at 0.5 where the default is 1.0. *)
Lemma unset_reference_failing_input :
  let defaults := @Parser.parser_defaults Sample.constants in
  let args :=
    Namespace.setattr
      (Namespace.setattr defaults Namespace.a_reference (Some "ref.png"))
      Namespace.a_ref_fidelity 0.5%float in
  exists args',
    @Interactive.interactive_command Sample.constants Sample.builtins
      args defaults ["/unset"; "reference"]
    = Interactive.Continue args' (Some (Interactive.Unset_done "reference"))
    /\ Namespace.reference args' = None
    /\ Namespace.ref_fidelity args' = 0.5%float
    /\ Namespace.ref_fidelity defaults = 1.0%float.
Proof. eexists. repeat split. Qed.








Lemma set_reference_never_clears_witness :
  Namespace.reference
    (Session.session_args
       (Session.session_of
          (@Session.interactive_loop_command Sample.constants Sample.builtins
             Sample.console Sample.namespace_object
             (Session.Own_dict (@Parser.parser_defaults Sample.constants)
                (@Parser.parser_defaults Sample.constants))
             ["/set"; "reference"; "none"])))
  = Some "none".
Proof.
  exact (proj1 (proj2
    (@set_reference_never_clears Sample.constants Sample.builtins
       Sample.console Sample.namespace_object
       (Session.Own_dict (@Parser.parser_defaults Sample.constants)
          (@Parser.parser_defaults Sample.constants))
       "none" eq_refl))).
Defined.

(** ** Further closed instances *)

Lemma set_changes_one_attribute_witness :
  Namespace.getattr
    (fst (@Interactive._apply_interactive_set Sample.constants Sample.builtins
            (@Parser.parser_defaults Sample.constants)
            (@Parser.parser_defaults Sample.constants) "steps" "30"))
    Namespace.a_scale
  = 5.0%float.
Proof.
  refine (@set_changes_one_attribute Sample.constants Sample.builtins
            (@Parser.parser_defaults Sample.constants)
            (@Parser.parser_defaults Sample.constants) "steps" "30" Namespace.a_scale _).
  intros entry Hget. unfold Interactive._interactive_setters in Hget.
  cbn [Interactive.dict_get String.eqb Ascii.eqb Bool.eqb] in Hget.
  injection Hget as <-. cbn [Interactive.setter_attr]. discriminate.
Defined.

Lemma set_number_accepts_iff_witness :
  Session.session_of
    (@Session.interactive_loop_command Sample.constants Sample.builtins
       Sample.console Sample.namespace_object
       (Session.Own_dict (@Parser.parser_defaults Sample.constants)
          (@Parser.parser_defaults Sample.constants))
       ["/set"; "steps"; "30"])
  = Session.Own_dict
      (Namespace.setattr (@Parser.parser_defaults Sample.constants) Namespace.a_steps 30)
      (@Parser.parser_defaults Sample.constants)
  /\ Session.session_of
       (@Session.interactive_loop_command Sample.constants Sample.builtins
          Sample.console Sample.namespace_object
          (Session.Own_dict (@Parser.parser_defaults Sample.constants)
             (@Parser.parser_defaults Sample.constants))
          ["/set"; "steps"; "999"])
     = Session.Own_dict (@Parser.parser_defaults Sample.constants)
         (@Parser.parser_defaults Sample.constants).
Proof.
  split.
  - pose proof (@set_number_accepts_iff Sample.constants Sample.builtins
                  Sample.console Sample.namespace_object
                  (Session.Own_dict (@Parser.parser_defaults Sample.constants)
                     (@Parser.parser_defaults Sample.constants))
                  "30" eq_refl eq_refl) as (_ & Hstore & _).
    apply Hstore; [reflexivity | lia].
  - pose proof (@set_number_accepts_iff Sample.constants Sample.builtins
                  Sample.console Sample.namespace_object
                  (Session.Own_dict (@Parser.parser_defaults Sample.constants)
                     (@Parser.parser_defaults Sample.constants))
                  "999" eq_refl eq_refl) as (_ & _ & Hkeep & _).
    apply Hkeep. intros (n & Hn & Hr).
    change (PyStr.int "999") with (Some 999) in Hn. injection Hn as <-. lia.
Defined.


Lemma session_stays_in_ranges_witness :
  Parser.validate_args
    (@run_turns Sample.constants Sample.builtins (fun _ => true)
       (@Parser.parser_defaults Sample.constants) (@Parser.parser_defaults Sample.constants)
       [Interactive.Line "/st 999"; Interactive.Line "1girl, cat ears";
        Interactive.KeyboardInterrupt; Interactive.Line "/unset scale";
        Interactive.Line "/set n-images 4"])
    true
  = Parser.Validated.
Proof.
  exact (proj1 (@session_stays_in_ranges Sample.constants Sample.builtins (fun _ => true)
                  (@Parser.parser_defaults Sample.constants)
                  [Interactive.Line "/st 999"; Interactive.Line "1girl, cat ears";
                   Interactive.KeyboardInterrupt; Interactive.Line "/unset scale";
                   Interactive.Line "/set n-images 4"]
                  eq_refl)).
Defined.
